(** * Book Review REST API

    A model of the two Express routers (books, reviews), of the Mongoose
    models they use and of the rating aggregate [updateBookRating], with
    the properties of the written specification stated over it.

    Layout: the embedding of the program comes first (JavaScript numbers,
    ObjectIds, the ISBN regular expression, documents, the collections and
    the Mongoose operations, the validators, the route handlers); lemmas
    and the properties follow. *)

From Stdlib Require Import ZArith NArith List Bool Lia String Ascii Permutation.
From Stdlib Require Import Floats.SpecFloat.
Import ListNotations.

Local Open Scope string_scope.
Local Open Scope list_scope.
Local Open Scope Z_scope.

(* ================================================================== *)
(** * JavaScript numbers *)
(* ================================================================== *)

(** A JavaScript Number is an IEEE 754 binary64 value: [spec_float] with
    53 bits of precision.  Integer-valued quantities that stay below 2^53
    (lengths, counters, sums of ratings, years) are carried as [Z]; they
    are converted with [ofZ] where the program divides them. *)
Module JSNumber.

Definition Number := spec_float.

Definition ofZ (z : Z) : Number := binary_normalize 53 1024 z 0 false.

(** The operator [/]. *)
Definition div (x y : Number) : Number := SFdiv 53 1024 x y.

Definition leb (x y : Number) : bool := SFleb x y.

(** The string produced by [x.toFixed(2)]: either decimal digits with
    two decimals, kept as a sign and a count of hundredths
    ([FixedDigits false 450] is "4.50"), or, for a value that is not
    finite or is at least 10^21, the string of the number itself. *)
Inductive FixedString :=
| FixedDigits (neg : bool) (hundredths : Z)
| FixedOther (x : Number).

(** [value >= 10^21] for the positive finite value [m * 2^e]. *)
Definition atLeast1e21 (m : positive) (e : Z) : bool :=
  if 0 <=? e then 10 ^ 21 <=? Z.pos m * 2 ^ e
  else 10 ^ 21 <=? Z.pos m / 2 ^ (- e).

(** [Number.prototype.toFixed] with 2 fraction digits: the integer [n]
    for which [n / 100 - x] is as close to zero as possible, the larger
    one when there are two. *)
Definition toFixed2 (x : Number) : FixedString :=
  match x with
  | S754_zero _ => FixedDigits false 0
  | S754_finite s m e =>
      if atLeast1e21 m e then FixedOther x
      else
        FixedDigits s
          (if 0 <=? e then 100 * Z.pos m * 2 ^ e
           else (200 * Z.pos m + 2 ^ (- e)) / 2 ^ (1 - e))
  | _ => FixedOther x
  end.

(** Mongoose casts a string given for a [Number] path with [Number(s)]:
    the binary64 value nearest to the decimal, which for [n / 100] is
    the correctly rounded quotient of the two integers. *)
Definition castNumber (s : FixedString) : Number :=
  match s with
  | FixedDigits neg n =>
      let q := div (ofZ n) (ofZ 100) in
      if neg then SFopp q else q
  | FixedOther x => x
  end.

(** [Math.ceil]. *)
Definition ceil (x : Number) : Number :=
  match x with
  | S754_finite s m e =>
      if 0 <=? e then x
      else if s
           then binary_normalize 53 1024 (- (Z.pos m / 2 ^ (- e))) 0 true
           else binary_normalize 53 1024 (- ((- Z.pos m) / 2 ^ (- e))) 0 false
  | _ => x
  end.

End JSNumber.

(* ================================================================== *)
(** * Strings *)
(* ================================================================== *)

Module Text.

(** White space removed by [trim].  The characters of the model are
    bytes: the texts are taken to be ASCII, for which the length in bytes
    is the length that JavaScript counts and the white space is the one
    below; the white space outside ASCII is not represented. *)
Definition isSpace (c : ascii) : bool :=
  let n := N_of_ascii c in
  (((9 <=? n) && (n <=? 13)) || (n =? 32))%N.

Fixpoint dropSpaces (l : list ascii) : list ascii :=
  match l with
  | c :: l' => if isSpace c then dropSpaces l' else l
  | [] => []
  end.

Definition trim (s : string) : string :=
  string_of_list_ascii
    (rev (dropSpaces (rev (dropSpaces (list_ascii_of_string s))))).

Definition len (s : string) : Z := Z.of_nat (String.length s).

Definition isEmpty (s : string) : bool :=
  match s with EmptyString => true | _ => false end.

End Text.

(* ================================================================== *)
(** * ObjectIds *)
(* ================================================================== *)

(** An ObjectId is a 96-bit value.  Requests carry it as a string of 24
    hexadecimal digits in either case; [toString] gives the lower-case
    digits. *)
Module ObjectId.

Definition t := N.

Definition hexDigit (c : ascii) : option N :=
  let n := N_of_ascii c in
  (if (48 <=? n) && (n <=? 57) then Some (n - 48)
   else if (97 <=? n) && (n <=? 102) then Some (n - 87)
   else if (65 <=? n) && (n <=? 70) then Some (n - 55)
   else None)%N.

Fixpoint parseHex (acc : N) (s : string) : option N :=
  match s with
  | EmptyString => Some acc
  | String c s' =>
      match hexDigit c with
      | Some d => parseHex (16 * acc + d)%N s'
      | None => None
      end
  end.

(** [x], [X], [h] or [H]: the second character of the prefix that the
    validator [isHexadecimal] lets a number start with. *)
Definition isRadixMark (c : ascii) : bool :=
  existsb (Ascii.eqb c) (list_ascii_of_string "xXhH").

(** The string without the prefix [0x] or [0h]. *)
Definition withoutPrefix (s : string) : string :=
  match s with
  | String c0 (String c1 rest) =>
      if Ascii.eqb c0 "0"%char && isRadixMark c1 then rest else s
  | _ => s
  end.

(** The validator [isHexadecimal]: [/^(0x|0h)?[0-9A-F]+$/i]. *)
Definition isHexadecimal (s : string) : bool :=
  match withoutPrefix s with
  | EmptyString => false
  | digits => match parseHex 0%N digits with Some _ => true | None => false end
  end.

(** The validator [isMongoId]: a hexadecimal string of length 24. *)
Definition isMongoId (s : string) : bool :=
  isHexadecimal s && (String.length s =? 24)%nat.

(** Mongoose's cast of a string to an ObjectId, for 24 hexadecimal digits;
    [None] is a CastError. *)
Definition cast (s : string) : option t :=
  if (String.length s =? 24)%nat then parseHex 0%N s else None.

Definition hexChar (d : N) : ascii :=
  ascii_of_N (if d <? 10 then 48 + d else 87 + d)%N.

Fixpoint toHex (k : nat) (n : N) (acc : string) : string :=
  match k with
  | O => acc
  | S k' => toHex k' (n / 16)%N (String (hexChar (n mod 16)%N) acc)
  end.

Definition toString (id : t) : string := toHex 24 id EmptyString.

End ObjectId.

(* ================================================================== *)
(** * Regular expressions *)
(* ================================================================== *)

(** The fragment of JavaScript regular expressions that the ISBN
    validator of the book schema is written in, with a backtracking
    matcher.  [RegExp.prototype.test] only asks whether a match exists, so
    the order in which alternatives are tried does not matter.  A
    repetition goes on only when its body has consumed input, as in
    JavaScript, so the length of the input bounds its iterations. *)
Module Regex.

Inductive t :=
| Eps
| Bol                      (* ^ *)
| Eol                      (* $ *)
| Chr (cls : ascii -> bool)
| Seq (r1 r2 : t)
| Alt (r1 r2 : t)
| Star (r : t)
| Look (r : t).            (* (?= r) *)

Definition Opt (r : t) : t := Alt r Eps.
Definition Plus (r : t) : t := Seq r (Star r).

Fixpoint Rep (n : nat) (r : t) : t :=
  match n with
  | O => Eps
  | S n' => Seq r (Rep n' r)
  end.

(** [r{lo,hi}] with [hi = lo + extra]. *)
Fixpoint RepUpTo (extra : nat) (r : t) : t :=
  match extra with
  | O => Eps
  | S n' => Opt (Seq r (RepUpTo n' r))
  end.

Fixpoint Lit (s : string) : t :=
  match s with
  | EmptyString => Eps
  | String c s' => Seq (Chr (Ascii.eqb c)) (Lit s')
  end.

(** [matchFrom r atStart s k]: [r] matches a prefix of the remaining
    input [s] such that the continuation [k] accepts what is left;
    [atStart] tells whether [s] is the whole input. *)
Fixpoint matchFrom (r : t) (atStart : bool) (s : list ascii)
         (k : bool -> list ascii -> bool) {struct r} : bool :=
  match r with
  | Eps => k atStart s
  | Bol => atStart && k atStart s
  | Eol => match s with [] => k atStart s | _ => false end
  | Chr cls =>
      match s with
      | c :: s' => cls c && k false s'
      | [] => false
      end
  | Seq r1 r2 => matchFrom r1 atStart s (fun b s' => matchFrom r2 b s' k)
  | Alt r1 r2 => matchFrom r1 atStart s k || matchFrom r2 atStart s k
  | Star r' =>
      (fix star (fuel : nat) (b : bool) (s : list ascii) {struct fuel} : bool :=
         k b s ||
         match fuel with
         | O => false
         | S fuel' =>
             matchFrom r' b s
               (fun b' s' =>
                  (Nat.ltb (List.length s') (List.length s)) && star fuel' b' s')
         end) (List.length s) atStart s
  | Look r' => matchFrom r' atStart s (fun _ _ => true) && k atStart s
  end.

Definition test (r : t) (s : string) : bool :=
  matchFrom r true (list_ascii_of_string s) (fun _ _ => true).

Definition digit (c : ascii) : bool :=
  let n := N_of_ascii c in ((48 <=? n) && (n <=? 57))%N.
Definition isX (c : ascii) : bool := Ascii.eqb c "X"%char.
Definition sep (c : ascii) : bool :=
  Ascii.eqb c "-"%char || Ascii.eqb c " "%char.
Definition oneOf (s : string) (c : ascii) : bool :=
  existsb (Ascii.eqb c) (list_ascii_of_string s).

Definition D := Chr digit.                                  (* [0-9] *)
Definition DX := Chr (fun c => digit c || isX c).           (* [0-9X] *)
Definition S := Chr sep.                                    (* [- ] *)
Definition SD := Chr (fun c => sep c || digit c).           (* [- 0-9] *)
Definition SDX := Chr (fun c => sep c || digit c || isX c). (* [- 0-9X] *)

Definition seqs (l : list t) : t := fold_right Seq Eps l.
Definition alts (l : list t) : t :=
  match l with
  | [] => Chr (fun _ => false)
  | r :: l' => fold_left Alt l' r
  end.

(** The literal of [bookSchema.isbn.validate.validator]. *)
Definition isbn : t :=
  seqs
    [ Bol;
      Opt (seqs [ Lit "ISBN"; Opt (seqs [Lit "-1"; Chr (oneOf "03")]);
                  Opt (Lit ":"); Lit " " ]);
      Look (alts
              [ seqs [Rep 10 DX; Eol];
                seqs [Look (Rep 3 (Seq (Plus D) S)); Rep 13 SDX; Eol];
                seqs [Lit "97"; Chr (oneOf "89"); Rep 10 D; Eol];
                seqs [Look (Rep 4 (Seq (Plus D) S)); Rep 17 SD; Eol] ]);
      Opt (seqs [Lit "97"; Chr (oneOf "89"); Opt S]);
      D; RepUpTo 4 D;
      Opt S; Plus D; Opt S; Plus D; Opt S; DX; Eol ].

End Regex.

(* ================================================================== *)
(** * Documents *)
(* ================================================================== *)

Import JSNumber.

(** A document of the Books collection ([bookSchema], with the
    timestamps that [timestamps: true] adds). *)
Module BookSchema.

Record doc := {
  _id : ObjectId.t;
  title : string;
  author : string;
  isbn : string;
  publicationYear : Z;
  genre : string;
  description : option string;
  publisher : option string;
  pages : option Z;
  language : string;
  averageRating : Number;
  numberOfReviews : Z;
  createdAt : N;
  updatedAt : N
}.

Definition genres : list string :=
  [ "Fiction"; "Non-Fiction"; "Science Fiction"; "Fantasy"; "Mystery";
    "Thriller"; "Romance"; "Horror"; "Biography"; "History"; "Science";
    "Self-Help"; "Other" ]%string.

End BookSchema.

(** A document of the Reviews collection ([reviewSchema]). *)
Module ReviewSchema.

Record doc := {
  _id : ObjectId.t;
  book : ObjectId.t;
  reviewerName : string;
  rating : Z;
  reviewText : string;
  reviewDate : N;
  helpful : Z;
  verified : bool;
  createdAt : N;
  updatedAt : N
}.

End ReviewSchema.

(** The JSON object of a book request ([req.body]), and the update
    document given to [Book.findByIdAndUpdate]: the paths of the schema,
    [_id] among them, each of which may be absent.  A path carries the
    value that Mongoose's cast gives it; numeric paths other than
    [averageRating] carry integers.  (The routes give the whole body to
    the model: nothing removes a path that the validation chain does not
    name.) *)
Module BookBody.

Record t := {
  _id : option ObjectId.t;
  title : option string;
  author : option string;
  isbn : option string;
  publicationYear : option Z;
  genre : option string;
  description : option string;
  publisher : option string;
  pages : option Z;
  language : option string;
  averageRating : option Number;
  numberOfReviews : option Z
}.

Definition empty : t :=
  {| _id := None; title := None; author := None; isbn := None; publicationYear := None;
     genre := None; description := None; publisher := None; pages := None;
     language := None; averageRating := None; numberOfReviews := None |}.

End BookBody.

(** The JSON object of a review request: the paths of the schema, [_id]
    among them, each of which may be absent.  The validation chain names
    four of them; the others reach the model as the client gave them.  A
    path carries the value that Mongoose's cast gives it; the time stamps
    and the version key, which Mongoose sets, are not among the paths. *)
Module ReviewBody.

Record t := {
  _id : option ObjectId.t;
  book : option string;
  reviewerName : option string;
  rating : option Z;
  reviewText : option string;
  reviewDate : option N;
  helpful : option Z;
  verified : option bool
}.

End ReviewBody.

(* ================================================================== *)
(** * The collections and the Mongoose operations *)
(* ================================================================== *)

(** The two collections, in insertion order, and the source of the
    ObjectIds that the driver generates (the model numbers them; a
    document created with an [_id] of its own keeps that one).  A
    collection holds one document for an [_id]: the store refuses an
    insertion under an [_id] that is in use.  An operation that addresses
    a document by its id acts on every element of the list with this id,
    which is the only one in the states that the routes reach.  (The time
    stamps and the version key are set by Mongoose: the request bodies of
    the model give them no value.) *)
Record Store := {
  books : list BookSchema.doc;
  reviews : list ReviewSchema.doc;
  nextId : N
}.

Definition emptyStore : Store := {| books := []; reviews := []; nextId := 0 |}.

(** The ObjectId that the driver generates next: one that no document
    holds, whatever ids the clients have chosen, and that none has held
    (the counter is past every id that was given out). *)
Definition freshId (s : Store) : ObjectId.t :=
  fold_right N.max (nextId s)
    (map (fun b => N.succ (BookSchema._id b)) (books s) ++
     map (fun r => N.succ (ReviewSchema._id r)) (reviews s)).

(** The counter once a document has been inserted under [id]. *)
Definition nextIdAfter (s : Store) (id : ObjectId.t) : N :=
  N.succ (N.max (freshId s) id).

(** The errors that a Mongoose call throws. *)
Inductive Exn :=
| CastError
| ValidationError (paths : list string)
| DuplicateKey                       (* error.code === 11000 *)
| MongoServerError (msg : string)
| SyntaxError.

(** The message of the store when an update names another [_id]. *)
Definition immutableId : string :=
  "Performing an update on the path '_id' would modify the immutable field '_id'".

(** The operations sent to the document store; each is atomic there. *)
Inductive DbOp :=
| OpBookFind
| OpBookCountDocuments
| OpBookFindById (id : ObjectId.t)
| OpBookInsert
| OpBookFindByIdAndUpdate (id : ObjectId.t)
| OpBookFindByIdAndDelete (id : ObjectId.t)
| OpBookPopulate
| OpReviewFind (book : option ObjectId.t) (rating : option Z)
| OpReviewFindById (id : ObjectId.t)
| OpReviewInsert
| OpReviewFindByIdAndUpdate (id : ObjectId.t)
| OpReviewFindByIdAndDelete (id : ObjectId.t)
| OpReviewDeleteMany (book : ObjectId.t).

(** A program of a route: it ends with a value, throws, or sends one
    operation to the store and goes on with its answer.  The store runs
    the operation [f] atomically; nothing else of the program touches the
    collections. *)
Inductive M (A : Type) : Type :=
| Ret (a : A)
| Throw (e : Exn)
| Atomic (X : Type) (op : DbOp) (f : Store -> X * Store) (k : X -> M A).

Arguments Ret {A} a.
Arguments Throw {A} e.
Arguments Atomic {A X} op f k.

Definition ret {A} (a : A) : M A := Ret a.
Definition throw {A} (e : Exn) : M A := Throw e.

Fixpoint bind {A B} (m : M A) (k : A -> M B) : M B :=
  match m with
  | Ret a => k a
  | Throw e => Throw e
  | Atomic op f c => Atomic op f (fun x => bind (c x) k)
  end.

(** [try { m } catch (error) { h error }]. *)
Fixpoint catch {A} (m : M A) (h : Exn -> M A) : M A :=
  match m with
  | Ret a => Ret a
  | Throw e => h e
  | Atomic op f c => Atomic op f (fun x => catch (c x) h)
  end.

(** A read of the store. *)
Definition query {A} (op : DbOp) (f : Store -> A) : M A :=
  Atomic op (fun s => (f s, s)) Ret.

(** An operation of the store that may fail. *)
Definition command {A} (op : DbOp) (f : Store -> (Exn + A) * Store) : M A :=
  Atomic op f (fun r => match r with inl e => Throw e | inr a => Ret a end).

Notation "x <- m ;; k" := (bind m (fun x => k))
  (at level 61, m at next level, right associativity).
Notation "m ;;; k" := (bind m (fun _ => k))
  (at level 61, right associativity).

(** One request handled from its start to its end, alone: the result,
    the collections afterwards and the operations sent, in order. *)
Fixpoint run {A} (m : M A) (s : Store) : (Exn + A) * Store * list DbOp :=
  match m with
  | Ret a => (inr a, s, [])
  | Throw e => (inl e, s, [])
  | Atomic op f c =>
      let (x, s1) := f s in
      match run (c x) s1 with
      | (r, s2, t) => (r, s2, op :: t)
      end
  end.

Definition castId (s : string) : M ObjectId.t :=
  match ObjectId.cast s with
  | Some id => ret id
  | None => throw CastError
  end.

(** Sort keys, compared in the order of BSON types. *)
Module SortKey.

Inductive t :=
| KNull
| KNum (x : Number)
| KStr (s : string)
| KId (n : N)
| KBool (b : bool)
| KDate (d : N).

Definition rank (k : t) : Z :=
  match k with
  | KNull => 1 | KNum _ => 2 | KStr _ => 3 | KId _ => 4 | KBool _ => 5
  | KDate _ => 6
  end.

Definition compare (a b : t) : comparison :=
  match a, b with
  | KNum x, KNum y =>
      match SFcompare x y with Some c => c | None => Eq end
  | KStr x, KStr y => String.compare x y
  | KId x, KId y => N.compare x y
  | KBool x, KBool y => Z.compare (Z.b2z x) (Z.b2z y)
  | KDate x, KDate y => N.compare x y
  | _, _ => Z.compare (rank a) (rank b)
  end.

Definition ofOptStr (o : option string) : t :=
  match o with Some s => KStr s | None => KNull end.
Definition ofOptZ (o : option Z) : t :=
  match o with Some z => KNum (ofZ z) | None => KNull end.

Section Sorting.
Context {A : Type} (key : A -> t) (order : Z).

(** [a] may stay before [b]. *)
Definition inOrder (a b : A) : bool :=
  match compare (key a) (key b) with
  | Eq => true
  | Lt => 0 <=? order
  | Gt => order <? 0
  end.

Fixpoint insert (a : A) (l : list A) : list A :=
  match l with
  | [] => [a]
  | b :: l' => if inOrder a b then a :: l else b :: insert a l'
  end.

Definition sort (l : list A) : list A := fold_right insert [] l.
End Sorting.

End SortKey.

(** [cursor.skip(s).limit(l)]: a negative skip is refused by the server, a
    limit of 0 is no limit and a negative limit is its absolute value. *)
Definition window {A} (skip limit : Z) (l : list A) : Exn + list A :=
  if skip <? 0 then inl (MongoServerError "Skip value must be non-negative")
  else
    let rest := skipn (Z.to_nat skip) l in
    inr (if limit =? 0 then rest else firstn (Z.to_nat (Z.abs limit)) rest).

Definition orDefault {A} (o : option A) (d : A) : A :=
  match o with Some a => a | None => d end.

(** What the routers take from their surroundings: the year of
    [new Date().getFullYear()] when the modules were loaded, and the
    [RegExp] constructor with flag [i] applied to a pattern given by the
    client ([None]: the pattern is not a regular expression). *)
Record Env := {
  currentYear : Z;
  RegExp_i : string -> option (string -> bool)
}.

(** The model [Book]. *)
Module Book.
Import BookSchema.

Definition inRange (lo hi : Z) (z : Z) : bool := (lo <=? z) && (z <=? hi).

(** A string path after its [trim] setter: [required], then the length
    bound. *)
Definition okString (maxlen : Z) (s : string) : bool :=
  negb (Text.isEmpty (Text.trim s)) && (Text.len (Text.trim s) <=? maxlen).

Definition okOptional {A} (ok : A -> bool) (required : bool) (o : option A) : bool :=
  match o with Some a => ok a | None => negb required end.

Definition check (name : string) (ok : bool) : list string :=
  if ok then [] else [name].

(** The schema validators on the paths of [b]; with [required], absent
    required paths fail too (document validation on [save]); without,
    only the paths that are set are checked (update validators). *)
Definition validate (year : Z) (required : bool) (b : BookBody.t) : list string :=
  check "title" (okOptional (okString 200) required (BookBody.title b)) ++
  check "author" (okOptional (okString 100) required (BookBody.author b)) ++
  check "isbn"
    (okOptional
       (fun s => negb (Text.isEmpty (Text.trim s)) &&
                 Regex.test Regex.isbn (Text.trim s))
       required (BookBody.isbn b)) ++
  check "publicationYear"
    (okOptional (inRange 1000 year) required (BookBody.publicationYear b)) ++
  check "genre"
    (okOptional
       (fun s => existsb (String.eqb (Text.trim s)) genres)
       required (BookBody.genre b)) ++
  check "description"
    (okOptional (fun s => Text.len (Text.trim s) <=? 1000) false
       (BookBody.description b)) ++
  check "publisher"
    (okOptional (fun s => Text.len (Text.trim s) <=? 100) false
       (BookBody.publisher b)) ++
  check "pages" (okOptional (fun p => 1 <=? p) false (BookBody.pages b)) ++
  check "averageRating"
    (okOptional (fun x => leb (ofZ 0) x && leb x (ofZ 5)) false
       (BookBody.averageRating b)) ++
  check "numberOfReviews"
    (okOptional (fun n => 0 <=? n) false (BookBody.numberOfReviews b)).

(** [new Book(body)]: the paths of the body with their setters, the
    schema defaults for the others. *)
Definition create (id : ObjectId.t) (now : N) (b : BookBody.t) : doc :=
  {| _id := id;
     title := Text.trim (orDefault (BookBody.title b) EmptyString);
     author := Text.trim (orDefault (BookBody.author b) EmptyString);
     isbn := Text.trim (orDefault (BookBody.isbn b) EmptyString);
     publicationYear := orDefault (BookBody.publicationYear b) 0;
     genre := Text.trim (orDefault (BookBody.genre b) EmptyString);
     description := option_map Text.trim (BookBody.description b);
     publisher := option_map Text.trim (BookBody.publisher b);
     pages := BookBody.pages b;
     language := Text.trim (orDefault (BookBody.language b) "English");
     averageRating := orDefault (BookBody.averageRating b) (ofZ 0);
     numberOfReviews := orDefault (BookBody.numberOfReviews b) 0;
     createdAt := now;
     updatedAt := now |}.

(** The update [{ $set: body }] on one document. *)
Definition update (now : N) (b : BookBody.t) (d : doc) : doc :=
  {| _id := _id d;
     title := orDefault (option_map Text.trim (BookBody.title b)) (title d);
     author := orDefault (option_map Text.trim (BookBody.author b)) (author d);
     isbn := orDefault (option_map Text.trim (BookBody.isbn b)) (isbn d);
     publicationYear := orDefault (BookBody.publicationYear b) (publicationYear d);
     genre := orDefault (option_map Text.trim (BookBody.genre b)) (genre d);
     description :=
       match BookBody.description b with
       | Some s => Some (Text.trim s)
       | None => description d
       end;
     publisher :=
       match BookBody.publisher b with
       | Some s => Some (Text.trim s)
       | None => publisher d
       end;
     pages :=
       match BookBody.pages b with Some p => Some p | None => pages d end;
     language := orDefault (option_map Text.trim (BookBody.language b)) (language d);
     averageRating := orDefault (BookBody.averageRating b) (averageRating d);
     numberOfReviews := orDefault (BookBody.numberOfReviews b) (numberOfReviews d);
     createdAt := createdAt d;
     updatedAt := now |}.

Definition hasId (id : ObjectId.t) (d : doc) : bool := (_id d =? id)%N.

Definition lookup (id : ObjectId.t) (l : list doc) : option doc :=
  find (hasId id) l.

(** [Book.findById(id)]. *)
Definition findById (id : ObjectId.t) : M (option doc) :=
  query (OpBookFindById id) (fun s => lookup id (books s)).

(** The [_id] of [new Book(body)]: the one of the body, or else a
    generated one. *)
Definition newId (b : BookBody.t) (s : Store) : ObjectId.t :=
  orDefault (BookBody._id b) (freshId s).

(** [await book.save()] for [book = new Book(body)]: validation, then
    the insertion, which the unique index on [_id] or the one on [isbn]
    may refuse; both refusals carry the error code 11000. *)
Definition save (year : Z) (now : N) (b : BookBody.t) : M doc :=
  match validate year true b with
  | (_ :: _) as errs => throw (ValidationError errs)
  | [] =>
      command OpBookInsert
        (fun s =>
           let d := create (newId b s) now b in
           if existsb (hasId (_id d)) (books s) ||
              existsb (fun d' => String.eqb (isbn d') (isbn d)) (books s)
           then (inl DuplicateKey, s)
           else
             (inr d,
              {| books := books s ++ [d]; reviews := reviews s;
                 nextId := nextIdAfter s (_id d) |}))
  end.

(** The update would give the document another [_id]. *)
Definition changesId (b : BookBody.t) (id : ObjectId.t) : bool :=
  match BookBody._id b with
  | Some x => negb (x =? id)%N
  | None => false
  end.

(** [Book.findByIdAndUpdate(id, body, { new: true, runValidators })]:
    the document after the update, or [None] when there is none with
    this id.  The store refuses an update that would change the [_id] of
    the document, and one that the unique index on [isbn] forbids. *)
Definition findByIdAndUpdate (year : Z) (now : N) (id : ObjectId.t)
           (b : BookBody.t) (runValidators : bool) : M (option doc) :=
  match (if runValidators then validate year false b else []) with
  | (_ :: _) as errs => throw (ValidationError errs)
  | [] =>
      command (OpBookFindByIdAndUpdate id)
        (fun s =>
           match lookup id (books s) with
           | None => (inr None, s)
           | Some d =>
               let d' := update now b d in
               if changesId b id then (inl (MongoServerError immutableId), s)
               else
               if match BookBody.isbn b with
                  | Some _ =>
                      existsb
                        (fun o => negb (hasId id o) && String.eqb (isbn o) (isbn d'))
                        (books s)
                  | None => false
                  end
               then (inl DuplicateKey, s)
               else
                 (inr (Some d'),
                  {| books := map (fun o => if hasId id o then update now b o else o)
                                  (books s);
                     reviews := reviews s; nextId := nextId s |})
           end)
  end.

(** [Book.findByIdAndDelete(id)]. *)
Definition findByIdAndDelete (id : ObjectId.t) : M (option doc) :=
  Atomic (OpBookFindByIdAndDelete id)
    (fun s =>
       (lookup id (books s),
        {| books := filter (fun o => negb (hasId id o)) (books s);
           reviews := reviews s; nextId := nextId s |}))
    Ret.

Definition sortKey (field : string) (d : doc) : SortKey.t :=
  if String.eqb field "_id" then SortKey.KId (_id d)
  else if String.eqb field "title" then SortKey.KStr (title d)
  else if String.eqb field "author" then SortKey.KStr (author d)
  else if String.eqb field "isbn" then SortKey.KStr (isbn d)
  else if String.eqb field "publicationYear" then SortKey.KNum (ofZ (publicationYear d))
  else if String.eqb field "genre" then SortKey.KStr (genre d)
  else if String.eqb field "description" then SortKey.ofOptStr (description d)
  else if String.eqb field "publisher" then SortKey.ofOptStr (publisher d)
  else if String.eqb field "pages" then SortKey.ofOptZ (pages d)
  else if String.eqb field "language" then SortKey.KStr (language d)
  else if String.eqb field "averageRating" then SortKey.KNum (averageRating d)
  else if String.eqb field "numberOfReviews" then SortKey.KNum (ofZ (numberOfReviews d))
  else if String.eqb field "createdAt" then SortKey.KDate (createdAt d)
  else if String.eqb field "updatedAt" then SortKey.KDate (updatedAt d)
  else SortKey.KNull.

(** [Book.find(query).sort({ [field]: order }).limit(limit).skip(skip)]. *)
Definition find (filter_ : doc -> bool) (field : string) (order : Z)
           (limit skip : Z) : M (list doc) :=
  command OpBookFind
    (fun s =>
       (window skip limit
          (SortKey.sort (sortKey field) order (filter filter_ (books s))), s)).

(** [Book.countDocuments(query)]. *)
Definition countDocuments (filter_ : doc -> bool) : M Z :=
  query OpBookCountDocuments
    (fun s => Z.of_nat (List.length (filter filter_ (books s)))).

End Book.

(** The model [Review]. *)
Module Review.
Import ReviewSchema.

Definition okText (minlen maxlen : Z) (s : string) : bool :=
  negb (Text.isEmpty (Text.trim s)) &&
  (minlen <=? Text.len (Text.trim s)) && (Text.len (Text.trim s) <=? maxlen).

Definition castable (s : string) : bool :=
  match ObjectId.cast s with Some _ => true | None => false end.

Definition validate (required : bool) (b : ReviewBody.t) : list string :=
  Book.check "book" (Book.okOptional castable required (ReviewBody.book b)) ++
  Book.check "reviewerName"
    (Book.okOptional (okText 2 100) required (ReviewBody.reviewerName b)) ++
  Book.check "rating"
    (Book.okOptional (Book.inRange 1 5) required (ReviewBody.rating b)) ++
  Book.check "reviewText"
    (Book.okOptional (okText 10 2000) required (ReviewBody.reviewText b)) ++
  Book.check "helpful"
    (Book.okOptional (fun h => 0 <=? h) false (ReviewBody.helpful b)).

Definition castBook (o : option string) (d : ObjectId.t) : ObjectId.t :=
  match o with
  | Some s => orDefault (ObjectId.cast s) d
  | None => d
  end.

(** [new Review(body)]. *)
Definition create (id : ObjectId.t) (now : N) (b : ReviewBody.t) : doc :=
  {| _id := id;
     book := castBook (ReviewBody.book b) 0%N;
     reviewerName := Text.trim (orDefault (ReviewBody.reviewerName b) EmptyString);
     rating := orDefault (ReviewBody.rating b) 0;
     reviewText := Text.trim (orDefault (ReviewBody.reviewText b) EmptyString);
     reviewDate := orDefault (ReviewBody.reviewDate b) now;
     helpful := orDefault (ReviewBody.helpful b) 0;
     verified := orDefault (ReviewBody.verified b) false;
     createdAt := now;
     updatedAt := now |}.

(** The [_id] of [new Review(body)]: the one of the body, or else a
    generated one. *)
Definition newId (b : ReviewBody.t) (s : Store) : ObjectId.t :=
  orDefault (ReviewBody._id b) (freshId s).

(** The update documents that the routes give to
    [Review.findByIdAndUpdate]. *)
Inductive UpdateDoc :=
| SetBody (b : ReviewBody.t)        (* { $set: body } *)
| IncHelpful (amount : Z).          (* { $inc: { helpful: amount } } *)

Definition update (now : N) (u : UpdateDoc) (d : doc) : doc :=
  match u with
  | SetBody b =>
      {| _id := _id d;
         book := castBook (ReviewBody.book b) (book d);
         reviewerName :=
           orDefault (option_map Text.trim (ReviewBody.reviewerName b)) (reviewerName d);
         rating := orDefault (ReviewBody.rating b) (rating d);
         reviewText :=
           orDefault (option_map Text.trim (ReviewBody.reviewText b)) (reviewText d);
         reviewDate := orDefault (ReviewBody.reviewDate b) (reviewDate d);
         helpful := orDefault (ReviewBody.helpful b) (helpful d);
         verified := orDefault (ReviewBody.verified b) (verified d);
         createdAt := createdAt d;
         updatedAt := now |}
  | IncHelpful amount =>
      {| _id := _id d;
         book := book d;
         reviewerName := reviewerName d;
         rating := rating d;
         reviewText := reviewText d;
         reviewDate := reviewDate d;
         helpful := helpful d + amount;
         verified := verified d;
         createdAt := createdAt d;
         updatedAt := now |}
  end.

Definition hasId (id : ObjectId.t) (d : doc) : bool := (_id d =? id)%N.

Definition lookup (id : ObjectId.t) (l : list doc) : option doc :=
  find (hasId id) l.

(** A review with its [book] path populated with the title and the
    author of the book, [None] when the book is not in the collection. *)
Record Populated := {
  review : doc;
  bookInfo : option (string * string)
}.

(** [.populate('book', 'title author')]. *)
Definition populated (s : Store) (d : doc) : Populated :=
  {| review := d;
     bookInfo :=
       option_map (fun b => (BookSchema.title b, BookSchema.author b))
         (Book.lookup (book d) (books s)) |}.

Definition populate (d : doc) : M Populated :=
  query OpBookPopulate (fun s => populated s d).

Definition populateOpt (o : option doc) : M (option Populated) :=
  match o with
  | Some d => p <- populate d ;; ret (Some p)
  | None => ret None
  end.

Definition populateAll (l : list doc) : M (list Populated) :=
  match l with
  | [] => ret []           (* no document: no query is sent *)
  | _ :: _ => query OpBookPopulate (fun s => map (populated s) l)
  end.

(** [Review.findById(id)]. *)
Definition findById (id : ObjectId.t) : M (option doc) :=
  query (OpReviewFindById id) (fun s => lookup id (reviews s)).

(** [await review.save()] for [review = new Review(body)]: validation,
    then the insertion, which the unique index on [_id] may refuse. *)
Definition save (now : N) (b : ReviewBody.t) : M doc :=
  match validate true b with
  | (_ :: _) as errs => throw (ValidationError errs)
  | [] =>
      command OpReviewInsert
        (fun s =>
           let d := create (newId b s) now b in
           if existsb (hasId (_id d)) (reviews s)
           then (inl DuplicateKey, s)
           else
             (inr d,
              {| books := books s; reviews := reviews s ++ [d];
                 nextId := nextIdAfter s (_id d) |}))
  end.

(** The update would give the document another [_id]. *)
Definition changesId (u : UpdateDoc) (id : ObjectId.t) : bool :=
  match u with
  | SetBody b =>
      match ReviewBody._id b with
      | Some x => negb (x =? id)%N
      | None => false
      end
  | IncHelpful _ => false
  end.

(** [Review.findByIdAndUpdate(id, update, { new: true, runValidators })];
    one operation of the store, which reads and writes the document
    atomically, and refuses an update that would change its [_id]. *)
Definition findByIdAndUpdate (now : N) (id : ObjectId.t) (u : UpdateDoc)
           (runValidators : bool) : M (option doc) :=
  match (match u with
         | SetBody b => if runValidators then validate false b else []
         | IncHelpful _ => []
         end) with
  | (_ :: _) as errs => throw (ValidationError errs)
  | [] =>
      command (OpReviewFindByIdAndUpdate id)
        (fun s =>
           match lookup id (reviews s) with
           | None => (inr None, s)
           | Some d =>
               if changesId u id then (inl (MongoServerError immutableId), s)
               else
                 (inr (Some (update now u d)),
                  {| books := books s;
                     reviews := map (fun o => if hasId id o then update now u o else o)
                                    (reviews s);
                     nextId := nextId s |})
           end)
  end.

(** [Review.findByIdAndDelete(id)]. *)
Definition findByIdAndDelete (id : ObjectId.t) : M (option doc) :=
  Atomic (OpReviewFindByIdAndDelete id)
    (fun s =>
       (lookup id (reviews s),
        {| books := books s;
           reviews := filter (fun o => negb (hasId id o)) (reviews s);
           nextId := nextId s |}))
    Ret.

(** [Review.deleteMany({ book: id })]. *)
Definition deleteMany (bookId : ObjectId.t) : M unit :=
  Atomic (OpReviewDeleteMany bookId)
    (fun s =>
       (tt,
        {| books := books s;
           reviews := filter (fun o => negb (book o =? bookId)%N) (reviews s);
           nextId := nextId s |}))
    Ret.

(** The query object [{ book, rating }], each path optional. *)
Definition matches (qbook : option ObjectId.t) (qrating : option Z) (d : doc) : bool :=
  match qbook with Some b => (book d =? b)%N | None => true end &&
  match qrating with Some r => rating d =? r | None => true end.

Definition sortKey (field : string) (d : doc) : SortKey.t :=
  if String.eqb field "_id" then SortKey.KId (_id d)
  else if String.eqb field "book" then SortKey.KId (book d)
  else if String.eqb field "reviewerName" then SortKey.KStr (reviewerName d)
  else if String.eqb field "rating" then SortKey.KNum (ofZ (rating d))
  else if String.eqb field "reviewText" then SortKey.KStr (reviewText d)
  else if String.eqb field "reviewDate" then SortKey.KDate (reviewDate d)
  else if String.eqb field "helpful" then SortKey.KNum (ofZ (helpful d))
  else if String.eqb field "verified" then SortKey.KBool (verified d)
  else if String.eqb field "createdAt" then SortKey.KDate (createdAt d)
  else if String.eqb field "updatedAt" then SortKey.KDate (updatedAt d)
  else SortKey.KNull.

(** [Review.find(query)], in the order of the collection. *)
Definition find (qbook : option ObjectId.t) (qrating : option Z) : M (list doc) :=
  query (OpReviewFind qbook qrating)
    (fun s => filter (matches qbook qrating) (reviews s)).

(** [Review.find(query).sort({ [field]: order })]. *)
Definition findSorted (qbook : option ObjectId.t) (qrating : option Z)
           (field : string) (order : Z) : M (list doc) :=
  query (OpReviewFind qbook qrating)
    (fun s =>
       SortKey.sort (sortKey field) order
         (filter (matches qbook qrating) (reviews s))).

End Review.

(* ================================================================== *)
(** * Responses *)
(* ================================================================== *)

Inductive Json :=
| JBook (d : BookSchema.doc)
| JBookPage (books : list BookSchema.doc) (page limit total : Z) (pages : Number)
| JReviewDocs (l : list ReviewSchema.doc)
| JReviews (l : list Review.Populated)
| JReview (r : option Review.Populated)
| JMessage (msg : string)
| JError (msg : string)
| JException (e : Exn)                (* { error: error.message } *)
| JValidation (errors : list string). (* { errors: errors.array() } *)

Record Response := { status : Z; json : Json }.

Definition respond (code : Z) (j : Json) : M Response :=
  ret {| status := code; json := j |}.

(** A query parameter that is absent or empty is falsy. *)
Definition truthy (o : option string) : option string :=
  match o with
  | Some s => if Text.isEmpty s then None else Some s
  | None => None
  end.

(** express-validator reads an absent field as the empty string. *)
Definition field (o : option string) : string := orDefault o EmptyString.

(** [handleValidationErrors]: the handler runs only when the validation
    chain has found no error. *)
Definition handleValidationErrors (errors : list string) (next : M Response)
  : M Response :=
  match errors with
  | [] => next
  | _ :: _ => respond 400 (JValidation errors)
  end.

(* ================================================================== *)
(** * The book routes *)
(* ================================================================== *)

Module BookRoutes.

(** The chain [validateBook]: the errors, and the body with the
    sanitizers ([trim]) applied. *)
Definition validateBook (env : Env) (b : BookBody.t) : list string * BookBody.t :=
  let errors :=
    Book.check "Title is required" (negb (Text.isEmpty (field (BookBody.title b)))) ++
    Book.check "Invalid value"
      (Book.inRange 1 200 (Text.len (Text.trim (field (BookBody.title b))))) ++
    Book.check "Author is required" (negb (Text.isEmpty (field (BookBody.author b)))) ++
    Book.check "Invalid value"
      (Book.inRange 1 100 (Text.len (Text.trim (field (BookBody.author b))))) ++
    Book.check "ISBN is required" (negb (Text.isEmpty (field (BookBody.isbn b)))) ++
    Book.check "Valid publication year is required"
      (match BookBody.publicationYear b with
       | Some y => Book.inRange 1000 (currentYear env) y
       | None => false
       end) ++
    Book.check "Genre is required" (negb (Text.isEmpty (field (BookBody.genre b)))) ++
    Book.check "Invalid value"
      (existsb (String.eqb (field (BookBody.genre b))) BookSchema.genres) in
  (errors,
   {| BookBody._id := BookBody._id b;
      BookBody.title := option_map Text.trim (BookBody.title b);
      BookBody.author := option_map Text.trim (BookBody.author b);
      BookBody.isbn := option_map Text.trim (BookBody.isbn b);
      BookBody.publicationYear := BookBody.publicationYear b;
      BookBody.genre := BookBody.genre b;
      BookBody.description := BookBody.description b;
      BookBody.publisher := BookBody.publisher b;
      BookBody.pages := BookBody.pages b;
      BookBody.language := BookBody.language b;
      BookBody.averageRating := BookBody.averageRating b;
      BookBody.numberOfReviews := BookBody.numberOfReviews b |}).

Definition validateId (id : string) : list string :=
  Book.check "Invalid book ID" (ObjectId.isMongoId id).

(** [req.query] of [GET /api/books]; [page] and [limit] hold the value
    of [parseInt] on the parameter. *)
Record Query := {
  genre : option string;
  author : option string;
  search : option string;
  page : option Z;
  limit : option Z;
  sortBy : option string;
  order : option string
}.

Definition regexOn (env : Env) (pattern : option string)
  : M (option (string -> bool)) :=
  match truthy pattern with
  | None => ret None
  | Some p =>
      match RegExp_i env p with
      | Some f => ret (Some f)
      | None => throw SyntaxError
      end
  end.

(** The query object built from the filters. *)
Definition matches (genre : option string) (author search : option (string -> bool))
           (d : BookSchema.doc) : bool :=
  match truthy genre with
  | Some g => String.eqb (BookSchema.genre d) g
  | None => true
  end &&
  match author with
  | Some f => f (BookSchema.author d)
  | None => true
  end &&
  match search with
  | Some f =>
      f (BookSchema.title d) || f (BookSchema.author d) ||
      match BookSchema.description d with Some s => f s | None => false end
  | None => true
  end.

Definition sortOrder (order : option string) : Z :=
  if String.eqb (orDefault order "desc") "asc" then 1 else -1.

(** [GET /api/books]. *)
Definition get_books (env : Env) (q : Query) : M Response :=
  catch
    (let page := orDefault (page q) 1 in
     let limit := orDefault (limit q) 10 in
     let sortBy := orDefault (sortBy q) "createdAt" in
     author <- regexOn env (author q) ;;
     search <- regexOn env (search q) ;;
     let query := matches (genre q) author search in
     let skip := (page - 1) * limit in
     books <- Book.find query sortBy (sortOrder (order q)) limit skip ;;
     total <- Book.countDocuments query ;;
     respond 200
       (JBookPage books page limit total (ceil (div (ofZ total) (ofZ limit)))))
    (fun error => respond 500 (JException error)).

(** [GET /api/books/:id]. *)
Definition get_book (id : string) : M Response :=
  handleValidationErrors (validateId id)
    (catch
       (oid <- castId id ;;
        book <- Book.findById oid ;;
        match book with
        | None => respond 404 (JError "Book not found")
        | Some d => respond 200 (JBook d)
        end)
       (fun error => respond 500 (JException error))).

Definition onWriteError (error : Exn) : M Response :=
  match error with
  | DuplicateKey => respond 400 (JError "A book with this ISBN already exists")
  | _ => respond 400 (JException error)
  end.

(** [POST /api/books]. *)
Definition post_book (env : Env) (now : N) (body : BookBody.t) : M Response :=
  let (errors, body) := validateBook env body in
  handleValidationErrors errors
    (catch
       (book <- Book.save (currentYear env) now body ;;
        respond 201 (JBook book))
       onWriteError).

(** [PUT /api/books/:id]. *)
Definition put_book (env : Env) (now : N) (id : string) (body : BookBody.t)
  : M Response :=
  let (errors, body) := validateBook env body in
  handleValidationErrors (validateId id ++ errors)
    (catch
       (oid <- castId id ;;
        book <- Book.findByIdAndUpdate (currentYear env) now oid body true ;;
        match book with
        | None => respond 404 (JError "Book not found")
        | Some d => respond 200 (JBook d)
        end)
       onWriteError).

(** [DELETE /api/books/:id]. *)
Definition delete_book (id : string) : M Response :=
  handleValidationErrors (validateId id)
    (catch
       (oid <- castId id ;;
        book <- Book.findByIdAndDelete oid ;;
        match book with
        | None => respond 404 (JError "Book not found")
        | Some _ =>
            (* Also delete all reviews for this book *)
            Review.deleteMany oid ;;;
            respond 200 (JMessage "Book and associated reviews deleted successfully")
        end)
       (fun error => respond 500 (JException error))).

(** [GET /api/books/:id/reviews]. *)
Definition get_book_reviews (id : string) : M Response :=
  handleValidationErrors (validateId id)
    (catch
       (oid <- castId id ;;
        book <- Book.findById oid ;;
        match book with
        | None => respond 404 (JError "Book not found")
        | Some _ =>
            reviews <- Review.findSorted (Some oid) None "reviewDate" (-1) ;;
            respond 200 (JReviewDocs reviews)
        end)
       (fun error => respond 500 (JException error))).

End BookRoutes.

(* ================================================================== *)
(** * The review routes *)
(* ================================================================== *)

Module ReviewRoutes.

(** The chain [validateReview], with its sanitizers. *)
Definition validateReview (b : ReviewBody.t) : list string * ReviewBody.t :=
  let errors :=
    Book.check "Valid book ID is required"
      (ObjectId.isMongoId (field (ReviewBody.book b))) ++
    Book.check "Reviewer name is required"
      (negb (Text.isEmpty (field (ReviewBody.reviewerName b)))) ++
    Book.check "Invalid value"
      (Book.inRange 2 100 (Text.len (Text.trim (field (ReviewBody.reviewerName b))))) ++
    Book.check "Rating must be between 1 and 5"
      (match ReviewBody.rating b with
       | Some r => Book.inRange 1 5 r
       | None => false
       end) ++
    Book.check "Review text is required"
      (negb (Text.isEmpty (field (ReviewBody.reviewText b)))) ++
    Book.check "Invalid value"
      (Book.inRange 10 2000 (Text.len (Text.trim (field (ReviewBody.reviewText b))))) in
  (errors,
   {| ReviewBody._id := ReviewBody._id b;
      ReviewBody.book := ReviewBody.book b;
      ReviewBody.reviewerName := option_map Text.trim (ReviewBody.reviewerName b);
      ReviewBody.rating := ReviewBody.rating b;
      ReviewBody.reviewText := option_map Text.trim (ReviewBody.reviewText b);
      ReviewBody.reviewDate := ReviewBody.reviewDate b;
      ReviewBody.helpful := ReviewBody.helpful b;
      ReviewBody.verified := ReviewBody.verified b |}).

Definition validateId (id : string) : list string :=
  Book.check "Invalid review ID" (ObjectId.isMongoId id).

(** The update documents of [updateBookRating]. *)
Definition ratingUpdate (averageRating : Number) (numberOfReviews : Z) : BookBody.t :=
  {| BookBody._id := None;
     BookBody.title := None; BookBody.author := None; BookBody.isbn := None;
     BookBody.publicationYear := None; BookBody.genre := None;
     BookBody.description := None; BookBody.publisher := None;
     BookBody.pages := None; BookBody.language := None;
     BookBody.averageRating := Some averageRating;
     BookBody.numberOfReviews := Some numberOfReviews |}.

(** Helper function to update book rating. *)
Definition updateBookRating (env : Env) (now : N) (bookId : ObjectId.t) : M unit :=
  reviews <- Review.find (Some bookId) None ;;
  if Z.of_nat (List.length reviews) =? 0 then
    Book.findByIdAndUpdate (currentYear env) now bookId
      (ratingUpdate (ofZ 0) 0) false ;;;
    ret tt
  else
    let totalRating :=
      fold_left (fun sum review => sum + ReviewSchema.rating review) reviews 0 in
    let averageRating :=
      div (ofZ totalRating) (ofZ (Z.of_nat (List.length reviews))) in
    Book.findByIdAndUpdate (currentYear env) now bookId
      (ratingUpdate (castNumber (toFixed2 averageRating))
         (Z.of_nat (List.length reviews))) false ;;;
    ret tt.

(** [req.query] of [GET /api/reviews]; [rating] holds the value of
    [parseInt] on the parameter. *)
Record Query := {
  book : option string;
  rating : option Z;
  sort : option string;
  order : option string
}.

(** [GET /api/reviews]. *)
Definition get_reviews (q : Query) : M Response :=
  catch
    (let sort := orDefault (sort q) "reviewDate" in
     qbook <- match truthy (book q) with
              | Some b => oid <- castId b ;; ret (Some oid)
              | None => ret None
              end ;;
     reviews <- Review.findSorted qbook (rating q) sort
                  (BookRoutes.sortOrder (order q)) ;;
     populated <- Review.populateAll reviews ;;
     respond 200 (JReviews populated))
    (fun error => respond 500 (JException error)).

(** [GET /api/reviews/:id]. *)
Definition get_review (id : string) : M Response :=
  handleValidationErrors (validateId id)
    (catch
       (oid <- castId id ;;
        found <- Review.findById oid ;;
        review <- Review.populateOpt found ;;
        match review with
        | None => respond 404 (JError "Review not found")
        | Some _ => respond 200 (JReview review)
        end)
       (fun error => respond 500 (JException error))).

(** [POST /api/reviews]. *)
Definition post_review (env : Env) (now : N) (body : ReviewBody.t) : M Response :=
  let (errors, body) := validateReview body in
  handleValidationErrors errors
    (catch
       ((* does the book exist? *)
        bookId <- castId (field (ReviewBody.book body)) ;;
        book <- Book.findById bookId ;;
        match book with
        | None => respond 404 (JError "Book not found")
        | Some _ =>
            review <- Review.save now body ;;
            (* Update book rating *)
            updateBookRating env now bookId ;;;
            found <- Review.findById (ReviewSchema._id review) ;;
            populatedReview <- Review.populateOpt found ;;
            respond 201 (JReview populatedReview)
        end)
       (fun error => respond 400 (JException error))).

(** [PUT /api/reviews/:id]. *)
Definition put_review (env : Env) (now : N) (id : string) (body : ReviewBody.t)
  : M Response :=
  let (errors, body) := validateReview body in
  handleValidationErrors (validateId id ++ errors)
    (catch
       ((* does the book exist? *)
        bookId <- castId (field (ReviewBody.book body)) ;;
        book <- Book.findById bookId ;;
        match book with
        | None => respond 404 (JError "Book not found")
        | Some _ =>
            oid <- castId id ;;
            oldReview <- Review.findById oid ;;
            match oldReview with
            | None => respond 404 (JError "Review not found")
            | Some oldReview =>
                updated <- Review.findByIdAndUpdate now oid (Review.SetBody body) true ;;
                review <- Review.populateOpt updated ;;
                (* Update book rating for old book *)
                updateBookRating env now (ReviewSchema.book oldReview) ;;;
                (* Update book rating for new book if book changed *)
                (if negb (String.eqb (ObjectId.toString (ReviewSchema.book oldReview))
                            (field (ReviewBody.book body)))
                 then updateBookRating env now bookId
                 else ret tt) ;;;
                respond 200 (JReview review)
            end
        end)
       (fun error => respond 400 (JException error))).

(** [DELETE /api/reviews/:id]. *)
Definition delete_review (env : Env) (now : N) (id : string) : M Response :=
  handleValidationErrors (validateId id)
    (catch
       (oid <- castId id ;;
        review <- Review.findById oid ;;
        match review with
        | None => respond 404 (JError "Review not found")
        | Some review =>
            let bookId := ReviewSchema.book review in
            Review.findByIdAndDelete oid ;;;
            (* Update book rating *)
            updateBookRating env now bookId ;;;
            respond 200 (JMessage "Review deleted successfully")
        end)
       (fun error => respond 500 (JException error))).

(** [PATCH /api/reviews/:id/helpful]. *)
Definition patch_helpful (now : N) (id : string) : M Response :=
  handleValidationErrors (validateId id)
    (catch
       (oid <- castId id ;;
        updated <- Review.findByIdAndUpdate now oid (Review.IncHelpful 1) false ;;
        review <- Review.populateOpt updated ;;
        match review with
        | None => respond 404 (JError "Review not found")
        | Some _ => respond 200 (JReview review)
        end)
       (fun error => respond 500 (JException error))).

End ReviewRoutes.

(* ================================================================== *)
(** * The application *)
(* ================================================================== *)

(** The requests that change the collections. *)
Inductive Request :=
| PostBook (body : BookBody.t)
| PutBook (id : string) (body : BookBody.t)
| DeleteBook (id : string)
| PostReview (body : ReviewBody.t)
| PutReview (id : string) (body : ReviewBody.t)
| DeleteReview (id : string)
| PatchHelpful (id : string).

Definition handler (env : Env) (now : N) (r : Request) : M Response :=
  match r with
  | PostBook body => BookRoutes.post_book env now body
  | PutBook id body => BookRoutes.put_book env now id body
  | DeleteBook id => BookRoutes.delete_book id
  | PostReview body => ReviewRoutes.post_review env now body
  | PutReview id body => ReviewRoutes.put_review env now id body
  | DeleteReview id => ReviewRoutes.delete_review env now id
  | PatchHelpful id => ReviewRoutes.patch_helpful now id
  end.

(** The collections after a program has run alone. *)
Definition storeAfter {A} (m : M A) (s : Store) : Store := snd (fst (run m s)).

(** Its value, or the error it threw. *)
Definition resultOf {A} (m : M A) (s : Store) : Exn + A := fst (fst (run m s)).

(** The operations it sent to the store, in order. *)
Definition opsOf {A} (m : M A) (s : Store) : list DbOp := snd (run m s).

(* ================================================================== *)
(** * Requests in flight together *)
(* ================================================================== *)

(** Several requests are handled at once: each is a program of its own,
    and the store runs their operations one at a time, in any order.  A
    schedule names, step by step, the request whose next operation runs. *)
Definition Pool := list (M Response).

Fixpoint setNth {A} (i : nat) (a : A) (l : list A) : list A :=
  match l, i with
  | [], _ => []
  | _ :: l', O => a :: l'
  | b :: l', S i' => b :: setNth i' a l'
  end.

Definition stepAt (i : nat) (pool : Pool) (s : Store) : Pool * Store :=
  match nth_error pool i with
  | Some (Atomic op f k) => let (x, s') := f s in (setNth i (k x) pool, s')
  | _ => (pool, s)
  end.

Fixpoint schedule (sched : list nat) (pool : Pool) (s : Store) : Pool * Store :=
  match sched with
  | [] => (pool, s)
  | i :: sched' => let (pool', s') := stepAt i pool s in schedule sched' pool' s'
  end.


(* ================================================================== *)
(** * The vocabulary of the specification *)
(* ================================================================== *)

(** The persisted reviews that reference a book. *)
Definition referencing (bookId : ObjectId.t) (s : Store) : list ReviewSchema.doc :=
  filter (fun r => (ReviewSchema.book r =? bookId)%N) (reviews s).

Definition sumRatings (l : list ReviewSchema.doc) : Z :=
  fold_right (fun r acc => ReviewSchema.rating r + acc) 0 l.

(** [hundredths / 100] is [total / count] rounded to 2 decimal places: no
    number with two decimals is nearer to the quotient. *)
Definition roundedTo2 (total count hundredths : Z) : Prop :=
  2 * Z.abs (100 * total - hundredths * count) <= count.

(** The Number of the decimal with two digits [hundredths / 100]: the
    binary64 value nearest to it, which is the correctly rounded quotient
    of the two integers. *)
Definition decimal2 (hundredths : Z) : Number :=
  div (ofZ hundredths) (ofZ 100).

(** A rating that the review schema accepts. *)
Definition validRating (r : ReviewSchema.doc) : Prop :=
  1 <= ReviewSchema.rating r <= 5.

(** The two derived fields of a book. *)
Definition aggregate (b : BookSchema.doc) : Number * Z :=
  (BookSchema.averageRating b, BookSchema.numberOfReviews b).

(** The values that a recomputation gives for a set of reviews. *)
Definition aggregateOf (l : list ReviewSchema.doc) : Number * Z :=
  match l with
  | [] => (ofZ 0, 0)
  | _ :: _ =>
      (castNumber
         (toFixed2 (div (ofZ (sumRatings l)) (ofZ (Z.of_nat (List.length l))))),
       Z.of_nat (List.length l))
  end.

Definition withReviews (s : Store) (l : list ReviewSchema.doc) : Store :=
  {| books := books s; reviews := l; nextId := nextId s |}.

Definition withBooks (s : Store) (l : list BookSchema.doc) : Store :=
  {| books := l; reviews := reviews s; nextId := nextId s |}.

(** The collections after a recomputation for [bookId]. *)
Definition recomputed (now : N) (bookId : ObjectId.t) (s : Store) : Store :=
  let agg := aggregateOf (referencing bookId s) in
  {| books :=
       map (fun o =>
              if Book.hasId bookId o
              then Book.update now (ReviewRoutes.ratingUpdate (fst agg) (snd agg)) o
              else o) (books s);
     reviews := reviews s;
     nextId := nextId s |}.

(** Every book carries the aggregate of the reviews that reference it. *)
Definition consistent (s : Store) : Prop :=
  forall b, In b (books s) ->
    aggregate b = aggregateOf (referencing (BookSchema._id b) s).

(** A request whose body gives a value to one of the derived fields. *)
Definition setsAggregate (r : Request) : bool :=
  match r with
  | PostBook body | PutBook _ body =>
      match BookBody.averageRating body, BookBody.numberOfReviews body with
      | None, None => false
      | _, _ => true
      end
  | _ => false
  end.

(** The states reached from empty collections through requests that
    [allowed] lets through, each handled to its end before the next. *)
Inductive reachableWith (env : Env) (allowed : Request -> bool) : Store -> Prop :=
| reachableWith_empty : reachableWith env allowed emptyStore
| reachableWith_step (s : Store) (now : N) (r : Request) :
    reachableWith env allowed s -> allowed r = true ->
    reachableWith env allowed (storeAfter (handler env now r) s).

Definition reachable (env : Env) : Store -> Prop :=
  reachableWith env (fun _ => true).

(** [ceil(a / b)] for a positive [b]. *)
Definition ceilDiv (a b : Z) : Z := (a + b - 1) / b.

(** The filter of a book list query, when its patterns are regular
    expressions. *)
Definition compilePattern (env : Env) (p : option string)
  : option (option (string -> bool)) :=
  match truthy p with
  | None => Some None
  | Some src => option_map Some (RegExp_i env src)
  end.

Definition queryFilter (env : Env) (q : BookRoutes.Query)
  : option (BookSchema.doc -> bool) :=
  match compilePattern env (BookRoutes.author q),
        compilePattern env (BookRoutes.search q) with
  | Some a, Some f => Some (BookRoutes.matches (BookRoutes.genre q) a f)
  | _, _ => None
  end.

(** The answer to a book list query is the page that the specification
    describes: of the matching books in the order asked for, those after
    the first [(page - 1) * limit], [limit] of them at most, with the
    total and the number of pages. *)
Definition paginated (env : Env) (q : BookRoutes.Query) (s : Store) : Prop :=
  let page := orDefault (BookRoutes.page q) 1 in
  let limit := orDefault (BookRoutes.limit q) 10 in
  exists f,
    queryFilter env q = Some f /\
    let matching :=
      SortKey.sort (Book.sortKey (orDefault (BookRoutes.sortBy q) "createdAt"))
        (BookRoutes.sortOrder (BookRoutes.order q)) (filter f (books s)) in
    let listed :=
      firstn (Z.to_nat limit) (skipn (Z.to_nat ((page - 1) * limit)) matching) in
    let total := Z.of_nat (List.length matching) in
    resultOf (BookRoutes.get_books env q) s =
      inr {| status := 200;
             json := JBookPage listed page limit total (ofZ (ceilDiv total limit)) |} /\
    Z.of_nat (List.length listed) <= limit.

(** The reviews that a response lists. *)
Definition listedReviews (r : Exn + Response) : list ReviewSchema.doc :=
  match r with
  | inr {| json := JReviews l |} => map Review.review l
  | inr {| json := JReviewDocs l |} => l
  | _ => []
  end.

(* ================================================================== *)
(** * Notions used in the proofs on rounding *)
(* ================================================================== *)

(** A normal mantissa of binary64. *)
Definition is53 (m : positive) : Prop := 2 ^ 52 <= Z.pos m < 2 ^ 53.

(** Some bit was lost at or below the location. *)
Definition sticky (l : location) : bool :=
  match l with loc_Exact => false | _ => true end.

(** [loc_frac l x y]: the location [l] describes the fraction [x / y] of
    the interval between a mantissa and its successor. *)
Definition loc_frac (l : location) (x y : Z) : Prop :=
  0 <= x < y /\
  match l with
  | loc_Exact => x = 0
  | loc_Inexact Lt => 0 < x /\ 2 * x < y
  | loc_Inexact Eq => 2 * x = y
  | loc_Inexact Gt => 2 * x > y
  end.

(* ================================================================== *)
(** * Notions used in the proofs on the collections *)
(* ================================================================== *)

(** An id is held by one document of its collection, and every review
    references a book of the collection by a 96-bit id. *)
Definition wellFormed (s : Store) : Prop :=
  NoDup (map BookSchema._id (books s)) /\
  NoDup (map ReviewSchema._id (reviews s)) /\
  (forall r, In r (reviews s) ->
     (ReviewSchema.book r < 16 ^ 24)%N /\
     Book.lookup (ReviewSchema.book r) (books s) <> None).

(** Every book but those with an id in [ids] carries its aggregate. *)
Definition consistentExcept (ids : list ObjectId.t) (s : Store) : Prop :=
  forall b, In b (books s) -> ~ In (BookSchema._id b) ids ->
    aggregate b = aggregateOf (referencing (BookSchema._id b) s).

Definition Inv (s : Store) : Prop := wellFormed s /\ consistent s.

(** A program whose operations leave the collections as they are. *)
Inductive quiet {A} : M A -> Prop :=
| quiet_ret (a : A) : quiet (Ret a)
| quiet_throw (e : Exn) : quiet (Throw e)
| quiet_atomic (X : Type) (op : DbOp) (f : Store -> X * Store) (k : X -> M A) :
    (forall s, snd (f s) = s) -> (forall x, quiet (k x)) ->
    quiet (Atomic op f k).




(** The [book] filter of a review list query, when it can be cast. *)
Definition bookFilter (q : ReviewRoutes.Query) : option (option ObjectId.t) :=
  match truthy (ReviewRoutes.book q) with
  | None => Some None
  | Some b => option_map Some (ObjectId.cast b)
  end.

(* ================================================================== *)
(** * Sample data *)
(* ================================================================== *)

Module Sample.

Definition lower (c : ascii) : ascii :=
  let n := N_of_ascii c in
  if ((65 <=? n) && (n <=? 90))%N then ascii_of_N (n + 32) else c.

Fixpoint lowerAll (s : string) : string :=
  match s with
  | EmptyString => EmptyString
  | String c s' => String (lower c) (lowerAll s')
  end.

(** Patterns without metacharacters: a search for the text, in any case. *)
Definition literal (pattern : string) : option (string -> bool) :=
  Some (fun s =>
          match index 0 (lowerAll pattern) (lowerAll s) with
          | Some _ => true
          | None => false
          end).

Definition env : Env := {| currentYear := 2024; RegExp_i := literal |}.

Definition bookBody (isbn : string) : BookBody.t :=
  {| BookBody._id := None;
     BookBody.title := Some "A Title";
     BookBody.author := Some "An Author";
     BookBody.isbn := Some isbn;
     BookBody.publicationYear := Some 2020;
     BookBody.genre := Some "Fiction";
     BookBody.description := None;
     BookBody.publisher := None;
     BookBody.pages := None;
     BookBody.language := None;
     BookBody.averageRating := None;
     BookBody.numberOfReviews := None |}.

Definition firstBook : BookBody.t := bookBody "978-3-16-148410-0".
Definition secondBook : BookBody.t := bookBody "0-306-40615-2".

(** A body that gives values to the derived fields. *)
Definition ratedBook : BookBody.t :=
  {| BookBody._id := None;
     BookBody.title := Some "A Title";
     BookBody.author := Some "An Author";
     BookBody.isbn := Some "978-3-16-148410-0";
     BookBody.publicationYear := Some 2020;
     BookBody.genre := Some "Fiction";
     BookBody.description := None;
     BookBody.publisher := None;
     BookBody.pages := None;
     BookBody.language := None;
     BookBody.averageRating := Some (ofZ 5);
     BookBody.numberOfReviews := Some 7 |}.

Definition reviewBody (book : string) (rating : Z) : ReviewBody.t :=
  {| ReviewBody._id := None;
     ReviewBody.book := Some book;
     ReviewBody.reviewerName := Some "A Reader";
     ReviewBody.rating := Some rating;
     ReviewBody.reviewText := Some "Well worth reading.";
     ReviewBody.reviewDate := None;
     ReviewBody.helpful := None;
     ReviewBody.verified := None |}.

(** The same bodies with an [_id], and with a [helpful] count. *)
Definition withBookId (id : ObjectId.t) (b : BookBody.t) : BookBody.t :=
  {| BookBody._id := Some id;
     BookBody.title := BookBody.title b;
     BookBody.author := BookBody.author b;
     BookBody.isbn := BookBody.isbn b;
     BookBody.publicationYear := BookBody.publicationYear b;
     BookBody.genre := BookBody.genre b;
     BookBody.description := BookBody.description b;
     BookBody.publisher := BookBody.publisher b;
     BookBody.pages := BookBody.pages b;
     BookBody.language := BookBody.language b;
     BookBody.averageRating := BookBody.averageRating b;
     BookBody.numberOfReviews := BookBody.numberOfReviews b |}.

Definition secondBookWithId0 : BookBody.t := withBookId 0%N secondBook.

Definition withReviewId (id : ObjectId.t) (b : ReviewBody.t) : ReviewBody.t :=
  {| ReviewBody._id := Some id;
     ReviewBody.book := ReviewBody.book b;
     ReviewBody.reviewerName := ReviewBody.reviewerName b;
     ReviewBody.rating := ReviewBody.rating b;
     ReviewBody.reviewText := ReviewBody.reviewText b;
     ReviewBody.reviewDate := ReviewBody.reviewDate b;
     ReviewBody.helpful := ReviewBody.helpful b;
     ReviewBody.verified := ReviewBody.verified b |}.

Definition withHelpful (h : Z) (b : ReviewBody.t) : ReviewBody.t :=
  {| ReviewBody._id := ReviewBody._id b;
     ReviewBody.book := ReviewBody.book b;
     ReviewBody.reviewerName := ReviewBody.reviewerName b;
     ReviewBody.rating := ReviewBody.rating b;
     ReviewBody.reviewText := ReviewBody.reviewText b;
     ReviewBody.reviewDate := ReviewBody.reviewDate b;
     ReviewBody.helpful := Some h;
     ReviewBody.verified := ReviewBody.verified b |}.

Definition after (requests : list Request) (s : Store) : Store :=
  fold_left (fun s r => storeAfter (handler env 1%N r) s) requests s.

Definition id0 : string := "000000000000000000000000".

(** One book (id 0). *)
Definition oneBook : Store := after [PostBook firstBook] emptyStore.

(** One book with two reviews, rated 4 (id 1) and 5 (id 2). *)
Definition twoReviews : Store :=
  after [PostReview (reviewBody id0 4); PostReview (reviewBody id0 5)] oneBook.

(** A second book whose id has a letter among its digits (id 10, written
    ...0a), with one review (id 11, written ...0b). *)
Definition secondShelf : Store :=
  after
    (map (fun r => PostReview (reviewBody id0 r)) [3; 4; 5; 3; 4; 5; 3] ++
     [PostBook secondBook;
      PostReview (reviewBody "00000000000000000000000a" 4)])
    twoReviews.

(** The update of review ...0b that names its book with the digit A in
    upper case. *)
Definition sameBookUpperCase : ReviewBody.t :=
  reviewBody "00000000000000000000000A" 4.

(** A collection of [n] books. *)
Definition libraryBook (i : nat) : BookSchema.doc :=
  {| BookSchema._id := N.of_nat i;
     BookSchema.title := "A Title";
     BookSchema.author := "An Author";
     BookSchema.isbn := ObjectId.toString (N.of_nat i);
     BookSchema.publicationYear := 2020;
     BookSchema.genre := "Fiction";
     BookSchema.description := None;
     BookSchema.publisher := None;
     BookSchema.pages := None;
     BookSchema.language := "English";
     BookSchema.averageRating := ofZ 0;
     BookSchema.numberOfReviews := 0;
     BookSchema.createdAt := N.of_nat i;
     BookSchema.updatedAt := N.of_nat i |}.

Definition library (n : nat) : Store :=
  {| books := map libraryBook (seq 0 n); reviews := []; nextId := N.of_nat n |}.

Definition pageQuery (page limit : Z) : BookRoutes.Query :=
  {| BookRoutes.genre := None; BookRoutes.author := None;
     BookRoutes.search := None; BookRoutes.page := Some page;
     BookRoutes.limit := Some limit; BookRoutes.sortBy := None;
     BookRoutes.order := None |}.

Definition allReviews : ReviewRoutes.Query :=
  {| ReviewRoutes.book := None; ReviewRoutes.rating := None;
     ReviewRoutes.sort := None; ReviewRoutes.order := None |}.

End Sample.

(* ================================================================== *)
(** * Further vocabulary: all the routes *)
(* ================================================================== *)

(** The errors that the validation chains of a request report. *)
Definition requestErrors (env : Env) (r : Request) : list string :=
  match r with
  | PostBook body => fst (BookRoutes.validateBook env body)
  | PutBook id body =>
      BookRoutes.validateId id ++ fst (BookRoutes.validateBook env body)
  | DeleteBook id => BookRoutes.validateId id
  | PostReview body => fst (ReviewRoutes.validateReview body)
  | PutReview id body =>
      ReviewRoutes.validateId id ++ fst (ReviewRoutes.validateReview body)
  | DeleteReview id => ReviewRoutes.validateId id
  | PatchHelpful id => ReviewRoutes.validateId id
  end.

(** The requests that only read. *)
Inductive ReadRequest :=
| GetBooks (q : BookRoutes.Query)
| GetBook (id : string)
| GetBookReviews (id : string)
| GetReviews (q : ReviewRoutes.Query)
| GetReview (id : string).

Definition reader (env : Env) (r : ReadRequest) : M Response :=
  match r with
  | GetBooks q => BookRoutes.get_books env q
  | GetBook id => BookRoutes.get_book id
  | GetBookReviews id => BookRoutes.get_book_reviews id
  | GetReviews q => ReviewRoutes.get_reviews q
  | GetReview id => ReviewRoutes.get_review id
  end.

(** The status codes that each route answers with. *)
Definition statusesOf (r : Request) : list Z :=
  match r with
  | PostBook _ => [201; 400]
  | PutBook _ _ => [200; 400; 404]
  | DeleteBook _ => [200; 400; 404; 500]
  | PostReview _ => [201; 400; 404]
  | PutReview _ _ => [200; 400; 404]
  | DeleteReview _ => [200; 400; 404; 500]
  | PatchHelpful _ => [200; 400; 404; 500]
  end.

Definition readStatusesOf (r : ReadRequest) : list Z :=
  match r with
  | GetBooks _ => [200; 500]
  | GetBook _ => [200; 400; 404; 500]
  | GetBookReviews _ => [200; 400; 404; 500]
  | GetReviews _ => [200; 500]
  | GetReview _ => [200; 400; 404; 500]
  end.

(** A program answers with one of the codes, whatever the store gives
    back, and lets no error out. *)
Inductive answersWith (codes : list Z) : M Response -> Prop :=
| answersWith_ret (r : Response) :
    In (status r) codes -> answersWith codes (Ret r)
| answersWith_atomic (X : Type) (op : DbOp) (f : Store -> X * Store)
                     (k : X -> M Response) :
    (forall x, answersWith codes (k x)) -> answersWith codes (Atomic op f k).

(** A program that may throw, and otherwise answers with one of the
    codes. *)
Inductive throwsOrAnswersWith (codes : list Z) : M Response -> Prop :=
| throwsOr_ret (r : Response) :
    In (status r) codes -> throwsOrAnswersWith codes (Ret r)
| throwsOr_throw (e : Exn) : throwsOrAnswersWith codes (Throw e)
| throwsOr_atomic (X : Type) (op : DbOp) (f : Store -> X * Store)
                  (k : X -> M Response) :
    (forall x, throwsOrAnswersWith codes (k x)) ->
    throwsOrAnswersWith codes (Atomic op f k).

(** The validator of [reviewSchema] on a path that the chain
    [validateReview] does not name: [helpful] is not negative. *)
Definition helpfulOk (b : ReviewBody.t) : bool :=
  match ReviewBody.helpful b with
  | Some h => 0 <=? h
  | None => true
  end.

(** A list of characters that does not start with white space. *)
Definition startsClean (l : list ascii) : Prop :=
  match l with
  | c :: _ => Text.isSpace c = false
  | [] => True
  end.

(** Book ids and ISBNs are each held by one book. *)
Definition distinctBooks (s : Store) : Prop :=
  NoDup (map BookSchema._id (books s)) /\
  NoDup (map BookSchema.isbn (books s)).

(** The characters of an ISBN as the schema accepts it. *)
Definition isbnChar (c : ascii) : bool :=
  Regex.digit c || Regex.isX c || Regex.sep c.

(** A stored review that satisfies the validators of [reviewSchema]. *)
Definition schemaReview (r : ReviewSchema.doc) : Prop :=
  1 <= ReviewSchema.rating r <= 5 /\
  2 <= Text.len (ReviewSchema.reviewerName r) <= 100 /\
  10 <= Text.len (ReviewSchema.reviewText r) <= 2000 /\
  0 <= ReviewSchema.helpful r.

(** A stored book that satisfies the validators of [bookSchema] on its
    required paths and on [numberOfReviews]. *)
Definition schemaBook (env : Env) (b : BookSchema.doc) : Prop :=
  1 <= Text.len (BookSchema.title b) <= 200 /\
  1 <= Text.len (BookSchema.author b) <= 100 /\
  Regex.test Regex.isbn (BookSchema.isbn b) = true /\
  1000 <= BookSchema.publicationYear b <= currentYear env /\
  In (BookSchema.genre b) BookSchema.genres /\
  0 <= BookSchema.numberOfReviews b.

(** Every review references a book of the collection. *)
Definition referencesHold (s : Store) : Prop :=
  forall r, In r (reviews s) ->
    Book.lookup (ReviewSchema.book r) (books s) <> None.

(** What holds of the collections at every state that the routes reach. *)
Definition sound (env : Env) (s : Store) : Prop :=
  wellFormed s /\ distinctBooks s /\
  Forall (schemaBook env) (books s) /\ Forall schemaReview (reviews s).

(** A route answers 404 with the given message and changes nothing. *)
Definition notFound (what : string) (m : M Response) (s : Store) : Prop :=
  resultOf m s = inr {| status := 404; json := JError what |} /\
  storeAfter m s = s.

(** A route answers with the CastError that the model has thrown, before
    any operation is sent. *)
Definition castFailure (code : Z) (m : M Response) (s : Store) : Prop :=
  run m s = (inr {| status := code; json := JException CastError |}, s, []).

(* ================================================================== *)
(** * Facts on binary64 rounding *)
(* ================================================================== *)

Lemma digits2_pos_bounds (p : positive) :
  2 ^ (Z.pos (digits2_pos p) - 1) <= Z.pos p < 2 ^ Z.pos (digits2_pos p).
Proof.
  induction p as [p IH | p IH |]; cbn [digits2_pos]; rewrite ?Pos2Z.inj_succ.
  - replace (Z.succ (Z.pos (digits2_pos p)) - 1) with (Z.succ (Z.pos (digits2_pos p) - 1)) by lia.
    rewrite !Z.pow_succ_r by lia. lia.
  - replace (Z.succ (Z.pos (digits2_pos p)) - 1) with (Z.succ (Z.pos (digits2_pos p) - 1)) by lia.
    rewrite !Z.pow_succ_r by lia. lia.
  - cbn. lia.
Qed.

Lemma digits2_pos_unique (p : positive) (k : Z) :
  2 ^ (k - 1) <= Z.pos p < 2 ^ k -> Z.pos (digits2_pos p) = k.
Proof.
  intros [Hlo Hhi]. pose proof (digits2_pos_bounds p) as [Dlo Dhi].
  set (d := Z.pos (digits2_pos p)) in *.
  assert (0 < k). { destruct (Z_lt_le_dec 0 k); auto. rewrite Z.pow_neg_r in Hlo by lia.
    destruct (Z.eq_dec k 0). subst. cbn in Hhi. lia. rewrite Z.pow_neg_r in Hhi; lia. }
  destruct (Z_lt_le_dec d k).
  - assert (2 ^ d <= 2 ^ (k - 1)) by (apply Z.pow_le_mono_r; lia). lia.
  - destruct (Z.eq_dec d k); auto.
    assert (2 ^ k <= 2 ^ (d - 1)) by (apply Z.pow_le_mono_r; lia). lia.
Qed.

Lemma iter_xO (m k : positive) : Z.pos (Pos.iter xO m k) = Z.pos m * 2 ^ Z.pos k.
Proof.
  induction k as [|k IH] using Pos.peano_ind.
  - cbn. lia.
  - rewrite Pos.iter_succ, Pos2Z.inj_succ, Z.pow_succ_r by lia.
    rewrite Pos2Z.inj_xO, IH. lia.
Qed.

Lemma shr_fexp_53 (m : positive) (e : Z) (l : location) :
  is53 m -> -1074 <= e ->
  shr_fexp 53 1024 (Z.pos m) e l = (shr_record_of_loc (Z.pos m) l, e).
Proof.
  intros Hm He. unfold shr_fexp, Zdigits2.
  rewrite (digits2_pos_unique m 53) by exact Hm.
  unfold fexp, emin.
  replace (Z.max (53 + e - 53) (3 - 1024 - 53) - e) with 0 by lia.
  reflexivity.
Qed.

Lemma shr_fexp_54 (m : positive) (e : Z) (l : location) :
  2 ^ 53 <= Z.pos m < 2 ^ 54 -> -1075 <= e ->
  shr_fexp 53 1024 (Z.pos m) e l = (shr_1 (shr_record_of_loc (Z.pos m) l), e + 1).
Proof.
  intros Hm He. unfold shr_fexp, Zdigits2.
  rewrite (digits2_pos_unique m 54) by exact Hm.
  unfold fexp, emin.
  replace (Z.max (54 + e - 53) (3 - 1024 - 53) - e) with 1 by lia.
  reflexivity.
Qed.

Lemma loc_of_shr_record_of_loc m l :
  loc_of_shr_record (shr_record_of_loc m l) = l.
Proof. destruct l as [|[]]; reflexivity. Qed.

Lemma shr_m_of_loc m l : shr_m (shr_record_of_loc m l) = m.
Proof. destruct l as [|[]]; reflexivity. Qed.

(** Rounding a 53-bit mantissa: the mantissa is kept, or incremented, and
    an increment that reaches 2^53 is renormalised. *)
Lemma binary_round_aux_53 (m : positive) (e : Z) (l : location) :
  is53 m -> -1074 <= e < 970 ->
  binary_round_aux 53 1024 false (Z.pos m) e l =
    let m' := round_nearest_even (Z.pos m) l in
    if m' =? 2 ^ 53 then S754_finite false (2 ^ 52)%positive (e + 1)
    else S754_finite false (Z.to_pos m') e.
Proof.
  intros Hm He. unfold binary_round_aux.
  rewrite shr_fexp_53 by (auto; lia).
  rewrite loc_of_shr_record_of_loc, shr_m_of_loc.
  cbv zeta.
  assert (Hr : round_nearest_even (Z.pos m) l = Z.pos m \/
               round_nearest_even (Z.pos m) l = Z.pos m + 1).
  { destruct l as [|[]]; cbn [round_nearest_even]; auto. destruct (Z.even _); auto. }
  destruct (Z.eqb_spec (round_nearest_even (Z.pos m) l) (2 ^ 53)) as [E|NE].
  - rewrite E. change (2 ^ 53) with (Z.pos (2 ^ 53)%positive).
    rewrite shr_fexp_54 by (try lia; split; vm_compute; congruence).
    change (shr_1 (shr_record_of_loc (Z.pos (2 ^ 53)) loc_Exact))
      with {| shr_m := Z.pos (2 ^ 52); shr_r := false; shr_s := false |}.
    cbn [shr_m].
    replace (e + 1 <=? 1024 - 53) with true by (symmetry; apply Z.leb_le; lia).
    reflexivity.
  - unfold is53 in Hm.
    destruct (round_nearest_even (Z.pos m) l) as [|m'|m'] eqn:Em'; try lia.
    rewrite shr_fexp_53; [|unfold is53; lia|lia].
    cbn [shr_record_of_loc shr_m].
    replace (e <=? 1024 - 53) with true by (symmetry; apply Z.leb_le; lia).
    reflexivity.
Qed.

Lemma binary_round_aux_54 (m : positive) (e : Z) (l : location) :
  2 ^ 53 <= Z.pos m < 2 ^ 54 -> -1075 <= e < 969 ->
  binary_round_aux 53 1024 false (Z.pos m) e l =
  binary_round_aux 53 1024 false (Z.pos m / 2) (e + 1)
    (loc_of_shr_record
       {| shr_m := Z.pos m / 2; shr_r := Z.odd (Z.pos m); shr_s := sticky l |}).
Proof.
  intros Hm He.
  assert (H2 : 2 ^ 52 <= Z.pos m / 2 < 2 ^ 53).
  { split; [apply Z.div_le_lower_bound | apply Z.div_lt_upper_bound]; lia. }
  destruct (Z.pos m / 2) as [|p|p] eqn:Ep; try lia.
  unfold binary_round_aux at 1 2.
  rewrite shr_fexp_54 by (auto; lia).
  rewrite shr_fexp_53 by (unfold is53; auto; lia).
  rewrite loc_of_shr_record_of_loc, shr_m_of_loc.
  assert (Hs : shr_1 (shr_record_of_loc (Z.pos m) l) =
               {| shr_m := Z.pos p; shr_r := Z.odd (Z.pos m); shr_s := sticky l |}).
  { destruct m as [m|m|]; [| |cbn in Hm; lia].
    - rewrite Pos2Z.inj_xI in Ep.
      assert (Z.pos m = Z.pos p).
      { rewrite <- Ep. apply (Z.div_unique _ 2 _ 1); lia. }
      destruct l as [|[]]; cbn; congruence.
    - rewrite Pos2Z.inj_xO in Ep.
      assert (Z.pos m = Z.pos p).
      { rewrite <- Ep. apply (Z.div_unique _ 2 _ 0); lia. }
      destruct l as [|[]]; cbn; congruence. }
  rewrite Hs. reflexivity.
Qed.

Lemma SFdiv_core_binary_53 (m1 m2 : positive) (e1 e2 : Z) :
  is53 m1 -> is53 m2 -> -1074 <= e1 - e2 - 53 ->
  SFdiv_core_binary 53 1024 (Z.pos m1) e1 (Z.pos m2) e2 =
    (Z.pos m1 * 2 ^ 53 / Z.pos m2, e1 - e2 - 53,
     new_location (Z.pos m2) (Z.pos m1 * 2 ^ 53 mod Z.pos m2)).
Proof.
  intros H1 H2 He. unfold SFdiv_core_binary, Zdigits2.
  rewrite (digits2_pos_unique m1 53), (digits2_pos_unique m2 53) by assumption.
  unfold fexp, emin.
  replace (Z.min (Z.max (53 + e1 - (53 + e2) - 53) (3 - 1024 - 53)) (e1 - e2))
    with (e1 - e2 - 53) by lia.
  replace (e1 - e2 - (e1 - e2 - 53)) with 53 by lia.
  rewrite Z.shiftl_mul_pow2 by lia.
  unfold Z.div, Z.modulo.
  destruct (Z.div_eucl (Z.pos m1 * 2 ^ 53) (Z.pos m2)); reflexivity.
Qed.

Lemma new_location_frac (n r : Z) :
  0 <= r < n -> loc_frac (new_location n r) r n.
Proof.
  intros Hr. split; [exact Hr|].
  unfold new_location, new_location_even, new_location_odd.
  destruct (Z.even n) eqn:En.
  - destruct (Z.eqb_spec r 0); [assumption|].
    destruct (Z.compare_spec (2 * r) n); lia.
  - destruct (Z.eqb_spec r 0); [assumption|].
    assert (Hodd : Z.odd n = true) by (rewrite <- Z.negb_even, En; reflexivity).
    apply Z.odd_spec in Hodd. destruct Hodd as [h Hh].
    destruct (Z.compare_spec (2 * r + 1) n); lia.
Qed.

Lemma round_53_spec (m : positive) (e : Z) (l : location) (x y : Z) :
  is53 m -> -1074 <= e < 970 -> loc_frac l x y ->
  exists (m' : positive) (k : Z),
    binary_round_aux 53 1024 false (Z.pos m) e l = S754_finite false m' (e + k) /\
    is53 m' /\ 0 <= k <= 1 /\
    2 * Z.abs (Z.pos m' * 2 ^ k * y - (Z.pos m * y + x)) <= 2 ^ k * y.
Proof.
  intros Hm He [Hx Hl]. rewrite binary_round_aux_53 by assumption. cbv zeta.
  unfold is53 in *.
  assert (Hr : (round_nearest_even (Z.pos m) l = Z.pos m /\
                  2 * x <= y) \/
               (round_nearest_even (Z.pos m) l = Z.pos m + 1 /\ 2 * x >= y)).
  { destruct l as [|[]]; cbn [round_nearest_even]; try (left; split; [reflexivity|lia]).
    - destruct (Z.even (Z.pos m)); [left|right]; split; try reflexivity; lia.
    - right; split; [reflexivity|lia]. }
  destruct (Z.eqb_spec (round_nearest_even (Z.pos m) l) (2 ^ 53)) as [E|NE].
  - exists (2 ^ 52)%positive, 1. split; [reflexivity|].
    change (Z.pos (2 ^ 52)) with (2 ^ 52).
    split; [lia|]. split; [lia|].
    change (2 ^ 52 * 2 ^ 1) with (2 ^ 53). change (2 ^ 1) with 2.
    destruct Hr as [[Hr ?]|[Hr ?]]; rewrite Hr in E; [lia|].
    replace (2 ^ 53) with (Z.pos m + 1) by lia. lia.
  - destruct Hr as [[Hr ?]|[Hr ?]]; rewrite Hr in *.
    + exists m, 0. rewrite Z.add_0_r. cbn [Z.to_pos].
      split; [reflexivity|]. split; [lia|]. split; [lia|].
      change (2 ^ 0) with 1. lia.
    + exists (Z.to_pos (Z.pos m + 1)), 0. rewrite Z.add_0_r.
      split; [reflexivity|]. rewrite Z2Pos.id by lia.
      split; [lia|]. split; [lia|]. change (2 ^ 0) with 1. lia.
Qed.

Lemma round_54_spec (m : positive) (e : Z) (l : location) (x y : Z) :
  2 ^ 53 <= Z.pos m < 2 ^ 54 -> -1075 <= e < 969 -> loc_frac l x y ->
  exists (m' : positive) (k : Z),
    binary_round_aux 53 1024 false (Z.pos m) e l = S754_finite false m' (e + k) /\
    is53 m' /\ 1 <= k <= 2 /\
    2 * Z.abs (Z.pos m' * 2 ^ k * y - (Z.pos m * y + x)) <= 2 ^ k * y.
Proof.
  intros Hm He Hl. rewrite binary_round_aux_54 by assumption.
  assert (H2 : 2 ^ 52 <= Z.pos m / 2 < 2 ^ 53).
  { split; [apply Z.div_le_lower_bound | apply Z.div_lt_upper_bound]; lia. }
  pose proof (Z.div_mod (Z.pos m) 2 ltac:(lia)) as Hdm.
  pose proof (Z.mod_pos_bound (Z.pos m) 2 ltac:(lia)) as Hb.
  rewrite Zmod_odd in Hdm, Hb.
  destruct (Z.pos m / 2) as [|p|p] eqn:Ep; try lia.
  set (b := if Z.odd (Z.pos m) then 1 else 0) in *.
  assert (Hl' : loc_frac
            (loc_of_shr_record
               {| shr_m := Z.pos p; shr_r := Z.odd (Z.pos m); shr_s := sticky l |})
            (b * y + x) (2 * y)).
  { destruct Hl as [Hx Hl]. unfold loc_frac. subst b.
    destruct (Z.odd (Z.pos m)); destruct l as [|[]];
      cbn [loc_of_shr_record sticky]; cbv iota in *; lia. }
  destruct (round_53_spec p (e + 1) _ _ _ H2 ltac:(lia) Hl')
    as (m' & k & Hres & Hm' & Hk & Hbound).
  exists m', (k + 1). rewrite Hres. split; [f_equal; lia|].
  split; [assumption|]. split; [lia|].
  rewrite Z.pow_add_r by lia. change (2 ^ 1) with 2.
  replace (Z.pos m * y + x) with (Z.pos p * (2 * y) + (b * y + x)) by lia.
  lia.
Qed.

Lemma SFdiv_53_spec (m1 m2 : positive) (e1 e2 : Z) :
  is53 m1 -> is53 m2 -> -1074 <= e1 - e2 - 53 < 969 ->
  exists (m : positive) (k : Z),
    SFdiv 53 1024 (S754_finite false m1 e1) (S754_finite false m2 e2)
      = S754_finite false m (e1 - e2 - 53 + k) /\
    is53 m /\ 0 <= k <= 2 /\
    2 * Z.abs (Z.pos m * 2 ^ k * Z.pos m2 - Z.pos m1 * 2 ^ 53) <= 2 ^ k * Z.pos m2.
Proof.
  intros H1 H2 He. unfold SFdiv.
  rewrite SFdiv_core_binary_53 by (auto; lia). cbn [xorb].
  pose proof (Z.div_mod (Z.pos m1 * 2 ^ 53) (Z.pos m2) ltac:(lia)) as Hdm.
  pose proof (Z.mod_pos_bound (Z.pos m1 * 2 ^ 53) (Z.pos m2) ltac:(lia)) as Hr.
  set (Q := Z.pos m1 * 2 ^ 53 / Z.pos m2) in *.
  set (R := Z.pos m1 * 2 ^ 53 mod Z.pos m2) in *.
  pose proof (new_location_frac _ _ Hr) as Hl.
  unfold is53 in H1, H2.
  assert (HQ : 2 ^ 52 <= Q < 2 ^ 54).
  { split.
    - apply Z.div_le_lower_bound; [lia|]. nia.
    - apply Z.div_lt_upper_bound; [lia|]. nia. }
  destruct Q as [|q|q] eqn:EQ; try lia.
  destruct (Z_lt_le_dec (Z.pos q) (2 ^ 53)) as [Hlt|Hge].
  - destruct (round_53_spec q (e1 - e2 - 53) _ _ _ ltac:(unfold is53; lia) ltac:(lia) Hl)
      as (m & k & Hres & Hm & Hk & Hb).
    exists m, k. split; [exact Hres|]. split; [exact Hm|]. split; [lia|].
    rewrite Hdm. replace (Z.pos m2 * Z.pos q + R) with (Z.pos q * Z.pos m2 + R) by lia.
    exact Hb.
  - destruct (round_54_spec q (e1 - e2 - 53) _ _ _ ltac:(lia) ltac:(lia) Hl)
      as (m & k & Hres & Hm & Hk & Hb).
    exists m, k. split; [exact Hres|]. split; [exact Hm|]. split; [lia|].
    rewrite Hdm. replace (Z.pos m2 * Z.pos q + R) with (Z.pos q * Z.pos m2 + R) by lia.
    exact Hb.
Qed.

(** Integers below 2^53 convert exactly: the mantissa is the integer
    shifted to 53 bits. *)
Lemma binary_normalize_pos (p : positive) :
  Z.pos p < 2 ^ 53 ->
  exists (m : positive) (a : Z),
    binary_normalize 53 1024 (Z.pos p) 0 false = S754_finite false m (- a) /\
    is53 m /\ 0 <= a <= 52 /\ Z.pos m = Z.pos p * 2 ^ a.
Proof.
  intros Hp. pose proof (digits2_pos_bounds p) as Hd.
  set (d := Z.pos (digits2_pos p)) in *.
  assert (Hd53 : 1 <= d <= 53).
  { split; [unfold d; lia|].
    destruct (Z_lt_le_dec 53 d); [|assumption].
    assert (2 ^ 53 <= 2 ^ (d - 1)) by (apply Z.pow_le_mono_r; lia). lia. }
  cbn [binary_normalize]. unfold binary_round, shl_align.
  fold d. unfold fexp, emin.
  replace (Z.max (d + 0 - 53) (3 - 1024 - 53) - 0) with (d - 53) by lia.
  assert (Hmz : forall mz : positive, Z.pos mz = Z.pos p * 2 ^ (53 - d) -> is53 mz).
  { intros mz E. unfold is53. rewrite E.
    assert (E52 : 2 ^ 52 = 2 ^ (d - 1) * 2 ^ (53 - d))
      by (rewrite <- Z.pow_add_r by lia; f_equal; lia).
    assert (E53 : 2 ^ 53 = 2 ^ d * 2 ^ (53 - d))
      by (rewrite <- Z.pow_add_r by lia; f_equal; lia).
    assert (0 < 2 ^ (53 - d)) by (apply Z.pow_pos_nonneg; lia).
    rewrite E52, E53. nia. }
  destruct (d - 53) as [|n|n] eqn:En; try lia.
  - exists p, 0. assert (d = 53) by lia.
    replace (Z.max (d + 0 - 53) (3 - 1024 - 53)) with 0 by lia.
    assert (Hi : is53 p) by (apply Hmz; replace (53 - d) with 0 by lia; cbn; lia).
    rewrite binary_round_aux_53 by (auto; lia). cbn [round_nearest_even].
    cbv zeta. unfold is53 in Hi.
    destruct (Z.eqb_spec (Z.pos p) (2 ^ 53)); [lia|].
    cbn [Z.to_pos]. split; [reflexivity|]. split; [assumption|]. split; lia.
  - exists (Pos.iter xO p n), (53 - d).
    assert (Em : Z.pos (Pos.iter xO p n) = Z.pos p * 2 ^ (53 - d)).
    { rewrite iter_xO. f_equal. f_equal. lia. }
    pose proof (Hmz _ Em) as Hi.
    replace (Z.max (d + 0 - 53) (3 - 1024 - 53)) with (- (53 - d)) by lia.
    rewrite binary_round_aux_53 by (auto; lia). cbn [round_nearest_even].
    cbv zeta. unfold is53 in Hi.
    destruct (Z.eqb_spec (Z.pos (Pos.iter xO p n)) (2 ^ 53)); [lia|].
    cbn [Z.to_pos]. split; [reflexivity|]. split; [assumption|]. split; [lia|assumption].
Qed.

(** Division of two positive integers below 2^53: the quotient is a normal
    number within half a unit in the last place of the exact quotient. *)
Lemma div_ofZ_spec (p q : Z) :
  0 < p < 2 ^ 53 -> 0 < q < 2 ^ 53 ->
  exists (m : positive) (e : Z),
    div (ofZ p) (ofZ q) = S754_finite false m e /\
    is53 m /\ -105 <= e <= 1 /\
    2 * Z.abs (Z.pos m * 2 ^ (e + 106) * q - p * 2 ^ 106) <= 2 ^ (e + 106) * q.
Proof.
  intros Hp Hq. unfold div, ofZ.
  destruct p as [|pp|pp]; try lia. destruct q as [|qq|qq]; try lia.
  destruct (binary_normalize_pos pp ltac:(lia)) as (m1 & a & E1 & I1 & Ha & V1).
  destruct (binary_normalize_pos qq ltac:(lia)) as (m2 & b & E2 & I2 & Hb & V2).
  rewrite E1, E2.
  destruct (SFdiv_53_spec m1 m2 (- a) (- b) I1 I2 ltac:(lia))
    as (m & k & Hres & Hm & Hk & Hbound).
  exists m, (- a - - b - 53 + k). split; [exact Hres|]. split; [exact Hm|].
  split; [lia|].
  replace (- a - - b - 53 + k + 106) with (k + b + (53 - a)) by lia.
  assert (E106 : 2 ^ 106 = 2 ^ a * 2 ^ 53 * 2 ^ (53 - a)).
  { rewrite <- !Z.pow_add_r by lia. f_equal. lia. }
  rewrite E106, !Z.pow_add_r by lia. clear E106.
  rewrite V1, V2 in Hbound.
  assert (HT : 0 < 2 ^ (53 - a)) by (apply Z.pow_pos_nonneg; lia).
  set (T := 2 ^ (53 - a)) in *.
  replace (Z.pos m * (2 ^ k * 2 ^ b * T) * Z.pos qq - Z.pos pp * (2 ^ a * 2 ^ 53 * T))
    with ((Z.pos m * 2 ^ k * (Z.pos qq * 2 ^ b) - Z.pos pp * 2 ^ a * 2 ^ 53) * T) by ring.
  rewrite Z.abs_mul, (Z.abs_eq T) by lia.
  replace (2 ^ k * 2 ^ b * T * Z.pos qq) with (2 ^ k * (Z.pos qq * 2 ^ b) * T) by ring.
  rewrite Z.mul_assoc. apply Z.mul_le_mono_nonneg_r; [lia|exact Hbound].
Qed.

(** With a dividend below 2^52 the exponent of the quotient is not positive. *)
Lemma div_ofZ_small (p q : Z) :
  0 < p < 2 ^ 52 -> 0 < q < 2 ^ 53 ->
  exists (m : positive) (e : Z),
    div (ofZ p) (ofZ q) = S754_finite false m e /\
    is53 m /\ -105 <= e <= 0 /\
    2 * Z.abs (Z.pos m * q - p * 2 ^ (- e)) <= q.
Proof.
  intros Hp Hq.
  destruct (div_ofZ_spec p q ltac:(lia) Hq) as (m & e & Hres & Hm & He & Hb).
  exists m, e. split; [exact Hres|]. split; [exact Hm|].
  unfold is53 in Hm.
  assert (HS : 0 < 2 ^ (e + 106)) by (apply Z.pow_pos_nonneg; lia).
  assert (He0 : e <= 0).
  { destruct (Z_lt_le_dec 0 e) as [Hpos|]; [|assumption]. exfalso.
    assert (e = 1) by lia. subst e.
    change (2 ^ (1 + 106)) with (2 * 2 ^ 106) in *.
    assert (0 < 2 ^ 106) by (apply Z.pow_pos_nonneg; lia).
    set (T := 2 ^ 106) in *.
    assert (Z.pos m * (2 * T) * q - p * T <= T * q) by lia.
    assert (2 ^ 52 * 2 * q * T <= Z.pos m * (2 * T) * q) by nia.
    assert (2 ^ 52 * 2 * q * T <= (p + q) * T) by lia.
    assert (2 ^ 52 * 2 * q <= p + q) by nia.
    lia. }
  split; [lia|].
  assert (E : 2 ^ 106 = 2 ^ (- e) * 2 ^ (e + 106)).
  { rewrite <- Z.pow_add_r by lia. f_equal. lia. }
  rewrite E in Hb. set (S := 2 ^ (e + 106)) in *.
  replace (Z.pos m * S * q - p * (2 ^ (- e) * S))
    with ((Z.pos m * q - p * 2 ^ (- e)) * S) in Hb by ring.
  rewrite Z.abs_mul, (Z.abs_eq S) in Hb by lia.
  rewrite Z.mul_assoc in Hb. rewrite (Z.mul_comm S q) in Hb.
  apply Z.mul_le_mono_pos_r in Hb; assumption.
Qed.

(** The mean of at most 2^32 ratings between 1 and 5: [toFixed(2)] gives
    the digits of a nearest number with two decimals. *)
Lemma toFixed2_mean (p q : Z) :
  0 < q < 2 ^ 32 -> q <= p <= 5 * q ->
  exists n : Z,
    toFixed2 (div (ofZ p) (ofZ q)) = FixedDigits false n /\ roundedTo2 p q n.
Proof.
  intros Hq Hp.
  destruct (div_ofZ_small p q ltac:(lia) ltac:(lia)) as (m & e & Hres & Hm & He & Hb).
  rewrite Hres. unfold is53 in Hm.
  assert (HD : 0 < 2 ^ (- e)) by (apply Z.pow_pos_nonneg; lia).
  set (D := 2 ^ (- e)) in *.
  assert (H5 : Z.pos m <= 5 * D).
  { assert (2 * (Z.pos m * q) <= 2 * (p * D) + q) by lia.
    assert (2 * (p * D) <= 10 * q * D) by nia.
    assert (2 * Z.pos m * q <= (10 * D + 1) * q) by lia.
    assert (2 * Z.pos m <= 10 * D + 1) by nia. lia. }
  assert (HDbig : 100 * q < D) by lia.
  assert (Hneg : e < 0).
  { destruct (Z.eq_dec e 0) as [E0|]; [|lia]. subst D. rewrite E0 in *. cbn in H5. lia. }
  unfold toFixed2, atLeast1e21.
  replace (0 <=? e) with false by (symmetry; apply Z.leb_gt; exact Hneg).
  fold D.
  assert (Hsmall : Z.pos m / D <= 5).
  { apply Z.div_le_upper_bound; lia. }
  replace (10 ^ 21 <=? Z.pos m / D) with false by (symmetry; apply Z.leb_gt; lia).
  assert (E2 : 2 ^ (1 - e) = 2 * D).
  { unfold D. replace (1 - e) with (1 + - e) by lia. rewrite Z.pow_add_r by lia. reflexivity. }
  rewrite E2.
  set (n := (200 * Z.pos m + D) / (2 * D)).
  exists n. split; [reflexivity|].
  pose proof (Z.div_mod (200 * Z.pos m + D) (2 * D) ltac:(lia)) as Hdm.
  pose proof (Z.mod_pos_bound (200 * Z.pos m + D) (2 * D) ltac:(lia)) as Hmod.
  fold n in Hdm.
  set (r := (200 * Z.pos m + D) mod (2 * D)) in *.
  assert (Hlo : (2 * n - 1) * D <= 200 * Z.pos m) by lia.
  assert (Hhi : 200 * Z.pos m + 1 <= (2 * n + 1) * D) by lia.
  unfold roundedTo2.
  assert (Hb1 : 2 * (Z.pos m * q) <= 2 * (p * D) + q) by lia.
  assert (Hb2 : 2 * (p * D) <= 2 * (Z.pos m * q) + q) by lia.
  assert (Hup : 200 * p <= (2 * n + 1) * q).
  { destruct (Z_le_gt_dec (200 * p) ((2 * n + 1) * q)) as [|Hc]; [assumption|exfalso].
    assert ((2 * n + 1) * q * D + D <= 200 * p * D) by nia.
    assert ((200 * Z.pos m + 1) * q <= (2 * n + 1) * D * q) by nia.
    nia. }
  assert (Hdown : (2 * n - 1) * q <= 200 * p).
  { destruct (Z_le_gt_dec ((2 * n - 1) * q) (200 * p)) as [|Hc]; [assumption|exfalso].
    assert (200 * p * D + D <= (2 * n - 1) * q * D) by nia.
    assert ((2 * n - 1) * D * q <= 200 * Z.pos m * q) by nia.
    nia. }
  lia.
Qed.

Lemma ofZ_0 : ofZ 0 = S754_zero false.
Proof. reflexivity. Qed.

(** [Math.ceil] of the quotient of two integers is the integer quotient
    rounded up. *)
Lemma ceil_div_ofZ (p q : Z) :
  0 <= p < 2 ^ 52 -> 0 < q < 2 ^ 53 ->
  ceil (div (ofZ p) (ofZ q)) = ofZ (ceilDiv p q).
Proof.
  intros Hp Hq.
  destruct (Z.eq_dec p 0) as [->|Hp0].
  - destruct q as [|qq|qq]; try lia.
    destruct (binary_normalize_pos qq ltac:(lia)) as (m2 & b & E2 & _).
    unfold ofZ at 2. rewrite E2. rewrite ofZ_0. cbn [div SFdiv xorb ceil].
    unfold div, ceilDiv; cbn [SFdiv xorb ceil].
    replace ((0 + Z.pos qq - 1) / Z.pos qq) with 0; [reflexivity|].
    symmetry. apply Z.div_small. lia.
  - destruct (div_ofZ_small p q ltac:(lia) Hq) as (m & e & Hres & Hm & He & Hb).
    rewrite Hres. unfold is53 in Hm.
    assert (HD : 0 < 2 ^ (- e)) by (apply Z.pow_pos_nonneg; lia).
    set (D := 2 ^ (- e)) in *.
    assert (Hb1 : 2 * (Z.pos m * q) <= 2 * (p * D) + q) by lia.
    assert (Hb2 : 2 * (p * D) <= 2 * (Z.pos m * q) + q) by lia.
    assert (Hneg : e < 0).
    { destruct (Z.eq_dec e 0) as [E0|]; [|lia]. exfalso.
      subst D. rewrite E0 in *. change (2 ^ (- 0)) with 1 in *.
      assert (2 ^ 53 * q <= 2 * (Z.pos m * q)) by nia. nia. }
    cbn [ceil].
    replace (0 <=? e) with false by (symmetry; apply Z.leb_gt; exact Hneg).
    fold D. unfold ofZ. f_equal.
    unfold ceilDiv. set (c := (p + q - 1) / q).
    pose proof (Z.div_mod (p + q - 1) q ltac:(lia)) as Hdm.
    pose proof (Z.mod_pos_bound (p + q - 1) q ltac:(lia)) as Hmod.
    fold c in Hdm. set (r := (p + q - 1) mod q) in *.
    assert (Hc1 : (c - 1) * q < p) by lia.
    assert (Hc2 : p <= c * q) by lia.
    assert (Hup : Z.pos m <= c * D).
    { destruct (Z_le_gt_dec (Z.pos m) (c * D)) as [|Hc]; [assumption|exfalso].
      assert (c * D * q + q <= Z.pos m * q) by nia.
      assert (p * D <= c * q * D) by nia. lia. }
    assert (Hdown : (c - 1) * D < Z.pos m).
    { destruct (Z_lt_le_dec ((c - 1) * D) (Z.pos m)) as [|Hc]; [assumption|exfalso].
      assert (Z.pos m * q <= (c - 1) * D * q) by nia.
      assert ((c - 1) * q * D <= (p - 1) * D) by nia.
      assert (2 * D <= q) by lia.
      assert (2 ^ 53 * q <= 2 * (Z.pos m * q)) by nia.
      assert (2 * (p * D) <= (2 ^ 53 - 2) * D) by nia.
      nia. }
    assert (E : - Z.pos m / D = - c).
    { symmetry. apply (Z.div_unique _ D _ (c * D - Z.pos m)); lia. }
    change (Z.neg m) with (- Z.pos m). rewrite E. lia.
Qed.

(* ================================================================== *)
(** * Facts on ObjectIds *)
(* ================================================================== *)

Lemma hexDigit_lt (c : ascii) (d : N) :
  ObjectId.hexDigit c = Some d -> (d < 16)%N.
Proof.
  unfold ObjectId.hexDigit. set (n := N_of_ascii c).
  destruct ((48 <=? n)%N && (n <=? 57)%N) eqn:E1.
  - apply andb_prop in E1. destruct E1 as [A B].
    apply N.leb_le in A, B. intros [= <-]. lia.
  - destruct ((97 <=? n)%N && (n <=? 102)%N) eqn:E2.
    + apply andb_prop in E2. destruct E2 as [A B].
      apply N.leb_le in A, B. intros [= <-]. lia.
    + destruct ((65 <=? n)%N && (n <=? 70)%N) eqn:E3; [|discriminate].
      apply andb_prop in E3. destruct E3 as [A B].
      apply N.leb_le in A, B. intros [= <-]. lia.
Qed.

Lemma parseHex_bound (s : string) :
  forall acc n, ObjectId.parseHex acc s = Some n ->
    (n < (acc + 1) * 16 ^ N.of_nat (String.length s))%N.
Proof.
  induction s as [|c s IH]; intros acc n H; cbn [ObjectId.parseHex] in H.
  - injection H as <-. cbn. lia.
  - destruct (ObjectId.hexDigit c) as [d|] eqn:Ed; [|discriminate].
    apply hexDigit_lt in Ed. apply IH in H.
    cbn [String.length]. rewrite Nat2N.inj_succ, N.pow_succ_r'. nia.
Qed.

Lemma cast_bound (s : string) (n : N) :
  ObjectId.cast s = Some n -> (n < 16 ^ 24)%N.
Proof.
  unfold ObjectId.cast. destruct (String.length s =? 24)%nat eqn:E; [|discriminate].
  apply Nat.eqb_eq in E. intros H. apply parseHex_bound in H.
  rewrite E in H. exact H.
Qed.

Lemma hexDigit_hexChar (d : N) :
  (d < 16)%N -> ObjectId.hexDigit (ObjectId.hexChar d) = Some d.
Proof.
  intros H.
  assert (Hd : In d [0; 1; 2; 3; 4; 5; 6; 7; 8; 9; 10; 11; 12; 13; 14; 15]%N).
  { cbn. lia. }
  cbn in Hd. decompose [or] Hd; subst; try reflexivity. contradiction.
Qed.

Lemma toHex_length (k : nat) :
  forall n acc, String.length (ObjectId.toHex k n acc) = (k + String.length acc)%nat.
Proof.
  induction k as [|k IH]; intros n acc; cbn [ObjectId.toHex].
  - reflexivity.
  - rewrite IH. cbn [String.length]. lia.
Qed.

Lemma parseHex_toHex (k : nat) :
  forall n acc a, (n < 16 ^ N.of_nat k)%N ->
    ObjectId.parseHex a (ObjectId.toHex k n acc)
    = ObjectId.parseHex (a * 16 ^ N.of_nat k + n)%N acc.
Proof.
  induction k as [|k IH]; intros n acc a Hn; cbn [ObjectId.toHex].
  - cbn in Hn. assert (n = 0%N) by lia. subst. cbn. f_equal. lia.
  - rewrite Nat2N.inj_succ, N.pow_succ_r' in *.
    assert (Hq : (n / 16 < 16 ^ N.of_nat k)%N).
    { apply N.Div0.div_lt_upper_bound; lia. }
    rewrite IH by exact Hq. cbn [ObjectId.parseHex].
    rewrite hexDigit_hexChar by (apply N.mod_lt; lia).
    f_equal. pose proof (N.Div0.div_mod n 16). lia.
Qed.

(** An ObjectId is read back from its string. *)
Lemma cast_toString (n : N) :
  (n < 16 ^ 24)%N -> ObjectId.cast (ObjectId.toString n) = Some n.
Proof.
  intros Hn. unfold ObjectId.cast, ObjectId.toString.
  rewrite toHex_length. cbn [String.length Nat.add Nat.eqb].
  rewrite (parseHex_toHex 24) by exact Hn. reflexivity.
Qed.

Lemma radixMark_not_digit (c : ascii) :
  ObjectId.isRadixMark c = true -> ObjectId.hexDigit c = None.
Proof.
  unfold ObjectId.isRadixMark. cbn [list_ascii_of_string existsb].
  intros H. repeat (apply orb_prop in H; destruct H as [H|H]);
    try discriminate; apply Ascii.eqb_eq in H; subst c; reflexivity.
Qed.

(** An id that Mongoose can cast passes the validator. *)
Lemma cast_isMongoId (s : string) (id : ObjectId.t) :
  ObjectId.cast s = Some id -> ObjectId.isMongoId s = true.
Proof.
  unfold ObjectId.isMongoId, ObjectId.cast.
  destruct (String.length s =? 24)%nat eqn:El; [|discriminate].
  intros Hp. rewrite andb_true_r. unfold ObjectId.isHexadecimal.
  assert (Hw : ObjectId.withoutPrefix s = s).
  { destruct s as [|c0 [|c1 rest]]; try reflexivity.
    cbn [ObjectId.withoutPrefix].
    destruct (ObjectId.isRadixMark c1) eqn:Em; [|rewrite andb_false_r; reflexivity].
    exfalso. cbn [ObjectId.parseHex] in Hp.
    destruct (ObjectId.hexDigit c0); [|discriminate].
    rewrite (radixMark_not_digit c1 Em) in Hp. discriminate. }
  rewrite Hw. destruct s as [|c s]; [discriminate|]. rewrite Hp. reflexivity.
Qed.

(* ================================================================== *)
(** * Facts on programs *)
(* ================================================================== *)

Lemma run_bind {A B} (m : M A) (k : A -> M B) (s : Store) :
  run (bind m k) s =
  match run m s with
  | (inl e, s1, t1) => (inl e, s1, t1)
  | (inr a, s1, t1) =>
      match run (k a) s1 with
      | (r, s2, t2) => (r, s2, t1 ++ t2)
      end
  end.
Proof.
  revert s. induction m as [a|e|X op f c IH]; intros s; cbn [bind run].
  - destruct (run (k a) s) as [[r s2] t2]. reflexivity.
  - reflexivity.
  - destruct (f s) as [x s1]. rewrite IH.
    destruct (run (c x) s1) as [[[e|a] s2] t1]; [reflexivity|].
    destruct (run (k a) s2) as [[r s3] t2]. reflexivity.
Qed.

Lemma run_catch {A} (m : M A) (h : Exn -> M A) (s : Store) :
  run (catch m h) s =
  match run m s with
  | (inl e, s1, t1) =>
      match run (h e) s1 with
      | (r, s2, t2) => (r, s2, t1 ++ t2)
      end
  | (inr a, s1, t1) => (inr a, s1, t1)
  end.
Proof.
  revert s. induction m as [a|e|X op f c IH]; intros s; cbn [catch run].
  - reflexivity.
  - destruct (run (h e) s) as [[r s2] t2]. reflexivity.
  - destruct (f s) as [x s1]. rewrite IH.
    destruct (run (c x) s1) as [[[e|a] s2] t1]; [|reflexivity].
    destruct (run (h e) s2) as [[r s3] t2]. reflexivity.
Qed.

Lemma store_eta (s : Store) :
  {| books := books s; reviews := reviews s; nextId := nextId s |} = s.
Proof. destruct s; reflexivity. Qed.

(* ================================================================== *)
(** * Facts on the collections *)
(* ================================================================== *)

Lemma find_none_map {A} (p : A -> bool) (f : A -> A) (l : list A) :
  find p l = None -> map (fun o => if p o then f o else o) l = l.
Proof.
  induction l as [|a l IH]; cbn [find map]; [reflexivity|].
  destruct (p a) eqn:E; [discriminate|]. intros H. rewrite IH by exact H. reflexivity.
Qed.

Lemma find_none_filter {A} (p : A -> bool) (l : list A) :
  find p l = None -> filter (fun o => negb (p o)) l = l.
Proof.
  induction l as [|a l IH]; cbn [find filter]; [reflexivity|].
  destruct (p a) eqn:E; [discriminate|]. cbn [negb]. intros H.
  rewrite IH by exact H. reflexivity.
Qed.

Lemma find_some_in {A} (p : A -> bool) (l : list A) (a : A) :
  find p l = Some a -> In a l /\ p a = true.
Proof. apply find_some. Qed.

Lemma find_none_iff {A} (p : A -> bool) (l : list A) :
  find p l = None <-> forall a, In a l -> p a = false.
Proof.
  split.
  - intros H a Ha. exact (find_none p l H a Ha).
  - induction l as [|a l IH]; intros H; cbn [find]; [reflexivity|].
    rewrite (H a (or_introl eq_refl)). apply IH. intros b Hb. apply H. right. exact Hb.
Qed.

Lemma sum_fold_left (l : list ReviewSchema.doc) :
  fold_left (fun sum review => sum + ReviewSchema.rating review) l 0 = sumRatings l.
Proof.
  assert (G : forall acc,
             fold_left (fun sum review => sum + ReviewSchema.rating review) l acc
             = acc + sumRatings l).
  { induction l as [|r l IH]; intros acc; cbn [fold_left sumRatings fold_right].
    - lia.
    - rewrite IH. unfold sumRatings. lia. }
  rewrite G. lia.
Qed.

Lemma matches_book (id : ObjectId.t) (l : list ReviewSchema.doc) :
  filter (Review.matches (Some id) None) l
  = filter (fun r => (ReviewSchema.book r =? id)%N) l.
Proof.
  apply filter_ext. intros r. unfold Review.matches. apply andb_true_r.
Qed.

(** What a recomputation does, run alone: it returns, it sends one read of
    the reviews and one update of the book, and it leaves the collections
    as [recomputed] describes. *)
Lemma updateBookRating_run (env : Env) (now : N) (id : ObjectId.t) (s : Store) :
  run (ReviewRoutes.updateBookRating env now id) s =
  (inr tt, recomputed now id s,
   [OpReviewFind (Some id) None; OpBookFindByIdAndUpdate id]).
Proof.
  unfold ReviewRoutes.updateBookRating, Review.find, query.
  cbn [bind run]. rewrite matches_book. fold (referencing id s).
  unfold recomputed.
  destruct (referencing id s) as [|r l] eqn:ER.
  - cbn [List.length Z.of_nat Z.eqb aggregateOf fst snd].
    unfold Book.findByIdAndUpdate, command. cbn [bind run].
    destruct (Book.lookup id (books s)) as [d|] eqn:EL.
    + cbn [ReviewRoutes.ratingUpdate BookBody.isbn]. cbn [run]. reflexivity.
    + cbn [run]. unfold Book.lookup in EL.
      rewrite (find_none_map _ _ _ EL), store_eta. reflexivity.
  - replace (Z.of_nat (List.length (r :: l)) =? 0) with false
      by (symmetry; apply Z.eqb_neq; cbn [List.length]; lia).
    rewrite sum_fold_left. cbn [aggregateOf fst snd].
    unfold Book.findByIdAndUpdate, command. cbn [bind run].
    destruct (Book.lookup id (books s)) as [d|] eqn:EL.
    + cbn [ReviewRoutes.ratingUpdate BookBody.isbn]. cbn [run]. reflexivity.
    + cbn [run]. unfold Book.lookup in EL.
      rewrite (find_none_map _ _ _ EL), store_eta. reflexivity.
Qed.

Arguments ReviewRoutes.updateBookRating : simpl never.

(* ================================================================== *)
(** * The sanitizers and the two layers of validation *)
(* ================================================================== *)

Lemma dropSpaces_clean (l : list ascii) : startsClean l -> Text.dropSpaces l = l.
Proof.
  destruct l as [|c l]; cbn [startsClean Text.dropSpaces]; [reflexivity|].
  intros ->. reflexivity.
Qed.

Lemma dropSpaces_startsClean (l : list ascii) : startsClean (Text.dropSpaces l).
Proof.
  induction l as [|c l IH]; cbn [Text.dropSpaces]; [exact I|].
  destruct (Text.isSpace c) eqn:E; [exact IH|exact E].
Qed.

Lemma startsClean_app (l : list ascii) (c : ascii) :
  startsClean (l ++ [c]) -> startsClean l.
Proof. destruct l; cbn; auto. Qed.

Lemma dropSpaces_keeps_end (l : list ascii) :
  startsClean (rev l) -> startsClean (rev (Text.dropSpaces l)).
Proof.
  induction l as [|c l IH]; cbn [Text.dropSpaces rev]; [auto|].
  intros H. destruct (Text.isSpace c); [|exact H].
  apply IH. apply (startsClean_app _ c). exact H.
Qed.

(** What [trim] gives has no white space at either end: trimming it again
    changes nothing. *)
Lemma trim_idempotent (s : string) : Text.trim (Text.trim s) = Text.trim s.
Proof.
  unfold Text.trim. rewrite list_ascii_of_string_of_list_ascii.
  set (u := Text.dropSpaces (list_ascii_of_string s)).
  assert (Hu : startsClean u) by apply dropSpaces_startsClean.
  assert (H1 : startsClean (rev (Text.dropSpaces (rev u)))).
  { apply dropSpaces_keeps_end. rewrite rev_involutive. exact Hu. }
  rewrite (dropSpaces_clean _ H1), rev_involutive.
  rewrite (dropSpaces_clean _ (dropSpaces_startsClean (rev u))). reflexivity.
Qed.

Lemma trim_field (o : option string) :
  Text.trim (orDefault (option_map Text.trim o) EmptyString) = Text.trim (field o).
Proof. destruct o as [x|]; [apply trim_idempotent|reflexivity]. Qed.

Lemma check_nil name ok : Book.check name ok = [] -> ok = true.
Proof. destruct ok; [reflexivity|discriminate]. Qed.

Lemma check_true name : Book.check name true = [].
Proof. reflexivity. Qed.

Lemma field_nonempty (o : option string) :
  Text.isEmpty (field o) = false -> exists s, o = Some s.
Proof. destruct o as [s|]; [eauto|discriminate]. Qed.

Lemma len_pos_nonempty (s : string) : 1 <= Text.len s -> Text.isEmpty s = false.
Proof. destruct s; [cbn; lia|reflexivity]. Qed.

(** What a body that passes [validateReview] holds on the four paths of
    the chain. *)
Lemma validateReview_ok (b : ReviewBody.t) :
  fst (ReviewRoutes.validateReview b) = [] ->
  exists bk name r text,
    ReviewBody.book b = Some bk /\
    ReviewBody.reviewerName b = Some name /\
    ReviewBody.rating b = Some r /\
    ReviewBody.reviewText b = Some text /\
    ObjectId.isMongoId bk = true /\
    2 <= Text.len (Text.trim name) <= 100 /\
    1 <= r <= 5 /\
    10 <= Text.len (Text.trim text) <= 2000.
Proof.
  unfold ReviewRoutes.validateReview. cbn [fst]. intros H.
  apply app_eq_nil in H. destruct H as [C1 H].
  apply app_eq_nil in H. destruct H as [C2 H].
  apply app_eq_nil in H. destruct H as [C3 H].
  apply app_eq_nil in H. destruct H as [C4 H].
  apply app_eq_nil in H. destruct H as [C5 C6].
  apply check_nil in C1, C2, C3, C4, C5, C6.
  apply negb_true_iff in C2, C5.
  destruct (field_nonempty _ C2) as [name En].
  destruct (field_nonempty _ C5) as [text Et].
  destruct (ReviewBody.rating b) as [r|]; [|discriminate].
  destruct (ReviewBody.book b) as [bk|]; [|discriminate].
  rewrite En, Et in *. cbn [field orDefault] in *.
  unfold Book.inRange in *.
  apply andb_prop in C3, C4, C6. destruct C3, C4, C6.
  exists bk, name, r, text. repeat split; try assumption; lia.
Qed.

(** The sanitized body keeps the paths that the chain does not name. *)
Lemma validateReview_keeps (b : ReviewBody.t) :
  let b' := snd (ReviewRoutes.validateReview b) in
  ReviewBody._id b' = ReviewBody._id b /\
  ReviewBody.book b' = ReviewBody.book b /\
  ReviewBody.rating b' = ReviewBody.rating b /\
  ReviewBody.reviewDate b' = ReviewBody.reviewDate b /\
  ReviewBody.helpful b' = ReviewBody.helpful b /\
  ReviewBody.verified b' = ReviewBody.verified b.
Proof. repeat split. Qed.

(** After the chain, with a book id that can be cast, the only validator
    of the schema that can still refuse the body is the one on
    [helpful]. *)
Lemma review_chain_leaves_helpful (b : ReviewBody.t) (required : bool) :
  fst (ReviewRoutes.validateReview b) = [] ->
  ObjectId.cast (field (ReviewBody.book b)) <> None ->
  Review.validate required (snd (ReviewRoutes.validateReview b))
  = Book.check "helpful" (helpfulOk b).
Proof.
  intros Hv Hc.
  destruct (validateReview_ok b Hv)
    as (bk & name & r & text & Eb & En & Er & Et & Hm & Hn & Hr & Ht).
  rewrite Eb in Hc. cbn [field orDefault] in Hc.
  unfold ReviewRoutes.validateReview, Review.validate.
  cbn [snd ReviewBody.book ReviewBody.reviewerName ReviewBody.rating
       ReviewBody.reviewText ReviewBody.helpful].
  rewrite Eb, En, Er, Et. cbn [option_map Book.okOptional].
  unfold Review.okText, Review.castable, Book.inRange.
  rewrite !trim_idempotent.
  destruct (ObjectId.cast bk); [|congruence].
  rewrite (len_pos_nonempty (Text.trim name)) by lia.
  rewrite (len_pos_nonempty (Text.trim text)) by lia.
  cbn [negb andb].
  replace (2 <=? Text.len (Text.trim name)) with true by (symmetry; apply Z.leb_le; lia).
  replace (Text.len (Text.trim name) <=? 100) with true by (symmetry; apply Z.leb_le; lia).
  replace (10 <=? Text.len (Text.trim text)) with true by (symmetry; apply Z.leb_le; lia).
  replace (Text.len (Text.trim text) <=? 2000) with true by (symmetry; apply Z.leb_le; lia).
  replace (1 <=? r) with true by (symmetry; apply Z.leb_le; lia).
  replace (r <=? 5) with true by (symmetry; apply Z.leb_le; lia).
  cbn [andb Book.check app]. unfold helpfulOk.
  destruct (ReviewBody.helpful b); reflexivity.
Qed.

Lemma review_chain_passes_schema (b : ReviewBody.t) (required : bool) :
  fst (ReviewRoutes.validateReview b) = [] ->
  ObjectId.cast (field (ReviewBody.book b)) <> None ->
  helpfulOk b = true ->
  Review.validate required (snd (ReviewRoutes.validateReview b)) = [].
Proof.
  intros Hv Hc Hh. rewrite (review_chain_leaves_helpful b required Hv Hc), Hh.
  reflexivity.
Qed.

Lemma review_validate_helpful (required : bool) (b : ReviewBody.t) :
  Review.validate required b = [] -> helpfulOk b = true.
Proof.
  unfold Review.validate. intros H.
  apply app_eq_nil in H. destruct H as [_ H].
  apply app_eq_nil in H. destruct H as [_ H].
  apply app_eq_nil in H. destruct H as [_ H].
  apply app_eq_nil in H. destruct H as [_ H].
  apply check_nil in H. unfold helpfulOk.
  destruct (ReviewBody.helpful b); exact H.
Qed.

(** The ids that the driver generates are not in use. *)
Lemma freshId_above (s : Store) :
  (nextId s <= freshId s)%N /\
  (forall b, In b (books s) -> (BookSchema._id b < freshId s)%N) /\
  (forall r, In r (reviews s) -> (ReviewSchema._id r < freshId s)%N).
Proof.
  unfold freshId.
  assert (H : forall (l : list N) (n : N),
            (n <= fold_right N.max n l)%N /\
            (forall x, In x l -> (x <= fold_right N.max n l)%N)).
  { induction l as [|a l IH]; intros n; cbn [fold_right In].
    - split; [lia|contradiction].
    - destruct (IH n) as [H1 H2]. split; [lia|].
      intros x [<-|Hx]; [lia|]. specialize (H2 x Hx). lia. }
  destruct (H (map (fun b => N.succ (BookSchema._id b)) (books s) ++
               map (fun r => N.succ (ReviewSchema._id r)) (reviews s)) (nextId s))
    as [H1 H2].
  split; [exact H1|]. split.
  - intros b Hb. apply N.le_succ_l. apply H2. apply in_or_app. left.
    apply in_map_iff. exists b. split; [reflexivity|exact Hb].
  - intros r Hr. apply N.le_succ_l. apply H2. apply in_or_app. right.
    apply in_map_iff. exists r. split; [reflexivity|exact Hr].
Qed.

Lemma fresh_book (s : Store) : Book.lookup (freshId s) (books s) = None.
Proof.
  unfold Book.lookup. apply find_none_iff. intros b Hb.
  pose proof (proj1 (proj2 (freshId_above s)) b Hb) as Hlt.
  unfold Book.hasId. apply N.eqb_neq. lia.
Qed.

Lemma fresh_review (s : Store) : Review.lookup (freshId s) (reviews s) = None.
Proof.
  unfold Review.lookup. apply find_none_iff. intros r Hr.
  pose proof (proj2 (proj2 (freshId_above s)) r Hr) as Hlt.
  unfold Review.hasId. apply N.eqb_neq. lia.
Qed.

(** An id is in use. *)
Lemma review_id_taken (id : ObjectId.t) (l : list ReviewSchema.doc) :
  existsb (Review.hasId id) l = false <-> Review.lookup id l = None.
Proof.
  unfold Review.lookup. rewrite find_none_iff. split.
  - intros H a Ha. destruct (Review.hasId id a) eqn:E; [|reflexivity].
    assert (existsb (Review.hasId id) l = true)
      by (apply existsb_exists; exists a; split; assumption).
    congruence.
  - intros H. destruct (existsb (Review.hasId id) l) eqn:E; [|reflexivity].
    apply existsb_exists in E. destruct E as (a & Ha & E).
    rewrite (H a Ha) in E. discriminate.
Qed.

Lemma book_id_taken (id : ObjectId.t) (l : list BookSchema.doc) :
  existsb (Book.hasId id) l = false <-> Book.lookup id l = None.
Proof.
  unfold Book.lookup. rewrite find_none_iff. split.
  - intros H a Ha. destruct (Book.hasId id a) eqn:E; [|reflexivity].
    assert (existsb (Book.hasId id) l = true)
      by (apply existsb_exists; exists a; split; assumption).
    congruence.
  - intros H. destruct (existsb (Book.hasId id) l) eqn:E; [|reflexivity].
    apply existsb_exists in E. destruct E as (a & Ha & E).
    rewrite (H a Ha) in E. discriminate.
Qed.

(* ================================================================== *)
(** * What each request does to the collections *)
(* ================================================================== *)

Ltac prog :=
  cbn [ret throw bind catch run query command respond handleValidationErrors
       Review.findById Review.populateOpt Review.populate Book.findById
       Review.findByIdAndDelete Review.deleteMany Book.findByIdAndDelete
       fst snd app].

Lemma post_review_store env now body s :
  storeAfter (ReviewRoutes.post_review env now body) s = s \/
  exists body' bid,
    ReviewRoutes.validateReview body = ([], body') /\
    ObjectId.cast (field (ReviewBody.book body')) = Some bid /\
    Book.lookup bid (books s) <> None /\
    Review.lookup (Review.newId body' s) (reviews s) = None /\
    Review.validate true body' = [] /\
    storeAfter (ReviewRoutes.post_review env now body) s =
      recomputed now bid
        {| books := books s;
           reviews := reviews s ++ [Review.create (Review.newId body' s) now body'];
           nextId := nextIdAfter s (Review.newId body' s) |}.
Proof.
  unfold storeAfter, ReviewRoutes.post_review.
  destruct (ReviewRoutes.validateReview body) as [errors body'] eqn:EV.
  destruct errors as [|e errors]; prog; [|left; reflexivity].
  unfold castId.
  destruct (ObjectId.cast (field (ReviewBody.book body'))) as [bid|] eqn:EC;
    [|left; reflexivity].
  prog.
  destruct (Book.lookup bid (books s)) as [b|] eqn:EL; [|left; reflexivity].
  unfold Review.save.
  destruct (Review.validate true body') as [|e errs] eqn:EVal; [|left; reflexivity].
  prog. cbn [Review.create ReviewSchema._id].
  destruct (existsb (Review.hasId (Review.newId body' s)) (reviews s)) eqn:EX;
    [left; reflexivity|].
  right. exists body', bid. split; [reflexivity|]. split; [exact EC|].
  split; [rewrite EL; discriminate|].
  split; [apply review_id_taken; exact EX|].
  split; [exact EVal|].
  prog. rewrite run_catch, run_bind, updateBookRating_run. prog.
  match goal with |- context [Review.lookup ?i ?l] => destruct (Review.lookup i l) end;
    prog; reflexivity.
Qed.

Lemma delete_review_store env now id s :
  storeAfter (ReviewRoutes.delete_review env now id) s = s \/
  exists oid r,
    ObjectId.cast id = Some oid /\
    Review.lookup oid (reviews s) = Some r /\
    storeAfter (ReviewRoutes.delete_review env now id) s =
      recomputed now (ReviewSchema.book r)
        (withReviews s (filter (fun o => negb (Review.hasId oid o)) (reviews s))).
Proof.
  unfold storeAfter, ReviewRoutes.delete_review.
  destruct (ReviewRoutes.validateId id) as [|e errors]; prog; [|left; reflexivity].
  unfold castId.
  destruct (ObjectId.cast id) as [oid|] eqn:EC; [|left; reflexivity].
  prog.
  destruct (Review.lookup oid (reviews s)) as [r|] eqn:EL; [|left; reflexivity].
  right. exists oid, r. split; [reflexivity|]. split; [exact EL|].
  prog. rewrite run_catch, run_bind, updateBookRating_run. prog. reflexivity.
Qed.

Lemma patch_helpful_store now id s :
  storeAfter (ReviewRoutes.patch_helpful now id) s = s \/
  exists oid,
    ObjectId.cast id = Some oid /\
    storeAfter (ReviewRoutes.patch_helpful now id) s =
      withReviews s
        (map (fun o => if Review.hasId oid o
                       then Review.update now (Review.IncHelpful 1) o else o)
             (reviews s)).
Proof.
  unfold storeAfter, ReviewRoutes.patch_helpful.
  destruct (ReviewRoutes.validateId id) as [|e errors]; prog; [|left; reflexivity].
  unfold castId.
  destruct (ObjectId.cast id) as [oid|] eqn:EC; [|left; reflexivity].
  cbn [Review.findByIdAndUpdate Review.changesId]. prog.
  destruct (Review.lookup oid (reviews s)) eqn:EL; prog; [|left; reflexivity].
  right. exists oid. split; reflexivity.
Qed.

Lemma put_review_store env now id body s :
  storeAfter (ReviewRoutes.put_review env now id body) s = s \/
  exists body' bid oid old,
    ReviewRoutes.validateReview body = ([], body') /\
    ObjectId.cast (field (ReviewBody.book body')) = Some bid /\
    Book.lookup bid (books s) <> None /\
    ObjectId.cast id = Some oid /\
    Review.lookup oid (reviews s) = Some old /\
    Review.validate false body' = [] /\
    let s1 :=
      withReviews s
        (map (fun o => if Review.hasId oid o
                       then Review.update now (Review.SetBody body') o else o)
             (reviews s)) in
    storeAfter (ReviewRoutes.put_review env now id body) s =
      if negb (String.eqb (ObjectId.toString (ReviewSchema.book old))
                 (field (ReviewBody.book body')))
      then recomputed now bid (recomputed now (ReviewSchema.book old) s1)
      else recomputed now (ReviewSchema.book old) s1.
Proof.
  unfold storeAfter, ReviewRoutes.put_review.
  destruct (ReviewRoutes.validateReview body) as [errors body'] eqn:EV.
  destruct (ReviewRoutes.validateId id ++ errors) as [|e errs] eqn:EE;
    prog; [|left; reflexivity].
  apply app_eq_nil in EE. destruct EE as [_ ->].
  unfold castId.
  destruct (ObjectId.cast (field (ReviewBody.book body'))) as [bid|] eqn:EC;
    [|left; reflexivity].
  prog.
  destruct (Book.lookup bid (books s)) as [b|] eqn:EL; [|left; reflexivity].
  destruct (ObjectId.cast id) as [oid|] eqn:EI; [|left; reflexivity].
  prog.
  destruct (Review.lookup oid (reviews s)) as [old|] eqn:ER; [|left; reflexivity].
  unfold Review.findByIdAndUpdate.
  destruct (Review.validate false body') as [|e errs] eqn:EVal; [|left; reflexivity].
  prog. rewrite ER.
  destruct (Review.changesId (Review.SetBody body') oid); [left; reflexivity|].
  right. exists body', bid, oid, old.
  split; [reflexivity|]. split; [exact EC|]. split; [rewrite EL; discriminate|].
  split; [reflexivity|]. split; [exact ER|]. split; [exact EVal|].
  prog.
  rewrite run_catch, run_bind, updateBookRating_run.
  destruct (negb (String.eqb (ObjectId.toString (ReviewSchema.book old))
                    (field (ReviewBody.book body')))).
  - rewrite run_bind, updateBookRating_run. prog. reflexivity.
  - prog. reflexivity.
Qed.

Lemma post_book_store env now body s :
  storeAfter (BookRoutes.post_book env now body) s = s \/
  (let body' := snd (BookRoutes.validateBook env body) in
   let d := Book.create (Book.newId body' s) now body' in
   Book.validate (currentYear env) true body' = [] /\
   Book.lookup (BookSchema._id d) (books s) = None /\
   existsb (fun d' => String.eqb (BookSchema.isbn d') (BookSchema.isbn d)) (books s)
     = false /\
   storeAfter (BookRoutes.post_book env now body) s =
     {| books := books s ++ [d]; reviews := reviews s;
        nextId := nextIdAfter s (BookSchema._id d) |}).
Proof.
  unfold storeAfter, BookRoutes.post_book.
  destruct (BookRoutes.validateBook env body) as [errors body'] eqn:EV.
  destruct errors as [|e errors]; prog; [|left; reflexivity].
  unfold Book.save.
  destruct (Book.validate (currentYear env) true body') as [|e errs] eqn:EVal;
    [|left; reflexivity].
  prog. set (d := Book.create (Book.newId body' s) now body').
  destruct (existsb (Book.hasId (BookSchema._id d)) (books s)) eqn:EI;
    [left; reflexivity|].
  cbn [orb].
  destruct (existsb (fun d' => String.eqb (BookSchema.isbn d') (BookSchema.isbn d))
              (books s)) eqn:EX; prog; [left; reflexivity|right].
  split; [reflexivity|]. split; [apply book_id_taken; exact EI|].
  split; reflexivity.
Qed.

Lemma put_book_store env now id body s :
  storeAfter (BookRoutes.put_book env now id body) s = s \/
  exists oid d,
    let body' := snd (BookRoutes.validateBook env body) in
    Book.validate (currentYear env) false body' = [] /\
    Book.lookup oid (books s) = Some d /\
    match BookBody.isbn body' with
    | Some _ =>
        existsb (fun o => negb (Book.hasId oid o) &&
                          String.eqb (BookSchema.isbn o)
                            (BookSchema.isbn (Book.update now body' d)))
          (books s)
    | None => false
    end = false /\
    storeAfter (BookRoutes.put_book env now id body) s =
      withBooks s
        (map (fun o => if Book.hasId oid o then Book.update now body' o else o)
           (books s)).
Proof.
  unfold storeAfter, BookRoutes.put_book.
  destruct (BookRoutes.validateBook env body) as [errors body'] eqn:EV.
  destruct (BookRoutes.validateId id ++ errors) as [|e errs];
    prog; [|left; reflexivity].
  unfold castId.
  destruct (ObjectId.cast id) as [oid|] eqn:EI; [|left; reflexivity].
  prog. unfold Book.findByIdAndUpdate.
  destruct (Book.validate (currentYear env) false body') as [|e errs] eqn:EVal;
    [|left; reflexivity].
  prog.
  destruct (Book.lookup oid (books s)) as [d|] eqn:EL; [|left; reflexivity].
  destruct (Book.changesId body' oid); [left; reflexivity|].
  match goal with |- context [if ?c then _ else _] => destruct c eqn:EX end;
    prog; [left; reflexivity|].
  right. exists oid, d. cbv zeta. repeat split; assumption.
Qed.

Lemma delete_book_store id s :
  storeAfter (BookRoutes.delete_book id) s = s \/
  exists oid,
    ObjectId.cast id = Some oid /\
    storeAfter (BookRoutes.delete_book id) s =
      {| books := filter (fun o => negb (Book.hasId oid o)) (books s);
         reviews := filter (fun o => negb (ReviewSchema.book o =? oid)%N) (reviews s);
         nextId := nextId s |}.
Proof.
  unfold storeAfter, BookRoutes.delete_book.
  destruct (BookRoutes.validateId id) as [|e errors]; prog; [|left; reflexivity].
  unfold castId.
  destruct (ObjectId.cast id) as [oid|] eqn:EC; [|left; reflexivity].
  prog.
  destruct (Book.lookup oid (books s)) as [d|] eqn:EL; prog.
  - right. exists oid. split; reflexivity.
  - left. unfold Book.lookup in EL. rewrite (find_none_filter _ _ EL).
    apply store_eta.
Qed.

(* ================================================================== *)
(** * The invariant of the collections *)
(* ================================================================== *)

Lemma consistentExcept_nil (s : Store) : consistentExcept [] s <-> consistent s.
Proof.
  unfold consistentExcept, consistent. split; intros H b Hb.
  - apply H; [exact Hb|]. intros [].
  - intros _. apply H. exact Hb.
Qed.

Lemma lookup_map_id (id : ObjectId.t) (g : BookSchema.doc -> BookSchema.doc)
      (l : list BookSchema.doc) :
  (forall o, BookSchema._id (g o) = BookSchema._id o) ->
  Book.lookup id (map g l) = option_map g (Book.lookup id l).
Proof.
  intros Hg. unfold Book.lookup.
  induction l as [|a l IH]; cbn [map find option_map]; [reflexivity|].
  unfold Book.hasId at 1 3. rewrite Hg.
  destruct (BookSchema._id a =? id)%N; [reflexivity|exact IH].
Qed.

Lemma update_id now b o : BookSchema._id (Book.update now b o) = BookSchema._id o.
Proof. reflexivity. Qed.

Lemma recomputed_reviews now id s : reviews (recomputed now id s) = reviews s.
Proof. reflexivity. Qed.

Lemma recomputed_nextId now id s : nextId (recomputed now id s) = nextId s.
Proof. reflexivity. Qed.

Lemma referencing_recomputed now id x s :
  referencing x (recomputed now id s) = referencing x s.
Proof. reflexivity. Qed.

Lemma in_recomputed now id s b' :
  In b' (books (recomputed now id s)) ->
  (In b' (books s) /\ BookSchema._id b' <> id) \/
  (BookSchema._id b' = id /\ aggregate b' = aggregateOf (referencing id s)).
Proof.
  unfold recomputed. cbn [books]. intros H. apply in_map_iff in H.
  destruct H as (o & <- & Ho). unfold Book.hasId.
  destruct (N.eqb_spec (BookSchema._id o) id) as [E|NE].
  - right. split; [exact E|].
    unfold aggregate. cbn. destruct (aggregateOf (referencing id s)); reflexivity.
  - left. split; assumption.
Qed.

Lemma recomputed_wellFormed now id s :
  wellFormed s -> wellFormed (recomputed now id s).
Proof.
  intros (Hbnd & Hnd & Href). unfold wellFormed.
  rewrite recomputed_reviews.
  split; [|split; [exact Hnd|]].
  - unfold recomputed. cbn [books]. rewrite map_map.
    rewrite (map_ext _ BookSchema._id); [exact Hbnd|].
    intros o. destruct (Book.hasId id o); reflexivity.
  - intros r Hin. destruct (Href r Hin) as [Hlt Hl]. split; [exact Hlt|].
    unfold recomputed. cbn [books]. rewrite lookup_map_id.
    + destruct (Book.lookup (ReviewSchema.book r) (books s)); [discriminate|congruence].
    + intros o. destruct (Book.hasId id o); reflexivity.
Qed.

(** A recomputation repairs the books with the given id and leaves the
    others as they were. *)
Lemma recomputed_except now id (A B : list ObjectId.t) s :
  consistentExcept A s ->
  (forall x, In x A -> x = id \/ In x B) ->
  consistentExcept B (recomputed now id s).
Proof.
  intros HA Hsub b' Hb' Hnot. rewrite referencing_recomputed.
  apply in_recomputed in Hb'. destruct Hb' as [[Hin Hne]|[Heq Hagg]].
  - apply HA; [exact Hin|]. intros HinA. destruct (Hsub _ HinA); [congruence|contradiction].
  - rewrite Heq. exact Hagg.
Qed.

Lemma filter_map_same {A} (p : A -> bool) (g : A -> A) (l : list A) :
  (forall o, In o l -> g o = o \/ (p (g o) = false /\ p o = false)) ->
  filter p (map g l) = filter p l.
Proof.
  induction l as [|a l IH]; intros H; cbn [map filter]; [reflexivity|].
  rewrite IH by (intros o Ho; apply H; right; exact Ho).
  destruct (H a (or_introl eq_refl)) as [E|[E1 E2]].
  - rewrite E. reflexivity.
  - rewrite E1, E2. reflexivity.
Qed.

Lemma filter_map_commute {A} (p : A -> bool) (g : A -> A) (l : list A) :
  (forall o, p (g o) = p o) ->
  filter p (map g l) = map g (filter p l).
Proof.
  intros H. induction l as [|a l IH]; cbn [map filter]; [reflexivity|].
  rewrite H, IH. destruct (p a); reflexivity.
Qed.

Lemma filter_filter_same {A} (p q : A -> bool) (l : list A) :
  (forall o, In o l -> p o = true -> q o = true) ->
  filter p (filter q l) = filter p l.
Proof.
  induction l as [|a l IH]; intros H; cbn [filter]; [reflexivity|].
  assert (IH' : filter p (filter q l) = filter p l)
    by (apply IH; intros o Ho; apply H; right; exact Ho).
  destruct (q a) eqn:Eq; cbn [filter]; rewrite IH'.
  - reflexivity.
  - destruct (p a) eqn:Ep; [|reflexivity].
    rewrite (H a (or_introl eq_refl) Ep) in Eq. discriminate.
Qed.

Lemma filter_none {A} (p : A -> bool) (l : list A) :
  (forall x, In x l -> p x = false) -> filter p l = [].
Proof.
  induction l as [|a l IH]; intros H; cbn [filter]; [reflexivity|].
  rewrite (H a (or_introl eq_refl)). apply IH. intros x Hx. apply H. right. exact Hx.
Qed.

Lemma NoDup_map_inj {A B} (f : A -> B) (l : list A) (a b : A) :
  NoDup (map f l) -> In a l -> In b l -> f a = f b -> a = b.
Proof.
  induction l as [|x l IH]; intros Hnd Ha Hb E; [contradiction|].
  cbn [map] in Hnd. inversion Hnd as [|? ? Hnot Hnd']; subst.
  destruct Ha as [<-|Ha], Hb as [<-|Hb].
  - reflexivity.
  - exfalso. apply Hnot. rewrite E. apply in_map. exact Hb.
  - exfalso. apply Hnot. rewrite <- E. apply in_map. exact Ha.
  - apply IH; assumption.
Qed.

Lemma distinct_ids_filter (keep : ReviewSchema.doc -> bool)
      (l : list ReviewSchema.doc) :
  NoDup (map ReviewSchema._id l) ->
  NoDup (map ReviewSchema._id (filter keep l)).
Proof.
  intros Hnd. induction l as [|x l IH]; cbn [filter map]; [constructor|].
  cbn [map] in Hnd. inversion Hnd as [|? ? Hnot Hnd']; subst.
  destruct (keep x); [|apply IH; exact Hnd'].
  cbn [map]. constructor; [|apply IH; exact Hnd'].
  intros Hin. apply Hnot. apply in_map_iff in Hin. destruct Hin as (y & E & Hy).
  apply filter_In in Hy. rewrite <- E. apply in_map. tauto.
Qed.

Lemma aggregateOf_map (g : ReviewSchema.doc -> ReviewSchema.doc)
      (l : list ReviewSchema.doc) :
  (forall o, ReviewSchema.rating (g o) = ReviewSchema.rating o) ->
  aggregateOf (map g l) = aggregateOf l.
Proof.
  intros H.
  assert (Hs : sumRatings (map g l) = sumRatings l).
  { induction l as [|a l IH]; cbn [map sumRatings fold_right]; [reflexivity|].
    rewrite H. unfold sumRatings in IH. rewrite IH. reflexivity. }
  destruct l as [|a l]; [reflexivity|].
  cbn [map] in *. unfold aggregateOf. rewrite Hs. cbn [List.length].
  rewrite length_map. reflexivity.
Qed.

Lemma lookup_some_in id l b :
  Book.lookup id l = Some b -> In b l /\ BookSchema._id b = id.
Proof.
  unfold Book.lookup. intros H. apply find_some in H. destruct H as [Hin Hid].
  split; [exact Hin|]. unfold Book.hasId in Hid. apply N.eqb_eq. exact Hid.
Qed.

Lemma lookup_not_none id l :
  Book.lookup id l <> None -> exists b, In b l /\ BookSchema._id b = id.
Proof.
  destruct (Book.lookup id l) as [b|] eqn:E; [|congruence].
  intros _. exists b. apply lookup_some_in. exact E.
Qed.

Lemma in_lookup_not_none id l b :
  In b l -> BookSchema._id b = id -> Book.lookup id l <> None.
Proof.
  intros Hin Hid H. unfold Book.lookup in H.
  pose proof (find_none _ _ H b Hin) as Hf. unfold Book.hasId in Hf.
  apply N.eqb_neq in Hf. contradiction.
Qed.

Lemma review_lookup_some_in id l r :
  Review.lookup id l = Some r -> In r l /\ ReviewSchema._id r = id.
Proof.
  unfold Review.lookup. intros H. apply find_some in H. destruct H as [Hin Hid].
  split; [exact Hin|]. unfold Review.hasId in Hid. apply N.eqb_eq. exact Hid.
Qed.

Lemma castBook_cast (o : option string) (bid d : ObjectId.t) :
  ObjectId.cast (field o) = Some bid -> Review.castBook o d = bid.
Proof.
  destruct o as [str|]; cbn [field orDefault Review.castBook].
  - intros ->. reflexivity.
  - cbv. discriminate.
Qed.

Lemma referencing_app x s r n :
  referencing x {| books := books s; reviews := reviews s ++ [r]; nextId := n |}
  = referencing x s ++ (if (ReviewSchema.book r =? x)%N then [r] else []).
Proof.
  unfold referencing. cbn [reviews]. rewrite filter_app. reflexivity.
Qed.

Lemma lookup_filter_other id oid l :
  id <> oid ->
  Book.lookup id (filter (fun o => negb (Book.hasId oid o)) l) = Book.lookup id l.
Proof.
  intros Hne. unfold Book.lookup.
  induction l as [|a l IH]; cbn [filter find]; [reflexivity|].
  destruct (Book.hasId oid a) eqn:Eo; cbn [negb find].
  - destruct (Book.hasId id a) eqn:Ei; [|exact IH].
    unfold Book.hasId in Eo, Ei. apply N.eqb_eq in Eo, Ei. congruence.
  - rewrite IH. reflexivity.
Qed.

Lemma kept_books_distinct {B} (path : BookSchema.doc -> B)
      (keep : BookSchema.doc -> bool) (l : list BookSchema.doc) :
  NoDup (map path l) -> NoDup (map path (filter keep l)).
Proof.
  induction l as [|x l IH]; cbn [filter map]; intros Hnd; [constructor|].
  apply NoDup_cons_iff in Hnd. destruct Hnd as [Hnot Hnd].
  destruct (keep x); [|exact (IH Hnd)].
  cbn [map]. apply NoDup_cons_iff. split; [|exact (IH Hnd)].
  intros Hin. apply Hnot. apply in_map_iff in Hin. destruct Hin as (y & E & Hy).
  apply filter_In in Hy. apply in_map_iff. exists y. tauto.
Qed.

Lemma review_id_free (id : ObjectId.t) (l : list ReviewSchema.doc) :
  Review.lookup id l = None -> ~ In id (map ReviewSchema._id l).
Proof.
  intros H Hin. apply in_map_iff in Hin. destruct Hin as (r & E & Hr).
  unfold Review.lookup in H. pose proof (find_none _ _ H r Hr) as Hf.
  unfold Review.hasId in Hf. apply N.eqb_neq in Hf. contradiction.
Qed.

Lemma book_id_free (id : ObjectId.t) (l : list BookSchema.doc) :
  Book.lookup id l = None -> ~ In id (map BookSchema._id l).
Proof.
  intros H Hin. apply in_map_iff in Hin. destruct Hin as (b & E & Hb).
  apply (in_lookup_not_none id l b Hb E). exact H.
Qed.

(** ** Ids and references *)

Lemma wellFormed_review_appended (r : ReviewSchema.doc) (n : N) s :
  wellFormed s ->
  Review.lookup (ReviewSchema._id r) (reviews s) = None ->
  (ReviewSchema.book r < 16 ^ 24)%N ->
  Book.lookup (ReviewSchema.book r) (books s) <> None ->
  wellFormed {| books := books s; reviews := reviews s ++ [r]; nextId := n |}.
Proof.
  intros (Hbnd & Hnd & Href) Hfree Hlt Hl.
  unfold wellFormed. cbn [books reviews].
  split; [exact Hbnd|]. split.
  { rewrite map_app. cbn [map].
    apply NoDup_app; [exact Hnd|repeat constructor; intros []|].
    intros x Hx [<-|[]]. exact (review_id_free _ _ Hfree Hx). }
  intros x Hin. apply in_app_or in Hin. destruct Hin as [Hin|[<-|[]]].
  - apply Href. exact Hin.
  - split; assumption.
Qed.

Lemma wellFormed_post_review now bid id body' s n :
  wellFormed s ->
  ObjectId.cast (field (ReviewBody.book body')) = Some bid ->
  Book.lookup bid (books s) <> None ->
  Review.lookup id (reviews s) = None ->
  wellFormed
    (recomputed now bid
       {| books := books s;
          reviews := reviews s ++ [Review.create id now body'];
          nextId := n |}).
Proof.
  intros Hwf EC EL Hfree.
  assert (Hbook : ReviewSchema.book (Review.create id now body') = bid)
    by (apply castBook_cast; exact EC).
  apply recomputed_wellFormed. apply wellFormed_review_appended.
  - exact Hwf.
  - exact Hfree.
  - rewrite Hbook. eapply cast_bound. exact EC.
  - rewrite Hbook. exact EL.
Qed.

Lemma wellFormed_delete_review now oid bid s :
  wellFormed s ->
  wellFormed
    (recomputed now bid
       (withReviews s (filter (fun o => negb (Review.hasId oid o)) (reviews s)))).
Proof.
  intros (Hbnd & Hnd & Href).
  apply recomputed_wellFormed. unfold wellFormed, withReviews.
  cbn [books reviews].
  split; [exact Hbnd|].
  split; [apply distinct_ids_filter; exact Hnd|].
  intros x Hx. apply filter_In in Hx. apply Href. tauto.
Qed.

Lemma wellFormed_review_update (g : ReviewSchema.doc -> ReviewSchema.doc) s :
  wellFormed s ->
  (forall o, ReviewSchema._id (g o) = ReviewSchema._id o) ->
  (forall o, In o (reviews s) ->
     (ReviewSchema.book (g o) < 16 ^ 24)%N /\
     Book.lookup (ReviewSchema.book (g o)) (books s) <> None) ->
  wellFormed (withReviews s (map g (reviews s))).
Proof.
  intros (Hbnd & Hnd & Href) Hid Hbk.
  unfold wellFormed, withReviews. cbn [books reviews].
  split; [exact Hbnd|].
  split.
  { rewrite map_map. rewrite (map_ext _ ReviewSchema._id) by exact Hid. exact Hnd. }
  intros x Hx. apply in_map_iff in Hx. destruct Hx as (o & <- & Ho).
  apply Hbk. exact Ho.
Qed.

Lemma wellFormed_post_book (d : BookSchema.doc) s n :
  wellFormed s -> Book.lookup (BookSchema._id d) (books s) = None ->
  wellFormed {| books := books s ++ [d]; reviews := reviews s;
                nextId := n |}.
Proof.
  intros (Hbnd & Hnd & Href) Hfree.
  unfold wellFormed. cbn [books reviews].
  split.
  { rewrite map_app. cbn [map].
    apply NoDup_app; [exact Hbnd|repeat constructor; intros []|].
    intros x Hx [<-|[]]. exact (book_id_free _ _ Hfree Hx). }
  split; [exact Hnd|].
  intros r Hin. destruct (Href r Hin) as [Hlt Hl]. split; [exact Hlt|].
  apply lookup_not_none in Hl. destruct Hl as (b & Hinb & Hidb).
  apply (in_lookup_not_none _ _ b); [apply in_or_app; left; exact Hinb|exact Hidb].
Qed.

Lemma wellFormed_book_update (g : BookSchema.doc -> BookSchema.doc) s :
  wellFormed s ->
  (forall o, BookSchema._id (g o) = BookSchema._id o) ->
  wellFormed (withBooks s (map g (books s))).
Proof.
  intros (Hbnd & Hnd & Href) Hid.
  unfold wellFormed, withBooks. cbn [books reviews].
  split.
  { rewrite map_map. rewrite (map_ext _ BookSchema._id) by exact Hid. exact Hbnd. }
  split; [exact Hnd|].
  intros r Hin. destruct (Href r Hin) as [Hlt Hl]. split; [exact Hlt|].
  rewrite lookup_map_id by exact Hid.
  destruct (Book.lookup (ReviewSchema.book r) (books s)); [discriminate|congruence].
Qed.

Lemma wellFormed_delete_book oid s :
  wellFormed s ->
  wellFormed
    {| books := filter (fun o => negb (Book.hasId oid o)) (books s);
       reviews := filter (fun o => negb (ReviewSchema.book o =? oid)%N) (reviews s);
       nextId := nextId s |}.
Proof.
  intros (Hbnd & Hnd & Href).
  unfold wellFormed. cbn [books reviews].
  split; [apply kept_books_distinct; exact Hbnd|].
  split; [apply distinct_ids_filter; exact Hnd|].
  intros r Hin. apply filter_In in Hin. destruct Hin as [Hin Hne].
  apply negb_true_iff, N.eqb_neq in Hne.
  destruct (Href r Hin) as [Hlt Hl]. split; [exact Hlt|].
  rewrite lookup_filter_other by exact Hne. exact Hl.
Qed.

(** ** The aggregate *)

Lemma inv_empty : Inv emptyStore.
Proof.
  split.
  - repeat split; cbn; try contradiction; constructor.
  - intros b [].
Qed.

Lemma inv_post_review now bid id body' s n :
  Inv s ->
  ObjectId.cast (field (ReviewBody.book body')) = Some bid ->
  Book.lookup bid (books s) <> None ->
  Review.lookup id (reviews s) = None ->
  Inv (recomputed now bid
         {| books := books s;
            reviews := reviews s ++ [Review.create id now body'];
            nextId := n |}).
Proof.
  intros [Hwf Hc] EC EL Hfree.
  set (r := Review.create id now body').
  assert (Hbook : ReviewSchema.book r = bid) by (apply castBook_cast; exact EC).
  split; [apply wellFormed_post_review; assumption|].
  apply consistentExcept_nil.
  apply (recomputed_except now bid [bid] []); [|intros x [<-|[]]; left; reflexivity].
  intros b Hin Hnot. cbn [books] in Hin. rewrite referencing_app. fold r.
  rewrite Hbook.
  destruct (N.eqb_spec bid (BookSchema._id b)) as [E|NE].
  + exfalso. apply Hnot. left. exact E.
  + rewrite app_nil_r. apply Hc. exact Hin.
Qed.

Lemma inv_delete_review now oid r s :
  Inv s ->
  Review.lookup oid (reviews s) = Some r ->
  Inv (recomputed now (ReviewSchema.book r)
         (withReviews s (filter (fun o => negb (Review.hasId oid o)) (reviews s)))).
Proof.
  intros [Hwf Hc] EL. pose proof Hwf as (Hbnd & Hnd & Href).
  apply review_lookup_some_in in EL. destruct EL as [Hin Hid].
  split; [apply wellFormed_delete_review; exact Hwf|].
  apply consistentExcept_nil.
  apply (recomputed_except now _ [ReviewSchema.book r] []);
    [|intros x [<-|[]]; left; reflexivity].
  intros b Hinb Hnot. cbn [books withReviews] in Hinb.
  rewrite (Hc b Hinb). f_equal. unfold referencing, withReviews. cbn [reviews].
  symmetry. apply filter_filter_same.
  intros o Hino Ho. apply N.eqb_eq in Ho.
  unfold Review.hasId. apply negb_true_iff. apply N.eqb_neq. intros E.
  assert (o = r) by (apply (NoDup_map_inj ReviewSchema._id (reviews s)); congruence).
  subst o. apply Hnot. left. congruence.
Qed.

Lemma inv_patch_helpful now oid s :
  Inv s ->
  Inv (withReviews s
         (map (fun o => if Review.hasId oid o
                        then Review.update now (Review.IncHelpful 1) o else o)
              (reviews s))).
Proof.
  intros [Hwf Hc]. pose proof Hwf as (Hbnd & Hnd & Href).
  set (g := fun o => if Review.hasId oid o
                     then Review.update now (Review.IncHelpful 1) o else o).
  assert (Hid : forall o, ReviewSchema._id (g o) = ReviewSchema._id o)
    by (intros o; unfold g; destruct (Review.hasId oid o); reflexivity).
  assert (Hbk : forall o, ReviewSchema.book (g o) = ReviewSchema.book o)
    by (intros o; unfold g; destruct (Review.hasId oid o); reflexivity).
  assert (Hrt : forall o, ReviewSchema.rating (g o) = ReviewSchema.rating o)
    by (intros o; unfold g; destruct (Review.hasId oid o); reflexivity).
  split.
  - apply (wellFormed_review_update g s Hwf Hid).
    intros o Ho. rewrite Hbk. apply Href. exact Ho.
  - intros b Hin. cbn [books withReviews] in Hin. rewrite (Hc b Hin).
    unfold referencing, withReviews. cbn [reviews].
    rewrite filter_map_commute by (intros o; rewrite Hbk; reflexivity).
    symmetry. apply aggregateOf_map. exact Hrt.
Qed.

Lemma inv_put_review now oid bid body' old s :
  Inv s ->
  ObjectId.cast (field (ReviewBody.book body')) = Some bid ->
  Book.lookup bid (books s) <> None ->
  Review.lookup oid (reviews s) = Some old ->
  Inv (let s1 :=
         withReviews s
           (map (fun o => if Review.hasId oid o
                          then Review.update now (Review.SetBody body') o else o)
                (reviews s)) in
       if negb (String.eqb (ObjectId.toString (ReviewSchema.book old))
                  (field (ReviewBody.book body')))
       then recomputed now bid (recomputed now (ReviewSchema.book old) s1)
       else recomputed now (ReviewSchema.book old) s1).
Proof.
  intros [Hwf Hc] EC EL ER. pose proof Hwf as (Hbnd & Hnd & Href).
  apply review_lookup_some_in in ER. destruct ER as [Hold Hoid].
  set (g := fun o => if Review.hasId oid o
                     then Review.update now (Review.SetBody body') o else o).
  cbv zeta. set (s1 := withReviews s (map g (reviews s))).
  assert (Hid : forall o, ReviewSchema._id (g o) = ReviewSchema._id o)
    by (intros o; unfold g; destruct (Review.hasId oid o); reflexivity).
  assert (Hgo : forall o, In o (reviews s) ->
                  g o = o \/ (o = old /\ ReviewSchema.book (g o) = bid)).
  { intros o Ho. unfold g, Review.hasId.
    destruct (N.eqb_spec (ReviewSchema._id o) oid) as [E|NE]; [right|left; reflexivity].
    split.
    - apply (NoDup_map_inj ReviewSchema._id (reviews s)); congruence.
    - cbn. apply castBook_cast. exact EC. }
  assert (Hwf1 : wellFormed s1).
  { apply (wellFormed_review_update g s Hwf Hid).
    intros o Ho. destruct (Hgo o Ho) as [E|[_ E]].
    - rewrite E. apply Href. exact Ho.
    - rewrite E. split; [eapply cast_bound; exact EC|exact EL]. }
  assert (Hex : consistentExcept [ReviewSchema.book old; bid] s1).
  { intros b Hin Hnot. cbn [books s1 withReviews] in Hin. rewrite (Hc b Hin).
    f_equal. unfold referencing, s1, withReviews. cbn [reviews].
    symmetry. apply filter_map_same. intros o Ho.
    destruct (Hgo o Ho) as [E|[E1 E2]]; [left; exact E|right].
    split; apply N.eqb_neq; intros E; apply Hnot.
    - right. left. congruence.
    - left. congruence. }
  destruct (String.eqb_spec (ObjectId.toString (ReviewSchema.book old))
              (field (ReviewBody.book body'))) as [Eq|Ne]; cbn [negb].
  - (* the same string: the same book *)
    assert (bid = ReviewSchema.book old).
    { destruct (Href old Hold) as [Hlt _].
      rewrite <- Eq, (cast_toString _ Hlt) in EC. congruence. }
    subst bid. split; [apply recomputed_wellFormed; exact Hwf1|].
    apply consistentExcept_nil.
    apply (recomputed_except now _ [ReviewSchema.book old; ReviewSchema.book old] []);
      [exact Hex|].
    intros x [<-|[<-|[]]]; left; reflexivity.
  - split; [apply recomputed_wellFormed, recomputed_wellFormed; exact Hwf1|].
    apply consistentExcept_nil.
    apply (recomputed_except now bid [bid] []); [|intros x [<-|[]]; left; reflexivity].
    apply (recomputed_except now _ [ReviewSchema.book old; bid] [bid]); [exact Hex|].
    intros x [<-|[<-|[]]]; [left; reflexivity|right; left; reflexivity].
Qed.

Lemma inv_post_book now id body' s n :
  Inv s ->
  BookBody.averageRating body' = None ->
  BookBody.numberOfReviews body' = None ->
  Book.lookup id (books s) = None ->
  Inv {| books := books s ++ [Book.create id now body'];
         reviews := reviews s;
         nextId := n |}.
Proof.
  intros [Hwf Hc] Ha Hn Hfree. pose proof Hwf as (Hbnd & Hnd & Href).
  set (d := Book.create id now body').
  assert (Hnone : forall r, In r (reviews s) -> ReviewSchema.book r <> id).
  { intros r Hin E. destruct (Href r Hin) as [_ Hl]. rewrite E in Hl. contradiction. }
  split; [apply wellFormed_post_book; [exact Hwf|exact Hfree]|].
  intros b Hin. cbn [books] in Hin. unfold referencing. cbn [reviews].
  fold (referencing (BookSchema._id b) s).
  apply in_app_or in Hin. destruct Hin as [Hin|[<-|[]]]; [apply Hc; exact Hin|].
  assert (E : referencing (BookSchema._id d) s = []).
  { unfold referencing. apply filter_none. intros r Hr'.
    apply N.eqb_neq. apply Hnone. exact Hr'. }
  rewrite E. unfold aggregate, d. cbn. rewrite Ha, Hn. reflexivity.
Qed.

Lemma inv_put_book now oid body' s :
  Inv s ->
  BookBody.averageRating body' = None ->
  BookBody.numberOfReviews body' = None ->
  Inv (withBooks s
         (map (fun o => if Book.hasId oid o then Book.update now body' o else o)
              (books s))).
Proof.
  intros [Hwf Hc] Ha Hn.
  set (g := fun o => if Book.hasId oid o then Book.update now body' o else o).
  assert (Hid : forall o, BookSchema._id (g o) = BookSchema._id o)
    by (intros o; unfold g; destruct (Book.hasId oid o); reflexivity).
  assert (Hag : forall o, aggregate (g o) = aggregate o).
  { intros o. unfold g. destruct (Book.hasId oid o); [|reflexivity].
    unfold aggregate. cbn. rewrite Ha, Hn. reflexivity. }
  split; [apply (wellFormed_book_update g s Hwf Hid)|].
  intros b Hin. cbn [books withBooks] in Hin.
  apply in_map_iff in Hin. destruct Hin as (o & <- & Ho).
  rewrite Hid, Hag. apply Hc. exact Ho.
Qed.

Lemma inv_delete_book oid s :
  Inv s ->
  Inv {| books := filter (fun o => negb (Book.hasId oid o)) (books s);
         reviews := filter (fun o => negb (ReviewSchema.book o =? oid)%N) (reviews s);
         nextId := nextId s |}.
Proof.
  intros [Hwf Hc].
  split; [apply wellFormed_delete_book; exact Hwf|].
  intros b Hin. cbn [books] in Hin. apply filter_In in Hin.
  destruct Hin as [Hin Hne]. apply negb_true_iff in Hne.
  unfold Book.hasId in Hne. apply N.eqb_neq in Hne.
  rewrite (Hc b Hin). f_equal. unfold referencing. cbn [reviews].
  symmetry. apply filter_filter_same. intros o _ Ho.
  apply N.eqb_eq in Ho. apply negb_true_iff, N.eqb_neq. congruence.
Qed.

(* ================================================================== *)
(** * Facts on sorting and on the list queries *)
(* ================================================================== *)

Lemma insert_perm {A} (key : A -> SortKey.t) (order : Z) (a : A) (l : list A) :
  Permutation (SortKey.insert key order a l) (a :: l).
Proof.
  induction l as [|b l IH]; cbn [SortKey.insert]; [apply Permutation_refl|].
  destruct (SortKey.inOrder key order a b); [apply Permutation_refl|].
  eapply Permutation_trans; [apply perm_skip; exact IH|apply perm_swap].
Qed.

Lemma sort_perm {A} (key : A -> SortKey.t) (order : Z) (l : list A) :
  Permutation (SortKey.sort key order l) l.
Proof.
  unfold SortKey.sort. induction l as [|a l IH]; cbn [fold_right]; [constructor|].
  eapply Permutation_trans; [apply insert_perm|apply perm_skip; exact IH].
Qed.

Lemma map_review_populated (s : Store) (l : list ReviewSchema.doc) :
  map Review.review (map (Review.populated s) l) = l.
Proof.
  rewrite map_map. cbn [Review.populated Review.review]. apply map_id.
Qed.

Lemma regexOn_run env p s :
  run (BookRoutes.regexOn env p) s =
  match compilePattern env p with
  | Some a => (inr a, s, [])
  | None => (inl SyntaxError, s, [])
  end.
Proof.
  unfold BookRoutes.regexOn, compilePattern.
  destruct (truthy p) as [src|]; [|reflexivity].
  destruct (RegExp_i env src); reflexivity.
Qed.

Lemma populateAll_run (l : list ReviewSchema.doc) s :
  run (Review.populateAll l) s =
  (inr (map (Review.populated s) l), s,
   match l with [] => [] | _ :: _ => [OpBookPopulate] end).
Proof. destruct l; reflexivity. Qed.

(** The review list: what it answers for a filter that can be cast.  The
    books are fetched only when the filter finds a review. *)
Lemma get_reviews_run q qbook s :
  bookFilter q = Some qbook ->
  let found :=
    SortKey.sort
      (Review.sortKey (orDefault (ReviewRoutes.sort q) "reviewDate"))
      (BookRoutes.sortOrder (ReviewRoutes.order q))
      (filter (Review.matches qbook (ReviewRoutes.rating q)) (reviews s)) in
  run (ReviewRoutes.get_reviews q) s =
  (inr {| status := 200; json := JReviews (map (Review.populated s) found) |},
   s,
   OpReviewFind qbook (ReviewRoutes.rating q)
     :: match found with [] => [] | _ :: _ => [OpBookPopulate] end).
Proof.
  intros H found. subst found.
  unfold bookFilter in H. unfold ReviewRoutes.get_reviews, castId.
  assert (E : forall qb,
    run (reviews <- Review.findSorted qb (ReviewRoutes.rating q)
                      (orDefault (ReviewRoutes.sort q) "reviewDate")
                      (BookRoutes.sortOrder (ReviewRoutes.order q)) ;;
         populated <- Review.populateAll reviews ;;
         respond 200 (JReviews populated)) s =
    (let l := SortKey.sort
                (Review.sortKey (orDefault (ReviewRoutes.sort q) "reviewDate"))
                (BookRoutes.sortOrder (ReviewRoutes.order q))
                (filter (Review.matches qb (ReviewRoutes.rating q)) (reviews s)) in
     (inr {| status := 200; json := JReviews (map (Review.populated s) l) |},
      s,
      OpReviewFind qb (ReviewRoutes.rating q)
        :: match l with [] => [] | _ :: _ => [OpBookPopulate] end))).
  { intros qb. cbv zeta.
    unfold Review.findSorted. cbn [query bind run].
    rewrite run_bind, populateAll_run. cbn [respond ret run app].
    rewrite app_nil_r. reflexivity. }
  rewrite run_catch.
  destruct (truthy (ReviewRoutes.book q)) as [b|].
  - destruct (ObjectId.cast b) as [oid|]; [|discriminate].
    injection H as <-. cbn [ret bind]. rewrite (E (Some oid)). reflexivity.
  - injection H as <-. cbn [ret bind]. rewrite (E None). reflexivity.
Qed.

Lemma get_reviews_listed q s r :
  In r (listedReviews (resultOf (ReviewRoutes.get_reviews q) s)) ->
  In r (reviews s).
Proof.
  destruct (bookFilter q) as [qbook|] eqn:E.
  - unfold resultOf. rewrite (get_reviews_run q qbook s E).
    cbv zeta. cbn [fst listedReviews json]. rewrite map_review_populated.
    intros H. apply (Permutation_in _ (sort_perm _ _ _)) in H.
    apply filter_In in H. tauto.
  - unfold bookFilter in E. unfold resultOf, ReviewRoutes.get_reviews, castId.
    destruct (truthy (ReviewRoutes.book q)) as [b|]; [|discriminate].
    destruct (ObjectId.cast b); [discriminate|].
    cbn. intros [].
Qed.

(* ================================================================== *)
(** * The rating aggregate *)
(* ================================================================== *)

Lemma sumRatings_bounds (l : list ReviewSchema.doc) :
  Forall validRating l ->
  Z.of_nat (List.length l) <= sumRatings l <= 5 * Z.of_nat (List.length l).
Proof.
  induction 1 as [|r l Hr _ IH]; cbn [sumRatings fold_right List.length].
  - lia.
  - unfold validRating in Hr. unfold sumRatings in IH. lia.
Qed.

(** C1. For every book id and every set R of persisted reviews that
    reference it (with the ratings the schema accepts, and fewer than 2^32
    of them), [updateBookRating] returns, leaves the reviews as they are,
    keeps the book, and gives it [numberOfReviews = |R|] and
    [averageRating] = the sum of the ratings of R divided by |R| and
    rounded to 2 decimal places: the Number nearest to [n / 100], the
    binary64 quotient of [n] by 100, for an integer [n] such that no
    number with two decimals is nearer to the mean than [n / 100]; with
    no review it gives [averageRating = 0] and [numberOfReviews = 0]. *)
Theorem C1_updateBookRating_sets_aggregate
        (env : Env) (now : N) (bookId : ObjectId.t) (s : Store) :
  Forall validRating (referencing bookId s) ->
  Z.of_nat (List.length (referencing bookId s)) < 2 ^ 32 ->
  let R := referencing bookId s in
  let s' := storeAfter (ReviewRoutes.updateBookRating env now bookId) s in
  resultOf (ReviewRoutes.updateBookRating env now bookId) s = inr tt /\
  reviews s' = reviews s /\
  map BookSchema._id (books s') = map BookSchema._id (books s) /\
  forall b, In b (books s') -> BookSchema._id b = bookId ->
    BookSchema.numberOfReviews b = Z.of_nat (List.length R) /\
    match R with
    | [] => BookSchema.averageRating b = ofZ 0
    | _ :: _ =>
        exists n,
          roundedTo2 (sumRatings R) (Z.of_nat (List.length R)) n /\
          BookSchema.averageRating b = div (ofZ n) (ofZ 100)
    end.
Proof.
  intros Hvalid Hlen R s'. subst s'.
  unfold storeAfter, resultOf. rewrite updateBookRating_run. cbn [fst snd].
  split; [reflexivity|]. split; [reflexivity|].
  split.
  { unfold recomputed. cbn [books]. rewrite map_map. apply map_ext.
    intros o. destruct (Book.hasId bookId o); reflexivity. }
  intros b Hin Hid. apply in_recomputed in Hin.
  destruct Hin as [[_ Hne]|[_ Hagg]]; [contradiction|].
  unfold aggregate in Hagg. fold R in Hagg.
  pose proof (f_equal fst Hagg) as Ha. pose proof (f_equal snd Hagg) as Hn.
  cbn [fst snd] in Ha, Hn. clear Hagg.
  pose proof (sumRatings_bounds R Hvalid) as Hsum. fold R in Hlen.
  destruct R as [|r l] eqn:ER.
  - split; assumption.
  - split; [exact Hn|].
    destruct (toFixed2_mean (sumRatings (r :: l)) (Z.of_nat (List.length (r :: l))))
      as (n & Hfix & Hround).
    + cbn [List.length] in *. lia.
    + lia.
    + exists n. split; [exact Hround|]. rewrite Ha. unfold aggregateOf. cbn [fst].
      rewrite Hfix. reflexivity.
Qed.

(** The example of the specification: ratings 4 and 5 give 2 reviews and
    4.50, the binary64 number 5066549580791808 * 2^-50 = 4.5. *)
Lemma C1_witness :
  Forall validRating (referencing 0%N Sample.twoReviews) /\
  Z.of_nat (List.length (referencing 0%N Sample.twoReviews)) < 2 ^ 32 /\
  forall b,
    In b (books (storeAfter (ReviewRoutes.updateBookRating Sample.env 9%N 0%N)
                   Sample.twoReviews)) ->
    BookSchema._id b = 0%N ->
    BookSchema.numberOfReviews b = 2 /\
    BookSchema.averageRating b = S754_finite false 5066549580791808 (-50).
Proof.
  assert (H1 : Forall validRating (referencing 0%N Sample.twoReviews)).
  { vm_compute referencing. repeat constructor; vm_compute; discriminate. }
  assert (H2 : Z.of_nat (List.length (referencing 0%N Sample.twoReviews)) < 2 ^ 32).
  { vm_compute. reflexivity. }
  split; [exact H1|]. split; [exact H2|].
  intros b Hin Hid.
  pose proof (proj2 (proj2 (proj2
    (C1_updateBookRating_sets_aggregate Sample.env 9%N 0%N Sample.twoReviews H1 H2)))
    b Hin Hid) as [Hn Ha].
  split; [exact Hn|].
  assert (ER : referencing 0%N Sample.twoReviews
               = [Review.create 1%N 1%N (Sample.reviewBody Sample.id0 4);
                  Review.create 2%N 1%N (Sample.reviewBody Sample.id0 5)])
    by (vm_compute; reflexivity).
  rewrite ER in Ha. rewrite <- ER in Ha. destruct Ha as (n & Hround & Ha).
  assert (Es : sumRatings (referencing 0%N Sample.twoReviews) = 9)
    by (vm_compute; reflexivity).
  assert (El : Z.of_nat (List.length (referencing 0%N Sample.twoReviews)) = 2)
    by (vm_compute; reflexivity).
  rewrite Es, El in Hround. unfold roundedTo2 in Hround.
  assert (En : n = 450) by lia.
  rewrite Ha, En. vm_compute. reflexivity.
Defined.

(** Means that lie halfway between two numbers with two decimals: the
    digits follow the binary value of the quotient, which is below 1.025
    for 41/40 and is exactly 1.125 for 9/8. *)
Example halfway_examples :
  toFixed2 (div (ofZ 41) (ofZ 40)) = FixedDigits false 102 /\
  toFixed2 (div (ofZ 9) (ofZ 8)) = FixedDigits false 113.
Proof. vm_compute. split; reflexivity. Qed.

(** The example of the specification, evaluated: two reviews rated 4 and 5
    give 4.50 and 2; after the review rated 5 is deleted, 4.00 and 1;
    after the last one is deleted, 0 and 0. *)
Example aggregate_example :
  map aggregate (books Sample.twoReviews) = [(decimal2 450, 2)] /\
  map aggregate
    (books (Sample.after [DeleteReview "000000000000000000000002"] Sample.twoReviews))
  = [(decimal2 400, 1)] /\
  map aggregate
    (books (Sample.after [DeleteReview "000000000000000000000002";
                          DeleteReview "000000000000000000000001"] Sample.twoReviews))
  = [(ofZ 0, 0)].
Proof. vm_compute. repeat split. Qed.

(** C4. [updateBookRating] is idempotent: run a second time (at any later
    time) with the reviews unchanged, it leaves the same books with the
    same [averageRating] and [numberOfReviews], and the same reviews, as
    the first run did. *)
Theorem C4_updateBookRating_idempotent
        (env : Env) (now1 now2 : N) (bookId : ObjectId.t) (s : Store) :
  let s1 := storeAfter (ReviewRoutes.updateBookRating env now1 bookId) s in
  let s2 := storeAfter (ReviewRoutes.updateBookRating env now2 bookId) s1 in
  map (fun b => (BookSchema._id b, aggregate b)) (books s2)
  = map (fun b => (BookSchema._id b, aggregate b)) (books s1) /\
  reviews s2 = reviews s1.
Proof.
  cbv zeta. unfold storeAfter. rewrite !updateBookRating_run. cbn [fst snd].
  split; [|reflexivity].
  unfold recomputed at 1. cbn [books]. rewrite referencing_recomputed.
  rewrite map_map. apply map_ext_in. intros b Hin.
  destruct (Book.hasId bookId b) eqn:E; [|reflexivity].
  apply in_recomputed in Hin. unfold Book.hasId in E. apply N.eqb_eq in E.
  destruct Hin as [[_ Hne]|[_ Hagg]]; [contradiction|].
  cbn [Book.update BookSchema._id]. f_equal.
  rewrite Hagg. unfold aggregate. cbn.
  destruct (aggregateOf (referencing bookId s)); reflexivity.
Qed.

(* ================================================================== *)
(** * Reviews *)
(* ================================================================== *)

(** C6. A review creation request that passes validation and whose [book]
    is an ObjectId (24 hexadecimal digits) of no book is answered 404
    "Book not found" and persists nothing: the handler only looks the book
    up, and the collections (the reviews, and every book with its
    aggregate) are as before. *)
Theorem C6_post_review_unknown_book
        (env : Env) (now : N) (body : ReviewBody.t) (bookId : ObjectId.t) (s : Store) :
  fst (ReviewRoutes.validateReview body) = [] ->
  ObjectId.cast (field (ReviewBody.book body)) = Some bookId ->
  Book.lookup bookId (books s) = None ->
  run (ReviewRoutes.post_review env now body) s =
    (inr {| status := 404; json := JError "Book not found" |}, s,
     [OpBookFindById bookId]).
Proof.
  intros Hv Hc Hnone.
  unfold ReviewRoutes.post_review.
  destruct (ReviewRoutes.validateReview body) as [errors body'] eqn:EV.
  cbn [fst] in Hv. subst errors.
  assert (Hb : ReviewBody.book body' = ReviewBody.book body).
  { unfold ReviewRoutes.validateReview in EV. injection EV as _ <-. reflexivity. }
  cbn [handleValidationErrors]. unfold castId. rewrite Hb, Hc.
  prog. rewrite Hnone. reflexivity.
Qed.

Lemma C6_witness :
  run (ReviewRoutes.post_review Sample.env 3%N
         (Sample.reviewBody "0123456789abcdefABCDEF00" 5)) Sample.twoReviews =
    (inr {| status := 404; json := JError "Book not found" |}, Sample.twoReviews,
     [OpBookFindById 352125166730063720919985920%N]).
Proof.
  apply (C6_post_review_unknown_book Sample.env 3%N
           (Sample.reviewBody "0123456789abcdefABCDEF00" 5)).
  - vm_compute. reflexivity.
  - vm_compute. reflexivity.
  - vm_compute. reflexivity.
Defined.

(** C10. The review list applies no pagination: for every filter (by
    book, when the parameter is an id, and/or by exact rating) the answer
    is 200 with every matching review, each once, in one response; the
    handler sends one [find] with no limit, followed, when a review
    matches, by the one query that fetches their books, and by nothing
    when none does. *)
Theorem C10_get_reviews_lists_all
        (q : ReviewRoutes.Query) (qbook : option ObjectId.t) (s : Store) :
  bookFilter q = Some qbook ->
  let matching := filter (Review.matches qbook (ReviewRoutes.rating q)) (reviews s) in
  exists l,
    resultOf (ReviewRoutes.get_reviews q) s =
      inr {| status := 200; json := JReviews l |} /\
    Permutation (map Review.review l) matching /\
    opsOf (ReviewRoutes.get_reviews q) s =
      OpReviewFind qbook (ReviewRoutes.rating q)
        :: match matching with [] => [] | _ :: _ => [OpBookPopulate] end.
Proof.
  intros H matching. unfold resultOf, opsOf.
  pose proof (get_reviews_run q qbook s H) as Hrun. cbv zeta in Hrun.
  rewrite Hrun. cbn [fst snd]. eexists. split; [reflexivity|].
  fold matching.
  pose proof (sort_perm
                (Review.sortKey (orDefault (ReviewRoutes.sort q) "reviewDate"))
                (BookRoutes.sortOrder (ReviewRoutes.order q)) matching) as Hperm.
  split; [rewrite map_review_populated; exact Hperm|].
  f_equal.
  destruct matching as [|r l].
  - apply Permutation_sym, Permutation_nil in Hperm. rewrite Hperm. reflexivity.
  - destruct (SortKey.sort _ _ (r :: l)); [|reflexivity].
    apply Permutation_nil in Hperm. discriminate Hperm.
Qed.

(** Ten reviews, all listed with one [find] and one query for the books;
    and no review, listed with the [find] alone. *)
Lemma C10_witness :
  (exists l,
     resultOf (ReviewRoutes.get_reviews Sample.allReviews) Sample.secondShelf =
       inr {| status := 200; json := JReviews l |} /\
     Permutation (map Review.review l) (reviews Sample.secondShelf) /\
     List.length l = 10%nat /\
     opsOf (ReviewRoutes.get_reviews Sample.allReviews) Sample.secondShelf =
       [OpReviewFind None None; OpBookPopulate]) /\
  run (ReviewRoutes.get_reviews Sample.allReviews) Sample.oneBook =
    (inr {| status := 200; json := JReviews [] |}, Sample.oneBook,
     [OpReviewFind None None]).
Proof.
  split.
  - destruct (C10_get_reviews_lists_all Sample.allReviews None Sample.secondShelf
                eq_refl) as (l & Hres & Hperm & Hops).
    exists l. split; [exact Hres|].
    assert (Hall : filter (Review.matches None (ReviewRoutes.rating Sample.allReviews))
                     (reviews Sample.secondShelf) = reviews Sample.secondShelf)
      by (vm_compute; reflexivity).
    rewrite Hall in Hperm, Hops.
    split; [exact Hperm|]. split.
    + rewrite <- (length_map Review.review l), (Permutation_length Hperm).
      vm_compute. reflexivity.
    + rewrite Hops. vm_compute. reflexivity.
  - destruct (C10_get_reviews_lists_all Sample.allReviews None Sample.oneBook
                eq_refl) as (l & Hres & Hperm & Hops).
    assert (Hnone : filter (Review.matches None (ReviewRoutes.rating Sample.allReviews))
                      (reviews Sample.oneBook) = [])
      by (vm_compute; reflexivity).
    rewrite Hnone in Hperm, Hops.
    apply Permutation_sym, Permutation_nil in Hperm.
    apply map_eq_nil in Hperm. subst l.
    unfold resultOf in Hres. unfold opsOf in Hops.
    destruct (run (ReviewRoutes.get_reviews Sample.allReviews) Sample.oneBook)
      as [[res st] ops] eqn:E.
    assert (Est : snd (fst (run (ReviewRoutes.get_reviews Sample.allReviews)
                              Sample.oneBook)) = Sample.oneBook)
      by (vm_compute; reflexivity).
    rewrite E in Est. cbn [fst snd] in Hres, Hops, Est. subst res ops st.
    reflexivity.
Defined.

(** The book list caps its page at [limit]; the review list does not: ten
    reviews are listed at once, where a book page of 10 over 25 books
    lists 10. *)
Example list_sizes_example :
  List.length (listedReviews
                 (resultOf (ReviewRoutes.get_reviews Sample.allReviews)
                    Sample.secondShelf)) = 10%nat /\
  match resultOf (BookRoutes.get_books Sample.env (Sample.pageQuery 1 10))
          (Sample.library 25) with
  | inr {| json := JBookPage l _ _ total _ |} => List.length l = 10%nat /\ total = 25
  | _ => False
  end.
Proof. vm_compute. repeat split. Qed.

(* ================================================================== *)
(** * Books *)
(* ================================================================== *)

(** C3. Deleting an existing book answers 200, removes the book and every
    review whose [book] is its id, the book first and the reviews second
    (after the first operation the book is gone and the reviews are all
    there); once the request is answered no review that references the
    book is returned by the review list, whatever the query. *)
Theorem C3_delete_book_cascades (id : string) (oid : ObjectId.t) (s : Store) :
  ObjectId.cast id = Some oid ->
  Book.lookup oid (books s) <> None ->
  let s' := storeAfter (BookRoutes.delete_book id) s in
  resultOf (BookRoutes.delete_book id) s =
    inr {| status := 200;
           json := JMessage "Book and associated reviews deleted successfully" |} /\
  opsOf (BookRoutes.delete_book id) s =
    [OpBookFindByIdAndDelete oid; OpReviewDeleteMany oid] /\
  snd (stepAt 0 [BookRoutes.delete_book id] s) =
    withBooks s (filter (fun b => negb (BookSchema._id b =? oid)%N) (books s)) /\
  books s' = filter (fun b => negb (BookSchema._id b =? oid)%N) (books s) /\
  Book.lookup oid (books s') = None /\
  reviews s' = filter (fun r => negb (ReviewSchema.book r =? oid)%N) (reviews s) /\
  forall q r,
    In r (listedReviews (resultOf (ReviewRoutes.get_reviews q) s')) ->
    ReviewSchema.book r <> oid.
Proof.
  intros Hc Hl s'.
  assert (Hm : BookRoutes.validateId id = []).
  { unfold BookRoutes.validateId. rewrite (cast_isMongoId _ _ Hc). reflexivity. }
  assert (Hrun : run (BookRoutes.delete_book id) s =
                 (inr {| status := 200;
                         json := JMessage "Book and associated reviews deleted successfully" |},
                  {| books := filter (fun b => negb (BookSchema._id b =? oid)%N) (books s);
                     reviews := filter (fun r => negb (ReviewSchema.book r =? oid)%N)
                                  (reviews s);
                     nextId := nextId s |},
                  [OpBookFindByIdAndDelete oid; OpReviewDeleteMany oid])).
  { unfold BookRoutes.delete_book. rewrite Hm. unfold castId. rewrite Hc. prog.
    destruct (Book.lookup oid (books s)); [|congruence]. prog. reflexivity. }
  subst s'. unfold storeAfter, resultOf, opsOf. rewrite Hrun. cbn [fst snd books reviews].
  split; [reflexivity|]. split; [reflexivity|].
  split.
  { unfold stepAt, BookRoutes.delete_book. rewrite Hm. unfold castId. rewrite Hc.
    reflexivity. }
  split; [reflexivity|].
  split.
  { apply find_none_iff. intros b Hb. apply filter_In in Hb.
    destruct Hb as [_ Hb]. apply negb_true_iff in Hb. exact Hb. }
  split; [reflexivity|].
  intros q r Hin. apply get_reviews_listed in Hin. cbn [reviews] in Hin.
  apply filter_In in Hin. destruct Hin as [_ Hne].
  apply negb_true_iff, N.eqb_neq in Hne. exact Hne.
Qed.

Lemma C3_witness :
  let s' := storeAfter (BookRoutes.delete_book Sample.id0) Sample.twoReviews in
  books s' = [] /\ reviews s' = [] /\
  opsOf (BookRoutes.delete_book Sample.id0) Sample.twoReviews =
    [OpBookFindByIdAndDelete 0%N; OpReviewDeleteMany 0%N].
Proof.
  assert (H1 : ObjectId.cast Sample.id0 = Some 0%N) by reflexivity.
  assert (H2 : Book.lookup 0%N (books Sample.twoReviews) <> None)
    by (vm_compute; discriminate).
  destruct (C3_delete_book_cascades Sample.id0 0%N Sample.twoReviews H1 H2)
    as (_ & Hops & _ & Hb & _ & Hr & _).
  cbv zeta. rewrite Hb, Hr. split; [|split; [|exact Hops]]; vm_compute; reflexivity.
Defined.

(** C8. For every book creation input that passes both validations: when
    the ISBN of the request (trimmed) is the ISBN of a persisted book, the
    answer is 400 "A book with this ISBN already exists" and the
    collections are unchanged, which is also what happens when the request
    gives an [_id] that a persisted book has; otherwise the answer is 201
    with the new book, which is added at the end of the books: it has the
    fields of the request (the texts trimmed), the defaults of the schema
    for the others, and the [_id] of the request or else a generated one,
    which no persisted book has. *)
Theorem C8_post_book_unique_isbn
        (env : Env) (now : N) (body : BookBody.t) (s : Store) :
  fst (BookRoutes.validateBook env body) = [] ->
  Book.validate (currentYear env) true (snd (BookRoutes.validateBook env body)) = [] ->
  let isbn := Text.trim (field (BookBody.isbn body)) in
  if existsb (fun b => String.eqb (BookSchema.isbn b) isbn) (books s)
     || match BookBody._id body with
        | Some x => existsb (fun b => (BookSchema._id b =? x)%N) (books s)
        | None => false
        end
  then
    run (BookRoutes.post_book env now body) s =
      (inr {| status := 400; json := JError "A book with this ISBN already exists" |},
       s, [OpBookInsert])
  else
    exists (id : ObjectId.t) (created updated : N) (s' : Store),
      let d :=
        {| BookSchema._id := id;
           BookSchema.title := Text.trim (field (BookBody.title body));
           BookSchema.author := Text.trim (field (BookBody.author body));
           BookSchema.isbn := isbn;
           BookSchema.publicationYear := orDefault (BookBody.publicationYear body) 0;
           BookSchema.genre := Text.trim (field (BookBody.genre body));
           BookSchema.description := option_map Text.trim (BookBody.description body);
           BookSchema.publisher := option_map Text.trim (BookBody.publisher body);
           BookSchema.pages := BookBody.pages body;
           BookSchema.language :=
             Text.trim (orDefault (BookBody.language body) "English");
           BookSchema.averageRating := orDefault (BookBody.averageRating body) (ofZ 0);
           BookSchema.numberOfReviews := orDefault (BookBody.numberOfReviews body) 0;
           BookSchema.createdAt := created;
           BookSchema.updatedAt := updated |} in
      run (BookRoutes.post_book env now body) s =
        (inr {| status := 201; json := JBook d |}, s', [OpBookInsert]) /\
      books s' = books s ++ [d] /\
      reviews s' = reviews s /\
      Book.lookup id (books s) = None /\
      (forall x, BookBody._id body = Some x -> id = x).
Proof.
  intros Hv Hs isbn.
  set (id := Book.newId (snd (BookRoutes.validateBook env body)) s).
  assert (Ed : Book.create id now (snd (BookRoutes.validateBook env body)) =
    {| BookSchema._id := id;
       BookSchema.title := Text.trim (field (BookBody.title body));
       BookSchema.author := Text.trim (field (BookBody.author body));
       BookSchema.isbn := isbn;
       BookSchema.publicationYear := orDefault (BookBody.publicationYear body) 0;
       BookSchema.genre := Text.trim (field (BookBody.genre body));
       BookSchema.description := option_map Text.trim (BookBody.description body);
       BookSchema.publisher := option_map Text.trim (BookBody.publisher body);
       BookSchema.pages := BookBody.pages body;
       BookSchema.language := Text.trim (orDefault (BookBody.language body) "English");
       BookSchema.averageRating := orDefault (BookBody.averageRating body) (ofZ 0);
       BookSchema.numberOfReviews := orDefault (BookBody.numberOfReviews body) 0;
       BookSchema.createdAt := now;
       BookSchema.updatedAt := now |}).
  { unfold Book.create, isbn. cbn [BookRoutes.validateBook snd
      BookBody._id BookBody.title BookBody.author BookBody.isbn BookBody.publicationYear
      BookBody.genre BookBody.description BookBody.publisher BookBody.pages
      BookBody.language BookBody.averageRating BookBody.numberOfReviews].
    rewrite !trim_field. reflexivity. }
  assert (Hid : existsb (Book.hasId id) (books s) =
                match BookBody._id body with
                | Some x => existsb (fun b => (BookSchema._id b =? x)%N) (books s)
                | None => false
                end).
  { unfold id, Book.newId.
    change (BookBody._id (snd (BookRoutes.validateBook env body)))
      with (BookBody._id body).
    destruct (BookBody._id body) as [x|]; cbn [orDefault]; [reflexivity|].
    apply book_id_taken, fresh_book. }
  assert (Hfrom : forall x, BookBody._id body = Some x -> id = x).
  { intros x Hx. unfold id, Book.newId.
    change (BookBody._id (snd (BookRoutes.validateBook env body)))
      with (BookBody._id body).
    rewrite Hx. reflexivity. }
  rewrite <- Hid. clear Hid.
  unfold BookRoutes.post_book.
  destruct (BookRoutes.validateBook env body) as [errors body'] eqn:EV.
  cbn [fst snd] in *. subst errors. cbn [handleValidationErrors].
  unfold Book.save. rewrite Hs. prog. fold id. rewrite Ed.
  cbn [BookSchema._id BookSchema.isbn].
  rewrite (orb_comm (existsb (fun b => String.eqb (BookSchema.isbn b) isbn) (books s))).
  destruct (existsb (Book.hasId id) (books s)) eqn:Hdup; cbn [orb]; [reflexivity|].
  destruct (existsb (fun b => String.eqb (BookSchema.isbn b) isbn) (books s));
    [reflexivity|].
  exists id, now, now. eexists. cbv zeta.
  split; [reflexivity|]. split; [reflexivity|]. split; [reflexivity|].
  split; [apply book_id_taken; exact Hdup|exact Hfrom].
Qed.

(** The example of the specification: the book with ISBN
    978-3-16-148410-0, year 2020, genre Fiction is created; a second one
    with the same ISBN is refused. *)
Lemma C8_witness :
  (exists created updated s',
     let d :=
       {| BookSchema._id := 0%N;
          BookSchema.title := "A Title";
          BookSchema.author := "An Author";
          BookSchema.isbn := "978-3-16-148410-0";
          BookSchema.publicationYear := 2020;
          BookSchema.genre := "Fiction";
          BookSchema.description := None;
          BookSchema.publisher := None;
          BookSchema.pages := None;
          BookSchema.language := "English";
          BookSchema.averageRating := ofZ 0;
          BookSchema.numberOfReviews := 0;
          BookSchema.createdAt := created;
          BookSchema.updatedAt := updated |} in
     run (BookRoutes.post_book Sample.env 1%N Sample.firstBook) emptyStore
     = (inr {| status := 201; json := JBook d |}, s', [OpBookInsert]) /\
     books s' = [d] /\ reviews s' = [])
  /\
  run (BookRoutes.post_book Sample.env 2%N Sample.firstBook) Sample.oneBook
  = (inr {| status := 400; json := JError "A book with this ISBN already exists" |},
     Sample.oneBook, [OpBookInsert]).
Proof.
  assert (H1 : fst (BookRoutes.validateBook Sample.env Sample.firstBook) = [])
    by (vm_compute; reflexivity).
  assert (H2 : Book.validate (currentYear Sample.env) true
                 (snd (BookRoutes.validateBook Sample.env Sample.firstBook)) = [])
    by (vm_compute; reflexivity).
  split.
  - destruct (C8_post_book_unique_isbn Sample.env 1%N Sample.firstBook emptyStore H1 H2)
      as (id & created & updated & s' & Hrun & Hb & Hr & _ & _).
    assert (Eid : id = 0%N).
    { apply (f_equal (fun x => fst (fst x))) in Hrun. vm_compute in Hrun.
      injection Hrun as Hid _ _. symmetry. exact Hid. }
    subst id. exists created, updated, s'. cbv zeta.
    split; [exact Hrun|]. split; [exact Hb|exact Hr].
  - exact (C8_post_book_unique_isbn Sample.env 2%N Sample.firstBook Sample.oneBook H1 H2).
Defined.

(** The same request with the [_id] of a persisted book and another ISBN:
    the store refuses the insertion, and the handler, which tells the
    errors of the store apart by their code alone, names the ISBN. *)
Example post_book_duplicate_id_example :
  run (BookRoutes.post_book Sample.env 2%N Sample.secondBookWithId0) Sample.oneBook
  = (inr {| status := 400; json := JError "A book with this ISBN already exists" |},
     Sample.oneBook, [OpBookInsert]).
Proof. vm_compute. reflexivity. Qed.

(** An [_id] that a client has chosen is not generated afterwards: with
    the id 1 taken by a first book, a second one, without an id, gets
    another. *)
Example generated_id_example :
  match run (BookRoutes.post_book Sample.env 2%N Sample.secondBook)
          (storeAfter (BookRoutes.post_book Sample.env 1%N
                         (Sample.withBookId 1%N Sample.firstBook)) emptyStore) with
  | (inr {| status := 201; json := JBook d |}, s', _) =>
      BookSchema._id d = 2%N /\ map BookSchema._id (books s') = [1; 2]%N
  | _ => False
  end.
Proof. vm_compute. split; reflexivity. Qed.

(** C7, as the specification states it, fails for a query with [limit=0]:
    the store reads a limit of 0 as no limit, so both books are listed,
    and the page count is infinite. *)
Lemma C7_counterexample :
  ~ paginated Sample.env (Sample.pageQuery 1 0) (Sample.library 2).
Proof.
  unfold paginated. intros (f & Hf & Hres & _).
  vm_compute in Hf. injection Hf as <-.
  vm_compute in Hres. discriminate Hres.
Qed.

Lemma firstn_length_le {A} (n : nat) (l : list A) : (List.length (firstn n l) <= n)%nat.
Proof. rewrite length_firstn. apply Nat.le_min_l. Qed.

(** C7, amended. For every book list query with [page >= 1] and
    [limit >= 1] whose patterns are regular expressions (and with counts
    below 2^52), with the defaults [page = 1] and [limit = 10]: the answer
    is 200 with the matching books in the order asked for, without the
    first [(page - 1) * limit] and [limit] of them at most, with the total
    of matching books and [ceil(total / limit)] pages. *)
Theorem C7_get_books_paginated (env : Env) (q : BookRoutes.Query) (s : Store) :
  queryFilter env q <> None ->
  1 <= orDefault (BookRoutes.page q) 1 ->
  1 <= orDefault (BookRoutes.limit q) 10 < 2 ^ 53 ->
  Z.of_nat (List.length (books s)) < 2 ^ 52 ->
  paginated env q s.
Proof.
  intros Hf Hpage Hlimit Hsize. unfold paginated.
  destruct (queryFilter env q) as [f|] eqn:Ef; [|congruence].
  exists f. split; [reflexivity|]. cbv zeta.
  set (page := orDefault (BookRoutes.page q) 1) in *.
  set (limit := orDefault (BookRoutes.limit q) 10) in *.
  set (field_ := orDefault (BookRoutes.sortBy q) "createdAt").
  set (order_ := BookRoutes.sortOrder (BookRoutes.order q)).
  set (matching := SortKey.sort (Book.sortKey field_) order_ (filter f (books s))).
  assert (Hlen : List.length matching = List.length (filter f (books s))).
  { apply Permutation_length. apply sort_perm. }
  assert (Htotal : 0 <= Z.of_nat (List.length matching) < 2 ^ 52).
  { rewrite Hlen. pose proof (filter_length_le f (books s)). lia. }
  split.
  - unfold queryFilter in Ef. unfold resultOf, BookRoutes.get_books.
    rewrite run_catch, run_bind, regexOn_run.
    destruct (compilePattern env (BookRoutes.author q)) as [a|]; [|discriminate].
    rewrite run_bind, regexOn_run.
    destruct (compilePattern env (BookRoutes.search q)) as [g|]; [|discriminate].
    injection Ef as <-.
    fold page limit field_ order_.
    unfold Book.find, Book.countDocuments, command, query. prog.
    fold matching. unfold window.
    replace ((page - 1) * limit <? 0) with false by (symmetry; apply Z.ltb_ge; nia).
    replace (limit =? 0) with false by (symmetry; apply Z.eqb_neq; lia).
    rewrite (Z.abs_eq limit) by lia. prog.
    rewrite <- Hlen. rewrite ceil_div_ofZ by lia. reflexivity.
  - pose proof (firstn_length_le (Z.to_nat limit)
                  (skipn (Z.to_nat ((page - 1) * limit)) matching)). lia.
Qed.

(** The example of the specification: 25 books, [page=2], [limit=10]. *)
Lemma C7_witness :
  paginated Sample.env (Sample.pageQuery 2 10) (Sample.library 25).
Proof.
  apply (C7_get_books_paginated Sample.env (Sample.pageQuery 2 10) (Sample.library 25)).
  - vm_compute. discriminate.
  - vm_compute. discriminate.
  - vm_compute. split; [discriminate|reflexivity].
  - vm_compute. reflexivity.
Defined.

(** The same example, evaluated: it skips the 10 newest books, lists 10,
    and reports 25 books on 3 pages. *)
Example pagination_example :
  match resultOf (BookRoutes.get_books Sample.env (Sample.pageQuery 2 10))
          (Sample.library 25) with
  | inr {| status := 200; json := JBookPage l 2 10 25 pages |} =>
      map BookSchema._id l = [14; 13; 12; 11; 10; 9; 8; 7; 6; 5]%N /\ pages = ofZ 3
  | _ => False
  end.
Proof. vm_compute. split; reflexivity. Qed.

(* ================================================================== *)
(** * The invariant of the aggregate *)
(* ================================================================== *)

Lemma validateBook_aggregate env body :
  BookBody.averageRating (snd (BookRoutes.validateBook env body))
    = BookBody.averageRating body /\
  BookBody.numberOfReviews (snd (BookRoutes.validateBook env body))
    = BookBody.numberOfReviews body.
Proof. split; reflexivity. Qed.

Lemma setsAggregate_false body :
  match BookBody.averageRating body, BookBody.numberOfReviews body with
  | None, None => false
  | _, _ => true
  end = false ->
  BookBody.averageRating body = None /\ BookBody.numberOfReviews body = None.
Proof.
  destruct (BookBody.averageRating body), (BookBody.numberOfReviews body);
    intros H; try discriminate. split; reflexivity.
Qed.

(** Every request that gives no value to a derived field keeps the
    invariant. *)
Lemma handler_preserves_Inv env now r s :
  setsAggregate r = false -> Inv s -> Inv (storeAfter (handler env now r) s).
Proof.
  intros Hr HI. destruct r as [body|id body|id|body|id body|id|id]; cbn [handler].
  - apply setsAggregate_false in Hr. destruct Hr as [Ha Hn].
    destruct (post_book_store env now body s) as [->|(_ & Hfree & _ & ->)]; [exact HI|].
    apply inv_post_book; [exact HI| | |exact Hfree].
    + rewrite (proj1 (validateBook_aggregate env body)). exact Ha.
    + rewrite (proj2 (validateBook_aggregate env body)). exact Hn.
  - apply setsAggregate_false in Hr. destruct Hr as [Ha Hn].
    destruct (put_book_store env now id body s) as [->|(oid & d & _ & _ & _ & ->)];
      [exact HI|].
    apply inv_put_book; [exact HI| |].
    + rewrite (proj1 (validateBook_aggregate env body)). exact Ha.
    + rewrite (proj2 (validateBook_aggregate env body)). exact Hn.
  - destruct (delete_book_store id s) as [->|(oid & _ & ->)]; [exact HI|].
    apply inv_delete_book. exact HI.
  - destruct (post_review_store env now body s)
      as [->|(body' & bid & _ & EC & EL & Hfree & _ & ->)]; [exact HI|].
    apply inv_post_review; assumption.
  - destruct (put_review_store env now id body s)
      as [->|(body' & bid & oid & old & _ & EC & EL & _ & ER & _ & ->)]; [exact HI|].
    apply inv_put_review; assumption.
  - destruct (delete_review_store env now id s)
      as [->|(oid & r & _ & EL & ->)]; [exact HI|].
    apply inv_delete_review; assumption.
  - destruct (patch_helpful_store now id s) as [->|(oid & _ & ->)]; [exact HI|].
    apply inv_patch_helpful. exact HI.
Qed.

(** C2, as the specification states it, fails: a book creation request
    may carry [averageRating] and [numberOfReviews], and the book is
    stored with them, here 5 and 7 with no review. *)
Lemma C2_counterexample :
  ~ (forall s, reachable Sample.env s -> consistent s).
Proof.
  intros H.
  assert (Hr : reachable Sample.env
                 (storeAfter (handler Sample.env 1%N (PostBook Sample.ratedBook))
                    emptyStore)).
  { apply reachableWith_step; [apply reachableWith_empty|reflexivity]. }
  specialize (H _ Hr).
  specialize (H (Book.create 0%N 1%N Sample.ratedBook) (or_introl eq_refl)).
  vm_compute in H. discriminate H.
Qed.

(** C2, amended. In every state reached through requests whose book
    bodies give no value to [averageRating] or [numberOfReviews], every
    book carries the aggregate of the reviews that reference it:
    [numberOfReviews] is their count and [averageRating] is what the
    recomputation gives for them (0 for none, else their mean rounded to
    2 decimals, see C1); each of these requests, on books and on reviews,
    keeps this. *)
Theorem C2_aggregate_invariant (env : Env) (s : Store) :
  reachableWith env (fun r => negb (setsAggregate r)) s ->
  consistent s /\
  forall now r, setsAggregate r = false ->
    consistent (storeAfter (handler env now r) s).
Proof.
  intros H.
  assert (HI : Inv s).
  { induction H as [|s now r _ IH Hr]; [exact inv_empty|].
    apply handler_preserves_Inv; [|exact IH].
    apply negb_true_iff. exact Hr. }
  split; [exact (proj2 HI)|].
  intros now r Hr. exact (proj2 (handler_preserves_Inv env now r s Hr HI)).
Qed.

Lemma C2_witness :
  reachableWith Sample.env (fun r => negb (setsAggregate r)) Sample.twoReviews /\
  consistent Sample.twoReviews.
Proof.
  assert (H : reachableWith Sample.env (fun r => negb (setsAggregate r))
                Sample.twoReviews).
  { unfold Sample.twoReviews, Sample.oneBook, Sample.after. cbn [fold_left].
    repeat (apply reachableWith_step; [|reflexivity]). apply reachableWith_empty. }
  split; [exact H|].
  exact (proj1 (C2_aggregate_invariant Sample.env Sample.twoReviews H)).
Defined.

(* ================================================================== *)
(** * The update of a review *)
(* ================================================================== *)

(** What an update that goes through sends to the store: the look-ups, the
    update, then the recomputation for the former book and, when the
    string forms of the two ids differ, the recomputation for the book of
    the request. *)
Lemma put_review_ops env now id body s body' bid oid old :
  ReviewRoutes.validateReview body = ([], body') ->
  Review.validate false body' = [] ->
  ObjectId.cast (field (ReviewBody.book body')) = Some bid ->
  Book.lookup bid (books s) <> None ->
  ObjectId.cast id = Some oid ->
  Review.lookup oid (reviews s) = Some old ->
  Review.changesId (Review.SetBody body') oid = false ->
  opsOf (ReviewRoutes.put_review env now id body) s =
    [OpBookFindById bid; OpReviewFindById oid; OpReviewFindByIdAndUpdate oid;
     OpBookPopulate;
     OpReviewFind (Some (ReviewSchema.book old)) None;
     OpBookFindByIdAndUpdate (ReviewSchema.book old)] ++
    (if negb (String.eqb (ObjectId.toString (ReviewSchema.book old))
                (field (ReviewBody.book body')))
     then [OpReviewFind (Some bid) None; OpBookFindByIdAndUpdate bid]
     else []).
Proof.
  intros EV EVal EC EL EI ER EId.
  unfold opsOf, ReviewRoutes.put_review. rewrite EV.
  assert (Hm : ReviewRoutes.validateId id = []).
  { unfold ReviewRoutes.validateId. rewrite (cast_isMongoId _ _ EI). reflexivity. }
  rewrite Hm. cbn [app handleValidationErrors]. unfold castId. rewrite EC. prog.
  destruct (Book.lookup bid (books s)) as [b|]; [|congruence].
  rewrite EI. prog. rewrite ER.
  unfold Review.findByIdAndUpdate. rewrite EVal. prog. rewrite ER, EId.
  prog.
  rewrite run_catch, run_bind, updateBookRating_run.
  destruct (negb (String.eqb (ObjectId.toString (ReviewSchema.book old))
                    (field (ReviewBody.book body')))).
  - rewrite run_bind, updateBookRating_run. prog. reflexivity.
  - prog. reflexivity.
Qed.

(** C5, at the input where the code departs from it.  The review ...0b
    references the book ...0a; the update names the same book with the
    digit in upper case.  The book reference does not change, and the
    handler recomputes the aggregate of that book twice: the comparison
    is made on the strings. *)
Theorem C5_put_review_same_book_other_case :
  option_map ReviewSchema.book
    (Review.lookup 11%N (reviews Sample.secondShelf)) = Some 10%N /\
  ObjectId.cast (field (ReviewBody.book Sample.sameBookUpperCase)) = Some 10%N /\
  opsOf (ReviewRoutes.put_review Sample.env 2%N "00000000000000000000000b"
           Sample.sameBookUpperCase) Sample.secondShelf =
    [OpBookFindById 10%N; OpReviewFindById 11%N; OpReviewFindByIdAndUpdate 11%N;
     OpBookPopulate;
     OpReviewFind (Some 10%N) None; OpBookFindByIdAndUpdate 10%N;
     OpReviewFind (Some 10%N) None; OpBookFindByIdAndUpdate 10%N].
Proof. vm_compute. repeat split. Qed.

Lemma changed_reference_differs (old bid : ObjectId.t) (str : string) :
  (old < 16 ^ 24)%N -> ObjectId.cast str = Some bid -> bid <> old ->
  String.eqb (ObjectId.toString old) str = false.
Proof.
  intros Hlt Hc Hne. apply String.eqb_neq. intros E. subst str.
  rewrite (cast_toString _ Hlt) in Hc. congruence.
Qed.

(* ================================================================== *)
(** * The helpful counter *)
(* ================================================================== *)







Lemma setNth_same {A} (i : nat) (a : A) (l : list A) :
  nth_error l i = Some a -> setNth i a l = l.
Proof.
  revert i. induction l as [|b l IH]; intros i Hi.
  - destruct i; reflexivity.
  - destruct i as [|i]; cbn [nth_error setNth] in *.
    + congruence.
    + rewrite IH by exact Hi. reflexivity.
Qed.








(* ================================================================== *)
(** * The validation chain and the schema of the reviews *)
(* ================================================================== *)

(** X1: a body that passes [validateReview] passes, once sanitized, the
    validators of the review schema on the paths that the chain names,
    when its book id can be cast, both on [save] and on an update.  The
    chain does not name [helpful], whose validator (minimum 0) is the only
    one left: the schema refuses the sanitized body exactly when the body
    gives a negative [helpful], and then on this path alone. *)
Theorem validateReview_covers_schema (b : ReviewBody.t) (required : bool) :
  fst (ReviewRoutes.validateReview b) = [] ->
  ObjectId.cast (field (ReviewBody.book b)) <> None ->
  Review.validate required (snd (ReviewRoutes.validateReview b)) =
    match ReviewBody.helpful b with
    | Some h => if 0 <=? h then [] else ["helpful"]
    | None => []
    end.
Proof.
  intros Hv Hc. rewrite (review_chain_leaves_helpful b required Hv Hc).
  unfold helpfulOk, Book.check. destruct (ReviewBody.helpful b); reflexivity.
Qed.

(** A body with the four paths of the chain passes the schema; the same
    body with [helpful: -1] passes the chain and not the schema. *)
Lemma validateReview_covers_schema_witness :
  Review.validate true
    (snd (ReviewRoutes.validateReview (Sample.reviewBody Sample.id0 4))) = [] /\
  fst (ReviewRoutes.validateReview
         (Sample.withHelpful (-1) (Sample.reviewBody Sample.id0 4))) = [] /\
  Review.validate true
    (snd (ReviewRoutes.validateReview
            (Sample.withHelpful (-1) (Sample.reviewBody Sample.id0 4)))) = ["helpful"].
Proof.
  assert (H1 : fst (ReviewRoutes.validateReview (Sample.reviewBody Sample.id0 4)) = [])
    by (vm_compute; reflexivity).
  assert (H2 : ObjectId.cast
                 (field (ReviewBody.book (Sample.reviewBody Sample.id0 4))) <> None)
    by (vm_compute; discriminate).
  assert (H3 : fst (ReviewRoutes.validateReview
                      (Sample.withHelpful (-1) (Sample.reviewBody Sample.id0 4))) = [])
    by (vm_compute; reflexivity).
  assert (H4 : ObjectId.cast
                 (field (ReviewBody.book
                           (Sample.withHelpful (-1) (Sample.reviewBody Sample.id0 4))))
               <> None)
    by (vm_compute; discriminate).
  split; [|split; [exact H3|]].
  - exact (validateReview_covers_schema (Sample.reviewBody Sample.id0 4) true H1 H2).
  - exact (validateReview_covers_schema
             (Sample.withHelpful (-1) (Sample.reviewBody Sample.id0 4)) true H3 H4).
Defined.

(* ================================================================== *)
(** * What every route answers *)
(* ================================================================== *)

Lemma throwsOr_bind {A} (codes : list Z) (m : M A) (k : A -> M Response) :
  (forall a, throwsOrAnswersWith codes (k a)) ->
  throwsOrAnswersWith codes (bind m k).
Proof.
  intros Hk. induction m as [a|e|X op f c IH]; cbn [bind].
  - apply Hk.
  - apply throwsOr_throw.
  - apply throwsOr_atomic. exact IH.
Qed.

Lemma throwsOr_respond (codes : list Z) (code : Z) (j : Json) :
  In code codes -> throwsOrAnswersWith codes (respond code j).
Proof. intros H. apply throwsOr_ret. exact H. Qed.

Lemma answersWith_catch (codes : list Z) (m : M Response) (h : Exn -> M Response) :
  throwsOrAnswersWith codes m ->
  (forall e, answersWith codes (h e)) ->
  answersWith codes (catch m h).
Proof.
  intros Hm Hh. induction Hm as [r Hr|e|X op f k _ IH]; cbn [catch].
  - apply answersWith_ret. exact Hr.
  - apply Hh.
  - apply answersWith_atomic. exact IH.
Qed.

Lemma answersWith_gate (codes : list Z) (errors : list string) (next : M Response) :
  In 400 codes -> answersWith codes next ->
  answersWith codes (handleValidationErrors errors next).
Proof.
  intros H400 Hn. destruct errors; cbn [handleValidationErrors]; [exact Hn|].
  apply answersWith_ret. exact H400.
Qed.

Lemma answersWith_run (codes : list Z) (m : M Response) :
  answersWith codes m ->
  forall s, exists resp, resultOf m s = inr resp /\ In (status resp) codes.
Proof.
  unfold resultOf.
  induction 1 as [r Hr|X op f k _ IH]; intros s; cbn [run].
  - exists r. split; [reflexivity|exact Hr].
  - destruct (f s) as [x s1]. destruct (IH x s1) as (resp & E & Hin).
    exists resp. destruct (run (k x) s1) as [[r0 s2] t]. cbn [fst] in *.
    split; assumption.
Qed.

Ltac known := cbn [In]; tauto.

Ltac answering :=
  repeat first
    [ apply answersWith_gate; [known|]
    | apply answersWith_catch
    | apply throwsOr_bind; intros
    | apply throwsOr_respond; known
    | apply answersWith_ret; cbn [status respond ret]; known
    | match goal with
      | |- throwsOrAnswersWith _ (match ?x with _ => _ end) => destruct x
      | |- answersWith _ (match ?x with _ => _ end) => destruct x
      | |- forall _, _ => intros
      end ].

Lemma handler_answersWith (env : Env) (now : N) (r : Request) :
  answersWith (statusesOf r) (handler env now r).
Proof.
  destruct r; cbn [handler statusesOf];
    unfold BookRoutes.post_book, BookRoutes.put_book, BookRoutes.delete_book,
      ReviewRoutes.post_review, ReviewRoutes.put_review,
      ReviewRoutes.delete_review, ReviewRoutes.patch_helpful,
      BookRoutes.onWriteError;
    try match goal with
        | |- context [BookRoutes.validateBook ?e ?b] =>
            destruct (BookRoutes.validateBook e b)
        | |- context [ReviewRoutes.validateReview ?b] =>
            destruct (ReviewRoutes.validateReview b)
        end;
    answering.
Qed.

Lemma reader_answersWith (env : Env) (r : ReadRequest) :
  answersWith (readStatusesOf r) (reader env r).
Proof.
  destruct r; cbn [reader readStatusesOf];
    unfold BookRoutes.get_books, BookRoutes.get_book, BookRoutes.get_book_reviews,
      ReviewRoutes.get_reviews, ReviewRoutes.get_review;
    answering.
Qed.

(** X2: every changing route answers: no error leaves its [try]/[catch],
    and the status is one that the route's code sets (a creation never
    answers 500, a deletion never 201, and so on), whatever the request and
    the collections. *)
Theorem handler_always_answers (env : Env) (now : N) (r : Request) (s : Store) :
  exists resp,
    resultOf (handler env now r) s = inr resp /\ In (status resp) (statusesOf r).
Proof. apply answersWith_run. apply handler_answersWith. Qed.

(** X3: so does every reading route. *)
Theorem reader_always_answers (env : Env) (r : ReadRequest) (s : Store) :
  exists resp,
    resultOf (reader env r) s = inr resp /\ In (status resp) (readStatusesOf r).
Proof. apply answersWith_run. apply reader_answersWith. Qed.

(* ================================================================== *)
(** * The reading routes leave the collections alone *)
(* ================================================================== *)

Lemma quiet_bind {A B} (m : M A) (k : A -> M B) :
  quiet m -> (forall a, quiet (k a)) -> quiet (bind m k).
Proof.
  intros Hm Hk. induction Hm as [a|e|X op f c Hf _ IH]; cbn [bind].
  - apply Hk.
  - apply quiet_throw.
  - apply quiet_atomic; [exact Hf|exact IH].
Qed.

Lemma quiet_catch {A} (m : M A) (h : Exn -> M A) :
  quiet m -> (forall e, quiet (h e)) -> quiet (catch m h).
Proof.
  intros Hm Hh. induction Hm as [a|e|X op f c Hf _ IH]; cbn [catch].
  - apply quiet_ret.
  - apply Hh.
  - apply quiet_atomic; [exact Hf|exact IH].
Qed.

Lemma quiet_query {A} (op : DbOp) (f : Store -> A) : quiet (query op f).
Proof. apply quiet_atomic; [reflexivity|]. intros x. apply quiet_ret. Qed.

Lemma quiet_castId (id : string) : quiet (castId id).
Proof. unfold castId. destruct (ObjectId.cast id); constructor. Qed.

Lemma quiet_gate (errors : list string) (next : M Response) :
  quiet next -> quiet (handleValidationErrors errors next).
Proof. intros H. destruct errors; [exact H|apply quiet_ret]. Qed.

Lemma quiet_regexOn (env : Env) (p : option string) : quiet (BookRoutes.regexOn env p).
Proof.
  unfold BookRoutes.regexOn. destruct (truthy p); [|constructor].
  destruct (RegExp_i env s); constructor.
Qed.

Lemma quiet_run {A} (m : M A) :
  quiet m -> forall s, storeAfter m s = s.
Proof.
  unfold storeAfter.
  induction 1 as [a|e|X op f k Hf _ IH]; intros s; cbn [run]; try reflexivity.
  specialize (Hf s). destruct (f s) as [x s1]. cbn [snd] in Hf. subst s1.
  specialize (IH x s). destruct (run (k x) s) as [[r s2] t]. exact IH.
Qed.

Lemma quiet_populateAll (l : list ReviewSchema.doc) : quiet (Review.populateAll l).
Proof. destruct l; [apply quiet_ret|apply quiet_query]. Qed.

Lemma reader_quiet (env : Env) (r : ReadRequest) : quiet (reader env r).
Proof.
  destruct r; cbn [reader];
    unfold BookRoutes.get_books, BookRoutes.get_book, BookRoutes.get_book_reviews,
      ReviewRoutes.get_reviews, ReviewRoutes.get_review;
    repeat first
      [ apply quiet_gate
      | apply quiet_catch; [|intros; apply quiet_ret]
      | apply quiet_bind; [|intros]
      | apply quiet_castId
      | apply quiet_populateAll
      | apply quiet_regexOn
      | apply quiet_query
      | apply quiet_ret
      | match goal with
        | |- quiet (match ?x with _ => _ end) => destruct x
        end ].
  - (* Book.find *)
    unfold Book.find, command. apply quiet_atomic; [reflexivity|].
    intros [e|l]; constructor.
  - unfold Review.populateOpt. destruct a0; [|apply quiet_ret].
    apply quiet_bind; [apply quiet_query|intros; apply quiet_ret].
Qed.

(** X4: a reading route changes neither collection, whatever it answers;
    nor does what is left of it after each of its operations, so this holds
    also when other requests are in flight. *)
Theorem reader_changes_nothing (env : Env) (r : ReadRequest) (s : Store) :
  storeAfter (reader env r) s = s /\ quiet (reader env r).
Proof. split; [apply quiet_run|]; apply reader_quiet. Qed.

(* ================================================================== *)
(** * The validation gate *)
(* ================================================================== *)

(** X5: a request whose validation chain reports an error is answered 400
    with these errors, the handler does not run: no operation is sent and
    the collections are as before. *)
Theorem validation_errors_stop_the_request
        (env : Env) (now : N) (r : Request) (s : Store) :
  requestErrors env r <> [] ->
  run (handler env now r) s =
    (inr {| status := 400; json := JValidation (requestErrors env r) |}, s, []).
Proof.
  destruct r; cbn [handler requestErrors];
    unfold BookRoutes.post_book, BookRoutes.put_book, BookRoutes.delete_book,
      ReviewRoutes.post_review, ReviewRoutes.put_review,
      ReviewRoutes.delete_review, ReviewRoutes.patch_helpful;
    try match goal with
        | |- context [BookRoutes.validateBook ?e ?b] =>
            destruct (BookRoutes.validateBook e b) as [errors body']
        | |- context [ReviewRoutes.validateReview ?b] =>
            destruct (ReviewRoutes.validateReview b) as [errors body']
        end;
    cbn [fst];
    match goal with
    | |- ?l <> [] -> _ => destruct l; [congruence|intros _; reflexivity]
    end.
Qed.

Lemma validation_errors_stop_the_request_witness :
  requestErrors Sample.env (PostReview (Sample.reviewBody Sample.id0 6)) <> [] /\
  storeAfter (handler Sample.env 1%N (PostReview (Sample.reviewBody Sample.id0 6)))
    Sample.oneBook = Sample.oneBook.
Proof.
  assert (H : requestErrors Sample.env
                (PostReview (Sample.reviewBody Sample.id0 6)) <> [])
    by (vm_compute; discriminate).
  split; [exact H|].
  unfold storeAfter.
  rewrite (validation_errors_stop_the_request Sample.env 1%N _ Sample.oneBook H).
  reflexivity.
Defined.

(* ================================================================== *)
(** * Reading one document *)
(* ================================================================== *)

Lemma book_validateId_cast (id : string) (oid : ObjectId.t) :
  ObjectId.cast id = Some oid -> BookRoutes.validateId id = [].
Proof.
  intros H. unfold BookRoutes.validateId. rewrite (cast_isMongoId _ _ H). reflexivity.
Qed.

Lemma review_validateId_cast (id : string) (oid : ObjectId.t) :
  ObjectId.cast id = Some oid -> ReviewRoutes.validateId id = [].
Proof.
  intros H. unfold ReviewRoutes.validateId. rewrite (cast_isMongoId _ _ H). reflexivity.
Qed.

Lemma get_book_run (id : string) (oid : ObjectId.t) (s : Store) :
  ObjectId.cast id = Some oid ->
  run (BookRoutes.get_book id) s =
    (inr match Book.lookup oid (books s) with
         | Some d => {| status := 200; json := JBook d |}
         | None => {| status := 404; json := JError "Book not found" |}
         end, s, [OpBookFindById oid]).
Proof.
  intros H. unfold BookRoutes.get_book, castId.
  rewrite (book_validateId_cast _ _ H), H. prog.
  destruct (Book.lookup oid (books s)); reflexivity.
Qed.

Lemma get_review_run (id : string) (oid : ObjectId.t) (s : Store) :
  ObjectId.cast id = Some oid ->
  run (ReviewRoutes.get_review id) s =
    match Review.lookup oid (reviews s) with
    | Some r =>
        (inr {| status := 200; json := JReview (Some (Review.populated s r)) |}, s,
         [OpReviewFindById oid; OpBookPopulate])
    | None =>
        (inr {| status := 404; json := JError "Review not found" |}, s,
         [OpReviewFindById oid])
    end.
Proof.
  intros H. unfold ReviewRoutes.get_review, castId.
  rewrite (review_validateId_cast _ _ H), H. prog.
  destruct (Review.lookup oid (reviews s)); reflexivity.
Qed.

(** X6: [GET /api/books/:id/reviews]: for a book of the collection the
    answer is 200 with exactly the reviews that reference it (each once,
    in the order of the sort), from one read of the book and one of the
    reviews; for an id that no book holds it is 404 and the reviews are not
    read. *)
Theorem get_book_reviews_lists_the_books_reviews
        (id : string) (oid : ObjectId.t) (s : Store) :
  ObjectId.cast id = Some oid ->
  storeAfter (BookRoutes.get_book_reviews id) s = s /\
  match Book.lookup oid (books s) with
  | Some _ =>
      exists l,
        resultOf (BookRoutes.get_book_reviews id) s =
          inr {| status := 200; json := JReviewDocs l |} /\
        Permutation l (referencing oid s) /\
        opsOf (BookRoutes.get_book_reviews id) s =
          [OpBookFindById oid; OpReviewFind (Some oid) None]
  | None =>
      resultOf (BookRoutes.get_book_reviews id) s =
        inr {| status := 404; json := JError "Book not found" |} /\
      opsOf (BookRoutes.get_book_reviews id) s = [OpBookFindById oid]
  end.
Proof.
  intros H. unfold storeAfter, resultOf, opsOf, BookRoutes.get_book_reviews, castId.
  rewrite (book_validateId_cast _ _ H), H. prog.
  destruct (Book.lookup oid (books s)) as [d|]; prog.
  - split; [reflexivity|]. unfold Review.findSorted. prog.
    eexists. split; [reflexivity|]. split; [|reflexivity].
    rewrite matches_book. fold (referencing oid s).
    apply sort_perm.
  - repeat split.
Qed.

Lemma get_book_reviews_lists_the_books_reviews_witness :
  exists l,
    resultOf (BookRoutes.get_book_reviews Sample.id0) Sample.twoReviews =
      inr {| status := 200; json := JReviewDocs l |} /\
    List.length l = 2%nat.
Proof.
  assert (H : ObjectId.cast Sample.id0 = Some 0%N) by (vm_compute; reflexivity).
  pose proof (get_book_reviews_lists_the_books_reviews
                Sample.id0 0%N Sample.twoReviews H) as [_ G].
  assert (EL : Book.lookup 0%N (books Sample.twoReviews) <> None)
    by (vm_compute; discriminate).
  destruct (Book.lookup 0%N (books Sample.twoReviews)); [|congruence].
  destruct G as (l & E & P & _). exists l. split; [exact E|].
  rewrite (Permutation_length P). vm_compute. reflexivity.
Defined.

(* ================================================================== *)
(** * Creating and deleting a review *)
(* ================================================================== *)

Lemma review_lookup_appended (id : ObjectId.t) (l : list ReviewSchema.doc)
      (r : ReviewSchema.doc) :
  Review.lookup id l = None ->
  ReviewSchema._id r = id ->
  Review.lookup id (l ++ [r]) = Some r.
Proof.
  intros Hl Hr. unfold Review.lookup in *.
  induction l as [|a l IH]; cbn [app find] in *.
  - unfold Review.hasId. rewrite Hr, N.eqb_refl. reflexivity.
  - destruct (Review.hasId id a); [discriminate|]. apply IH. exact Hl.
Qed.

Lemma book_lookup_appended (id : ObjectId.t) (l : list BookSchema.doc)
      (d : BookSchema.doc) :
  Book.lookup id l = None ->
  BookSchema._id d = id ->
  Book.lookup id (l ++ [d]) = Some d.
Proof.
  intros Hl Hd. unfold Book.lookup in *.
  induction l as [|a l IH]; cbn [app find] in *.
  - unfold Book.hasId. rewrite Hd, N.eqb_refl. reflexivity.
  - destruct (Book.hasId id a); [discriminate|]. apply IH. exact Hl.
Qed.

Lemma aggregateOf_count (l : list ReviewSchema.doc) :
  snd (aggregateOf l) = Z.of_nat (List.length l).
Proof. destruct l; reflexivity. Qed.

Lemma recomputed_count now bid s b :
  In b (books (recomputed now bid s)) -> BookSchema._id b = bid ->
  aggregate b = aggregateOf (referencing bid s).
Proof.
  intros Hb Hid. apply in_recomputed in Hb.
  destruct Hb as [[_ Hne]|[_ Hagg]]; [contradiction|exact Hagg].
Qed.

(** The creation of a review, up to the insertion. *)
Lemma post_review_start env now body bid s :
  fst (ReviewRoutes.validateReview body) = [] ->
  ObjectId.cast (field (ReviewBody.book body)) = Some bid ->
  Book.lookup bid (books s) <> None ->
  run (ReviewRoutes.post_review env now body) s =
  run (catch
         (book <- Book.findById bid ;;
          match book with
          | None => respond 404 (JError "Book not found")
          | Some _ =>
              review <- Review.save now (snd (ReviewRoutes.validateReview body)) ;;
              ReviewRoutes.updateBookRating env now bid ;;;
              found <- Review.findById (ReviewSchema._id review) ;;
              populatedReview <- Review.populateOpt found ;;
              respond 201 (JReview populatedReview)
          end)
         (fun error => respond 400 (JException error))) s.
Proof.
  intros Hv Hc Hl. unfold ReviewRoutes.post_review.
  destruct (ReviewRoutes.validateReview body) as [errors body'] eqn:EV.
  cbn [fst snd] in *. subst errors.
  assert (Hb : ReviewBody.book body' = ReviewBody.book body).
  { unfold ReviewRoutes.validateReview in EV. injection EV as _ <-. reflexivity. }
  cbn [handleValidationErrors]. unfold castId. rewrite Hb, Hc. reflexivity.
Qed.

Lemma post_review_run env now body bid s :
  fst (ReviewRoutes.validateReview body) = [] ->
  ObjectId.cast (field (ReviewBody.book body)) = Some bid ->
  Book.lookup bid (books s) <> None ->
  helpfulOk body = true ->
  Review.lookup (Review.newId body s) (reviews s) = None ->
  let r := Review.create (Review.newId body s) now
             (snd (ReviewRoutes.validateReview body)) in
  let s' := recomputed now bid
              {| books := books s; reviews := reviews s ++ [r];
                 nextId := nextIdAfter s (Review.newId body s) |} in
  run (ReviewRoutes.post_review env now body) s =
    (inr {| status := 201; json := JReview (Some (Review.populated s' r)) |}, s',
     [OpBookFindById bid; OpReviewInsert; OpReviewFind (Some bid) None;
      OpBookFindByIdAndUpdate bid; OpReviewFindById (Review.newId body s);
      OpBookPopulate]).
Proof.
  intros Hv Hc Hl Hh Hfree r s'.
  assert (Hs : Review.validate true (snd (ReviewRoutes.validateReview body)) = []).
  { apply review_chain_passes_schema; [exact Hv| |exact Hh]. rewrite Hc. discriminate. }
  rewrite (post_review_start env now body bid s Hv Hc Hl).
  subst r s'. prog.
  destruct (Book.lookup bid (books s)) as [b|]; [|congruence].
  unfold Review.save. rewrite Hs. prog.
  change (Review.newId (snd (ReviewRoutes.validateReview body)) s)
    with (Review.newId body s).
  cbn [ReviewSchema._id Review.create].
  rewrite (proj2 (review_id_taken _ _) Hfree). prog.
  rewrite run_catch, run_bind, updateBookRating_run. prog.
  cbn [ReviewSchema._id Review.create].
  rewrite recomputed_reviews. cbn [reviews].
  rewrite (review_lookup_appended (Review.newId body s) (reviews s)
             (Review.create (Review.newId body s) now
                (snd (ReviewRoutes.validateReview body))) Hfree eq_refl).
  prog. reflexivity.
Qed.

(** X7: [POST /api/reviews] with a body that passes the validation chain
    and names a book of the collection.  When the body gives a negative
    [helpful], which the chain does not check, the schema refuses the
    review: the answer is 400 and nothing is stored.  When the body gives
    an [_id] that a review has, the store refuses the insertion: 400 too.
    Otherwise the answer is 201 with the new review, populated; the review
    is appended with the [_id] of the body or else a generated one, which
    no review has, with the book, the rating and the trimmed texts of the
    body, and with the [helpful],
    [verified] and [reviewDate] of the body or else 0, false and the time
    of the request; the book's aggregate is recomputed, so its
    numberOfReviews is one more than the number of reviews that referenced
    it; six operations are sent, in this order. *)
Theorem post_review_creates
        (env : Env) (now : N) (body : ReviewBody.t) (bid : ObjectId.t) (s : Store) :
  fst (ReviewRoutes.validateReview body) = [] ->
  ObjectId.cast (field (ReviewBody.book body)) = Some bid ->
  Book.lookup bid (books s) <> None ->
  if match ReviewBody.helpful body with Some h => h <? 0 | None => false end
  then
    run (ReviewRoutes.post_review env now body) s =
      (inr {| status := 400; json := JException (ValidationError ["helpful"]) |}, s,
       [OpBookFindById bid])
  else if match ReviewBody._id body with
          | Some x => existsb (fun r => (ReviewSchema._id r =? x)%N) (reviews s)
          | None => false
          end
  then
    run (ReviewRoutes.post_review env now body) s =
      (inr {| status := 400; json := JException DuplicateKey |}, s,
       [OpBookFindById bid; OpReviewInsert])
  else
    exists r s',
      run (ReviewRoutes.post_review env now body) s =
        (inr {| status := 201; json := JReview (Some (Review.populated s' r)) |}, s',
         [OpBookFindById bid; OpReviewInsert; OpReviewFind (Some bid) None;
          OpBookFindByIdAndUpdate bid; OpReviewFindById (ReviewSchema._id r);
          OpBookPopulate]) /\
      reviews s' = reviews s ++ [r] /\
      Review.lookup (ReviewSchema._id r) (reviews s) = None /\
      (forall x, ReviewBody._id body = Some x -> ReviewSchema._id r = x) /\
      ReviewSchema.book r = bid /\
      Some (ReviewSchema.rating r) = ReviewBody.rating body /\
      Some (ReviewSchema.reviewerName r)
        = option_map Text.trim (ReviewBody.reviewerName body) /\
      Some (ReviewSchema.reviewText r)
        = option_map Text.trim (ReviewBody.reviewText body) /\
      ReviewSchema.helpful r = orDefault (ReviewBody.helpful body) 0 /\
      ReviewSchema.verified r = orDefault (ReviewBody.verified body) false /\
      ReviewSchema.reviewDate r = orDefault (ReviewBody.reviewDate body) now /\
      Review.bookInfo (Review.populated s' r) <> None /\
      (forall b, In b (books s') -> BookSchema._id b = bid ->
         aggregate b = aggregateOf (referencing bid s ++ [r]) /\
         BookSchema.numberOfReviews b
           = Z.of_nat (List.length (referencing bid s)) + 1).
Proof.
  intros Hv Hc Hl.
  set (id := Review.newId body s).
  assert (Hid : existsb (Review.hasId id) (reviews s) =
                match ReviewBody._id body with
                | Some x => existsb (fun r => (ReviewSchema._id r =? x)%N) (reviews s)
                | None => false
                end).
  { unfold id, Review.newId.
    destruct (ReviewBody._id body) as [x|]; cbn [orDefault]; [reflexivity|].
    apply review_id_taken, fresh_review. }
  assert (Hfrom : forall x, ReviewBody._id body = Some x -> id = x).
  { intros x Hx. unfold id, Review.newId. rewrite Hx. reflexivity. }
  rewrite <- Hid. clear Hid.
  assert (Hval : Review.validate true (snd (ReviewRoutes.validateReview body))
                 = Book.check "helpful" (helpfulOk body)).
  { apply review_chain_leaves_helpful; [exact Hv|]. rewrite Hc. discriminate. }
  assert (Hneg : match ReviewBody.helpful body with Some h => h <? 0 | None => false end
                 = negb (helpfulOk body)).
  { unfold helpfulOk. destruct (ReviewBody.helpful body) as [h|]; [|reflexivity].
    rewrite Z.ltb_antisym. reflexivity. }
  rewrite Hneg. destruct (helpfulOk body) eqn:Hh; cbn [negb].
  2:{ (* the schema refuses the review *)
    rewrite (post_review_start env now body bid s Hv Hc Hl). prog.
    destruct (Book.lookup bid (books s)) as [b|]; [|congruence].
    unfold Review.save. rewrite Hval. reflexivity. }
  destruct (existsb (Review.hasId id) (reviews s)) eqn:Hdup.
  { (* the store refuses the insertion *)
    rewrite (post_review_start env now body bid s Hv Hc Hl). prog.
    destruct (Book.lookup bid (books s)) as [b|]; [|congruence].
    unfold Review.save. rewrite Hval. cbn [Book.check]. prog.
    change (Review.newId (snd (ReviewRoutes.validateReview body)) s)
      with (Review.newId body s).
    cbn [ReviewSchema._id Review.create]. fold id. rewrite Hdup. reflexivity. }
  apply review_id_taken in Hdup.
  pose proof (post_review_run env now body bid s Hv Hc Hl Hh Hdup) as Hrun.
  cbv zeta in Hrun. fold id in Hrun.
  set (r := Review.create id now (snd (ReviewRoutes.validateReview body))) in *.
  set (s1 := {| books := books s; reviews := reviews s ++ [r];
                nextId := nextIdAfter s id |}) in *.
  exists r, (recomputed now bid s1).
  destruct (validateReview_ok body Hv)
    as (bk & name & rt & text & Eb & En & Er & Et & _).
  assert (Hbook : ReviewSchema.book r = bid).
  { subst r. apply castBook_cast. exact Hc. }
  split; [exact Hrun|]. split; [reflexivity|]. split; [exact Hdup|].
  split; [exact Hfrom|]. split; [exact Hbook|].
  split.
  { subst r. unfold ReviewRoutes.validateReview.
    cbn [Review.create ReviewSchema.rating snd ReviewBody.rating].
    rewrite Er. reflexivity. }
  split.
  { subst r. unfold ReviewRoutes.validateReview.
    cbn [Review.create ReviewSchema.reviewerName snd ReviewBody.reviewerName].
    rewrite En. cbn [option_map orDefault]. rewrite trim_idempotent. reflexivity. }
  split.
  { subst r. unfold ReviewRoutes.validateReview.
    cbn [Review.create ReviewSchema.reviewText snd ReviewBody.reviewText].
    rewrite Et. cbn [option_map orDefault]. rewrite trim_idempotent. reflexivity. }
  split; [reflexivity|]. split; [reflexivity|]. split; [reflexivity|].
  split.
  { unfold Review.populated. cbn [Review.bookInfo]. rewrite Hbook.
    unfold recomputed. cbn [books]. rewrite lookup_map_id.
    - subst s1. cbn [books].
      destruct (Book.lookup bid (books s)); [discriminate|congruence].
    - intros o. destruct (Book.hasId bid o); reflexivity. }
  intros b Hb Hid.
  pose proof (recomputed_count now bid s1 b Hb Hid) as Hagg.
  assert (Href : referencing bid s1 = referencing bid s ++ [r]).
  { subst s1. rewrite referencing_app. rewrite Hbook, N.eqb_refl. reflexivity. }
  rewrite Href in Hagg. split; [exact Hagg|].
  apply (f_equal snd) in Hagg. cbn [aggregate snd] in Hagg.
  rewrite Hagg, aggregateOf_count, length_app. cbn [List.length]. lia.
Qed.

(** A review of the one book is created; the same body with
    [helpful: -1] is refused by the schema, and with the [_id] of a review
    by the store. *)
Lemma post_review_creates_witness :
  (exists r s',
     resultOf (ReviewRoutes.post_review Sample.env 1%N (Sample.reviewBody Sample.id0 4))
       Sample.oneBook
     = inr {| status := 201; json := JReview (Some (Review.populated s' r)) |} /\
     ReviewSchema._id r = 1%N /\ ReviewSchema.rating r = 4 /\
     ReviewSchema.helpful r = 0) /\
  run (ReviewRoutes.post_review Sample.env 1%N
         (Sample.withHelpful (-1) (Sample.reviewBody Sample.id0 4))) Sample.oneBook
  = (inr {| status := 400; json := JException (ValidationError ["helpful"]) |},
     Sample.oneBook, [OpBookFindById 0%N]) /\
  run (ReviewRoutes.post_review Sample.env 1%N
         (Sample.withReviewId 1%N (Sample.reviewBody Sample.id0 4))) Sample.twoReviews
  = (inr {| status := 400; json := JException DuplicateKey |},
     Sample.twoReviews, [OpBookFindById 0%N; OpReviewInsert]).
Proof.
  assert (Hl : Book.lookup 0%N (books Sample.oneBook) <> None)
    by (vm_compute; discriminate).
  assert (Hl2 : Book.lookup 0%N (books Sample.twoReviews) <> None)
    by (vm_compute; discriminate).
  split; [|split].
  - pose proof (post_review_creates Sample.env 1%N (Sample.reviewBody Sample.id0 4)
                  0%N Sample.oneBook eq_refl eq_refl Hl) as H.
    cbv zeta in H.
    change (match ReviewBody.helpful (Sample.reviewBody Sample.id0 4) with
            | Some h => h <? 0 | None => false end) with false in H.
    cbv iota in H.
    change (match ReviewBody._id (Sample.reviewBody Sample.id0 4) with
            | Some x => existsb (fun r => (ReviewSchema._id r =? x)%N)
                          (reviews Sample.oneBook)
            | None => false end) with false in H.
    cbv iota in H.
    destruct H as (r & s' & Hrun & _ & _ & _ & _ & Hrt & _ & _ & Hh & _).
    exists r, s'. split; [unfold resultOf; rewrite Hrun; reflexivity|].
    split; [|split; [|exact Hh]].
    + pose proof (f_equal (fun x => snd x) Hrun) as Hops. cbn [snd] in Hops.
      vm_compute in Hops. injection Hops as Hid. symmetry. exact Hid.
    + cbn in Hrt. congruence.
  - exact (post_review_creates Sample.env 1%N
             (Sample.withHelpful (-1) (Sample.reviewBody Sample.id0 4))
             0%N Sample.oneBook eq_refl eq_refl Hl).
  - exact (post_review_creates Sample.env 1%N
             (Sample.withReviewId 1%N (Sample.reviewBody Sample.id0 4))
             0%N Sample.twoReviews eq_refl eq_refl Hl2).
Defined.

Lemma review_lookup_removed (oid : ObjectId.t) (l : list ReviewSchema.doc) :
  Review.lookup oid (filter (fun o => negb (Review.hasId oid o)) l) = None.
Proof.
  unfold Review.lookup. apply find_none_iff. intros a Ha.
  apply filter_In in Ha. destruct Ha as [_ Ha].
  apply negb_true_iff. exact Ha.
Qed.

Lemma delete_review_run env now id oid r s :
  ObjectId.cast id = Some oid ->
  Review.lookup oid (reviews s) = Some r ->
  run (ReviewRoutes.delete_review env now id) s =
    (inr {| status := 200; json := JMessage "Review deleted successfully" |},
     recomputed now (ReviewSchema.book r)
       (withReviews s (filter (fun o => negb (Review.hasId oid o)) (reviews s))),
     [OpReviewFindById oid; OpReviewFindByIdAndDelete oid;
      OpReviewFind (Some (ReviewSchema.book r)) None;
      OpBookFindByIdAndUpdate (ReviewSchema.book r)]).
Proof.
  intros Hc Hl. unfold ReviewRoutes.delete_review, castId.
  rewrite (review_validateId_cast _ _ Hc), Hc. prog. rewrite Hl. prog.
  rewrite run_catch, run_bind, updateBookRating_run. prog. reflexivity.
Qed.

(** X8: [DELETE /api/reviews/:id] for a review of the collection: the
    answer is 200, the review is read, deleted, and the aggregate of its
    book recomputed over the reviews that are left, in this order; a
    [GET /api/reviews/:id] for the same id is answered 404 afterwards. *)
Theorem delete_review_then_get
        (env : Env) (now : N) (id : string) (oid : ObjectId.t)
        (r : ReviewSchema.doc) (s : Store) :
  ObjectId.cast id = Some oid ->
  Review.lookup oid (reviews s) = Some r ->
  let s' := storeAfter (ReviewRoutes.delete_review env now id) s in
  resultOf (ReviewRoutes.delete_review env now id) s
    = inr {| status := 200; json := JMessage "Review deleted successfully" |} /\
  opsOf (ReviewRoutes.delete_review env now id) s
    = [OpReviewFindById oid; OpReviewFindByIdAndDelete oid;
       OpReviewFind (Some (ReviewSchema.book r)) None;
       OpBookFindByIdAndUpdate (ReviewSchema.book r)] /\
  reviews s' = filter (fun o => negb (Review.hasId oid o)) (reviews s) /\
  (forall b, In b (books s') -> BookSchema._id b = ReviewSchema.book r ->
     aggregate b = aggregateOf (referencing (ReviewSchema.book r) s')) /\
  run (ReviewRoutes.get_review id) s'
    = (inr {| status := 404; json := JError "Review not found" |}, s',
       [OpReviewFindById oid]).
Proof.
  intros Hc Hl s'. subst s'. unfold storeAfter, resultOf, opsOf.
  rewrite (delete_review_run env now id oid r s Hc Hl). cbn [fst snd].
  set (s1 := withReviews s (filter (fun o => negb (Review.hasId oid o)) (reviews s))).
  assert (Hagg : forall b, In b (books (recomputed now (ReviewSchema.book r) s1)) ->
                   BookSchema._id b = ReviewSchema.book r ->
                   aggregate b = aggregateOf (referencing (ReviewSchema.book r) s1)).
  { intros b Hb Hid. apply (recomputed_count now _ s1 b Hb Hid). }
  split; [reflexivity|]. split; [reflexivity|]. split; [reflexivity|].
  split; [exact Hagg|].
  rewrite (get_review_run id oid _ Hc). rewrite recomputed_reviews.
  subst s1. cbn [reviews withReviews]. rewrite review_lookup_removed. reflexivity.
Qed.

Lemma delete_review_then_get_witness :
  resultOf (ReviewRoutes.get_review "000000000000000000000001")
    (storeAfter (ReviewRoutes.delete_review Sample.env 1%N "000000000000000000000001")
       Sample.twoReviews)
  = inr {| status := 404; json := JError "Review not found" |}.
Proof.
  assert (Hc : ObjectId.cast "000000000000000000000001" = Some 1%N)
    by (vm_compute; reflexivity).
  destruct (Review.lookup 1%N (reviews Sample.twoReviews)) as [r|] eqn:El;
    [|vm_compute in El; discriminate].
  destruct (delete_review_then_get Sample.env 1%N _ 1%N r Sample.twoReviews Hc El)
    as (_ & _ & _ & _ & Hget).
  unfold resultOf. rewrite Hget. reflexivity.
Defined.

(* ================================================================== *)
(** * Creating a book and reading it back *)
(* ================================================================== *)

Lemma post_book_created env now body s d s' ops :
  run (BookRoutes.post_book env now body) s =
    (inr {| status := 201; json := JBook d |}, s', ops) ->
  d = Book.create (Book.newId body s) now (snd (BookRoutes.validateBook env body)) /\
  Book.lookup (BookSchema._id d) (books s) = None /\
  s' = {| books := books s ++ [d]; reviews := reviews s;
          nextId := nextIdAfter s (BookSchema._id d) |} /\
  ops = [OpBookInsert].
Proof.
  unfold BookRoutes.post_book.
  destruct (BookRoutes.validateBook env body) as [errors body'] eqn:EV.
  assert (Eid : Book.newId body' s = Book.newId body s).
  { unfold BookRoutes.validateBook in EV. injection EV as _ <-. reflexivity. }
  destruct errors as [|e errors]; prog; [|discriminate].
  unfold Book.save.
  destruct (Book.validate (currentYear env) true body') as [|e errs];
    [|prog; discriminate].
  prog. rewrite Eid. cbn [snd].
  set (d0 := Book.create (Book.newId body s) now body').
  destruct (existsb (Book.hasId (BookSchema._id d0)) (books s)) eqn:Hid;
    cbn [orb]; [prog; discriminate|].
  destruct (existsb (fun d' => String.eqb (BookSchema.isbn d') (BookSchema.isbn d0))
              (books s)); prog; [discriminate|].
  intros H. injection H as <- <- <-.
  apply book_id_taken in Hid. repeat split. exact Hid.
Qed.

(** X9: a book that [POST /api/books] has answered with 201 is read back
    by [GET /api/books/:id] under the id of the answer, written as
    Mongoose writes it: 200 with the same document, from one lookup. *)
Theorem post_book_then_get
        (env : Env) (now : N) (body : BookBody.t) (s s' : Store)
        (d : BookSchema.doc) (ops : list DbOp) :
  (BookSchema._id d < 16 ^ 24)%N ->
  run (BookRoutes.post_book env now body) s =
    (inr {| status := 201; json := JBook d |}, s', ops) ->
  run (BookRoutes.get_book (ObjectId.toString (BookSchema._id d))) s' =
    (inr {| status := 200; json := JBook d |}, s',
     [OpBookFindById (BookSchema._id d)]).
Proof.
  intros Hlt Hrun.
  apply post_book_created in Hrun. destruct Hrun as (_ & Hfree & -> & _).
  rewrite (get_book_run _ (BookSchema._id d)).
  - cbn [books].
    rewrite (book_lookup_appended (BookSchema._id d) (books s) d Hfree eq_refl).
    reflexivity.
  - apply cast_toString. exact Hlt.
Qed.

Lemma post_book_then_get_witness :
  exists d,
    resultOf (BookRoutes.get_book Sample.id0) Sample.oneBook
    = inr {| status := 200; json := JBook d |} /\
    BookSchema.isbn d = "978-3-16-148410-0".
Proof.
  destruct (run (BookRoutes.post_book Sample.env 1%N Sample.firstBook) emptyStore)
    as [[res s'] ops] eqn:Hrun.
  assert (E : res = inr {| status := 201;
                           json := JBook (Book.create 0%N 1%N
                                            (snd (BookRoutes.validateBook Sample.env
                                                    Sample.firstBook))) |} /\
              s' = Sample.oneBook).
  { vm_compute in Hrun. injection Hrun as <- <- _. split; vm_compute; reflexivity. }
  destruct E as [-> ->].
  assert (Hlt : (BookSchema._id
                   (Book.create 0%N 1%N
                      (snd (BookRoutes.validateBook Sample.env Sample.firstBook)))
                 < 16 ^ 24)%N) by (vm_compute; reflexivity).
  pose proof (post_book_then_get Sample.env 1%N Sample.firstBook emptyStore
                Sample.oneBook _ ops Hlt Hrun) as Hget.
  eexists. split.
  - unfold resultOf.
    change Sample.id0 with
      (ObjectId.toString
         (BookSchema._id
            (Book.create 0%N 1%N
               (snd (BookRoutes.validateBook Sample.env Sample.firstBook))))).
    rewrite Hget. reflexivity.
  - vm_compute. reflexivity.
Defined.

(* ================================================================== *)
(** * Ids that no document holds, and ids that cannot be cast *)
(* ================================================================== *)

(** X10: a well-formed id that no document of the collection holds: the
    routes that read or delete one document answer 404 and leave both
    collections as they are; the routes on reviews do so for a missing
    review, the routes on books for a missing book. *)
Theorem unknown_id_is_not_found
        (env : Env) (now : N) (id : string) (oid : ObjectId.t) (s : Store) :
  ObjectId.cast id = Some oid ->
  (Book.lookup oid (books s) = None ->
   Forall (fun m => notFound "Book not found" m s)
     [BookRoutes.get_book id; BookRoutes.delete_book id;
      BookRoutes.get_book_reviews id]) /\
  (Review.lookup oid (reviews s) = None ->
   Forall (fun m => notFound "Review not found" m s)
     [ReviewRoutes.get_review id; ReviewRoutes.delete_review env now id]).
Proof.
  intros Hc. unfold notFound, resultOf, storeAfter. split; intros Hl.
  - repeat constructor.
    + rewrite (get_book_run _ _ _ Hc), Hl. reflexivity.
    + rewrite (get_book_run _ _ _ Hc). reflexivity.
    + unfold BookRoutes.delete_book, castId.
      rewrite (book_validateId_cast _ _ Hc), Hc. prog. rewrite Hl. reflexivity.
    + unfold BookRoutes.delete_book, castId.
      rewrite (book_validateId_cast _ _ Hc), Hc. prog. rewrite Hl. prog.
      unfold Book.lookup in Hl. rewrite (find_none_filter _ _ Hl). apply store_eta.
    + unfold BookRoutes.get_book_reviews, castId.
      rewrite (book_validateId_cast _ _ Hc), Hc. prog. rewrite Hl. reflexivity.
    + unfold BookRoutes.get_book_reviews, castId.
      rewrite (book_validateId_cast _ _ Hc), Hc. prog. rewrite Hl. reflexivity.
  - repeat constructor.
    + rewrite (get_review_run _ _ _ Hc), Hl. reflexivity.
    + rewrite (get_review_run _ _ _ Hc), Hl. reflexivity.
    + unfold ReviewRoutes.delete_review, castId.
      rewrite (review_validateId_cast _ _ Hc), Hc. prog. rewrite Hl. reflexivity.
    + unfold ReviewRoutes.delete_review, castId.
      rewrite (review_validateId_cast _ _ Hc), Hc. prog. rewrite Hl. reflexivity.
Qed.

Lemma unknown_id_is_not_found_witness :
  notFound "Book not found" (BookRoutes.delete_book "000000000000000000000007")
    Sample.twoReviews.
Proof.
  assert (Hc : ObjectId.cast "000000000000000000000007" = Some 7%N)
    by (vm_compute; reflexivity).
  assert (Hl : Book.lookup 7%N (books Sample.twoReviews) = None)
    by (vm_compute; reflexivity).
  destruct (unknown_id_is_not_found Sample.env 1%N _ 7%N Sample.twoReviews Hc)
    as [Hb _].
  specialize (Hb Hl). inversion Hb as [|? ? _ Hrest]. inversion Hrest. assumption.
Defined.

(** X11: an id that the validator [isMongoId] accepts and Mongoose cannot
    cast (the validator lets a hexadecimal number start with 0x): the
    request passes the validation, the model throws a CastError before any
    operation is sent, and the route's [catch] answers 500, with the
    collections as they were. *)
Theorem uncastable_id_is_a_server_error
        (env : Env) (now : N) (id : string) (s : Store) :
  ObjectId.isMongoId id = true -> ObjectId.cast id = None ->
  Forall (fun m => castFailure 500 m s)
    [BookRoutes.get_book id; BookRoutes.delete_book id;
     BookRoutes.get_book_reviews id; ReviewRoutes.get_review id;
     ReviewRoutes.delete_review env now id; ReviewRoutes.patch_helpful now id].
Proof.
  intros Hv Hc. unfold castFailure.
  repeat constructor;
    unfold BookRoutes.get_book, BookRoutes.delete_book, BookRoutes.get_book_reviews,
      ReviewRoutes.get_review, ReviewRoutes.delete_review, ReviewRoutes.patch_helpful,
      BookRoutes.validateId, ReviewRoutes.validateId, castId;
    rewrite Hv, Hc; reflexivity.
Qed.

Lemma uncastable_id_is_a_server_error_witness :
  castFailure 500 (BookRoutes.get_book "0x0000000000000000000000") Sample.oneBook.
Proof.
  assert (Hv : ObjectId.isMongoId "0x0000000000000000000000" = true)
    by (vm_compute; reflexivity).
  assert (Hc : ObjectId.cast "0x0000000000000000000000" = None)
    by (vm_compute; reflexivity).
  pose proof (uncastable_id_is_a_server_error Sample.env 1%N _ Sample.oneBook Hv Hc)
    as H.
  inversion H. assumption.
Defined.

(* ================================================================== *)
(** * What an update of a book leaves alone *)
(* ================================================================== *)

(** X12: [PUT /api/books/:id] adds no book and removes none, changes no id,
    and touches neither the reviews nor the id counter, whatever the id,
    the body and the answer. *)
Theorem put_book_keeps_the_collections
        (env : Env) (now : N) (id : string) (body : BookBody.t) (s : Store) :
  let s' := storeAfter (BookRoutes.put_book env now id body) s in
  map BookSchema._id (books s') = map BookSchema._id (books s) /\
  reviews s' = reviews s /\ nextId s' = nextId s.
Proof.
  cbv zeta. destruct (put_book_store env now id body s)
    as [->|(oid & d & _ & _ & _ & ->)].
  - repeat split.
  - cbn [withBooks books reviews nextId]. split; [|split; reflexivity].
    rewrite map_map. apply map_ext. intros o.
    destruct (Book.hasId oid o); reflexivity.
Qed.

(* ================================================================== *)
(** * A filter that is not a regular expression *)
(* ================================================================== *)

(** X13: [GET /api/books] with an [author] or [search] filter that
    [RegExp] refuses: the SyntaxError is thrown inside the [try], so the
    answer is 500; no operation has been sent. *)
Theorem get_books_bad_pattern (env : Env) (q : BookRoutes.Query) (s : Store) :
  queryFilter env q = None ->
  run (BookRoutes.get_books env q) s =
    (inr {| status := 500; json := JException SyntaxError |}, s, []).
Proof.
  unfold queryFilter, compilePattern, BookRoutes.get_books, BookRoutes.regexOn.
  destruct (truthy (BookRoutes.author q)) as [p|]; cbn [option_map].
  - destruct (RegExp_i env p); cbn [option_map]; [|reflexivity].
    destruct (truthy (BookRoutes.search q)) as [p'|]; [|discriminate].
    destruct (RegExp_i env p'); cbn [option_map]; [discriminate|reflexivity].
  - destruct (truthy (BookRoutes.search q)) as [p'|]; [|discriminate].
    destruct (RegExp_i env p'); cbn [option_map]; [discriminate|reflexivity].
Qed.

Lemma get_books_bad_pattern_witness :
  resultOf
    (BookRoutes.get_books {| currentYear := 2024; RegExp_i := fun _ => None |}
       {| BookRoutes.genre := None; BookRoutes.author := Some "(";
          BookRoutes.search := None; BookRoutes.page := None;
          BookRoutes.limit := None; BookRoutes.sortBy := None;
          BookRoutes.order := None |})
    Sample.oneBook
  = inr {| status := 500; json := JException SyntaxError |}.
Proof.
  unfold resultOf. rewrite get_books_bad_pattern; reflexivity.
Defined.

(* ================================================================== *)
(** * What holds of the collections after any requests *)
(* ================================================================== *)

Lemma nonempty_len (s : string) : Text.isEmpty s = false -> 1 <= Text.len s.
Proof. destruct s; [discriminate|]. intros _. unfold Text.len. cbn. lia. Qed.

Lemma validate_book_ok (year : Z) (required : bool) (b : BookBody.t) :
  Book.validate year required b = [] ->
  Book.okOptional (Book.okString 200) required (BookBody.title b) = true /\
  Book.okOptional (Book.okString 100) required (BookBody.author b) = true /\
  Book.okOptional
    (fun s => negb (Text.isEmpty (Text.trim s)) && Regex.test Regex.isbn (Text.trim s))
    required (BookBody.isbn b) = true /\
  Book.okOptional (Book.inRange 1000 year) required (BookBody.publicationYear b) = true /\
  Book.okOptional (fun s => existsb (String.eqb (Text.trim s)) BookSchema.genres)
    required (BookBody.genre b) = true /\
  Book.okOptional (fun n => 0 <=? n) false (BookBody.numberOfReviews b) = true.
Proof.
  unfold Book.validate. intros H.
  repeat (apply app_eq_nil in H; destruct H as [?H H]).
  repeat match goal with
         | H : Book.check _ _ = [] |- _ => apply check_nil in H
         end.
  repeat split; assumption.
Qed.

Lemma okString_bounds (maxlen : Z) (s : string) :
  Book.okString maxlen s = true -> 1 <= Text.len (Text.trim s) <= maxlen.
Proof.
  unfold Book.okString. intros H. apply andb_prop in H. destruct H as [H1 H2].
  apply negb_true_iff, nonempty_len in H1. apply Z.leb_le in H2. lia.
Qed.

Lemma genre_listed (s : string) :
  existsb (String.eqb s) BookSchema.genres = true -> In s BookSchema.genres.
Proof.
  intros H. apply existsb_exists in H. destruct H as (g & Hg & E).
  apply String.eqb_eq in E. subst g. exact Hg.
Qed.

Lemma inRange_bounds (lo hi z : Z) : Book.inRange lo hi z = true -> lo <= z <= hi.
Proof. unfold Book.inRange. intros H. apply andb_prop in H. lia. Qed.

Lemma schemaBook_create (env : Env) (id : ObjectId.t) (now : N) (b : BookBody.t) :
  Book.validate (currentYear env) true b = [] ->
  schemaBook env (Book.create id now b).
Proof.
  intros H. apply validate_book_ok in H.
  destruct H as (Ht & Ha & Hi & Hy & Hg & Hn).
  destruct b as [bi t a i y g de pu pa la av nr].
  cbn [BookBody.title BookBody.author BookBody.isbn BookBody.publicationYear
       BookBody.genre BookBody.numberOfReviews] in *.
  destruct t as [t|]; [|discriminate]. destruct a as [a|]; [|discriminate].
  destruct i as [i|]; [|discriminate]. destruct y as [y|]; [|discriminate].
  destruct g as [g|]; [|discriminate].
  cbn [Book.okOptional] in *.
  unfold schemaBook, Book.create.
  cbn [BookSchema.title BookSchema.author BookSchema.isbn BookSchema.publicationYear
       BookSchema.genre BookSchema.numberOfReviews BookBody.title BookBody.author
       BookBody.isbn BookBody.publicationYear BookBody.genre BookBody.numberOfReviews
       orDefault].
  apply okString_bounds in Ht, Ha. apply andb_prop in Hi. destruct Hi as [_ Hi].
  apply inRange_bounds in Hy. apply genre_listed in Hg.
  repeat split; try assumption; try lia.
  destruct nr as [n|]; cbn [orDefault]; [apply Z.leb_le; exact Hn|lia].
Qed.

Lemma schemaBook_update (env : Env) (now : N) (b : BookBody.t) (d : BookSchema.doc) :
  Book.validate (currentYear env) false b = [] ->
  schemaBook env d -> schemaBook env (Book.update now b d).
Proof.
  intros H (Dt & Da & Di & Dy & Dg & Dn). apply validate_book_ok in H.
  destruct H as (Ht & Ha & Hi & Hy & Hg & Hn).
  destruct b as [bi t a i y g de pu pa la av nr].
  cbn [BookBody.title BookBody.author BookBody.isbn BookBody.publicationYear
       BookBody.genre BookBody.numberOfReviews] in *.
  unfold schemaBook, Book.update.
  cbn [BookSchema.title BookSchema.author BookSchema.isbn BookSchema.publicationYear
       BookSchema.genre BookSchema.numberOfReviews BookBody.title BookBody.author
       BookBody.isbn BookBody.publicationYear BookBody.genre BookBody.numberOfReviews].
  split; [|split; [|split; [|split; [|split]]]].
  - destruct t as [t|]; cbn [option_map orDefault Book.okOptional] in *;
      [apply okString_bounds in Ht; lia|exact Dt].
  - destruct a as [a|]; cbn [option_map orDefault Book.okOptional] in *;
      [apply okString_bounds in Ha; lia|exact Da].
  - destruct i as [i|]; cbn [option_map orDefault Book.okOptional] in *;
      [apply andb_prop in Hi; tauto|exact Di].
  - destruct y as [y|]; cbn [orDefault Book.okOptional] in *;
      [apply inRange_bounds in Hy; lia|exact Dy].
  - destruct g as [g|]; cbn [option_map orDefault Book.okOptional] in *;
      [apply genre_listed; exact Hg|exact Dg].
  - destruct nr as [n|]; cbn [orDefault Book.okOptional] in *;
      [apply Z.leb_le; exact Hn|exact Dn].
Qed.

Lemma schemaBook_rating (env : Env) (now : N) (a : Number) (n : Z)
      (d : BookSchema.doc) :
  0 <= n -> schemaBook env d ->
  schemaBook env (Book.update now (ReviewRoutes.ratingUpdate a n) d).
Proof.
  intros Hn (Dt & Da & Di & Dy & Dg & Dn).
  split; [exact Dt|]. split; [exact Da|]. split; [exact Di|].
  split; [exact Dy|]. split; [exact Dg|exact Hn].
Qed.

(** ** One book for an id, one book for an ISBN *)

Lemma distinctBooks_same_books (s s' : Store) :
  books s' = books s -> distinctBooks s -> distinctBooks s'.
Proof. unfold distinctBooks. intros ->. tauto. Qed.

Lemma distinctBooks_map (g : BookSchema.doc -> BookSchema.doc) s s' :
  books s' = map g (books s) ->
  (forall o, BookSchema._id (g o) = BookSchema._id o) ->
  (forall o, BookSchema.isbn (g o) = BookSchema.isbn o) ->
  distinctBooks s -> distinctBooks s'.
Proof.
  unfold distinctBooks. intros -> Hid Hisbn [H1 H2].
  rewrite !map_map.
  rewrite (map_ext _ BookSchema._id) by exact Hid.
  rewrite (map_ext _ BookSchema.isbn) by exact Hisbn. tauto.
Qed.

Lemma distinctBooks_recomputed now bid s :
  distinctBooks s -> distinctBooks (recomputed now bid s).
Proof.
  apply (distinctBooks_map
           (fun o => if Book.hasId bid o
                     then Book.update now
                            (ReviewRoutes.ratingUpdate
                               (fst (aggregateOf (referencing bid s)))
                               (snd (aggregateOf (referencing bid s)))) o
                     else o)).
  - reflexivity.
  - intros o. destruct (Book.hasId bid o); reflexivity.
  - intros o. destruct (Book.hasId bid o); reflexivity.
Qed.

Lemma distinctBooks_post_book (d : BookSchema.doc) s n :
  distinctBooks s ->
  Book.lookup (BookSchema._id d) (books s) = None ->
  existsb (fun d' => String.eqb (BookSchema.isbn d') (BookSchema.isbn d)) (books s)
    = false ->
  distinctBooks {| books := books s ++ [d]; reviews := reviews s;
                   nextId := n |}.
Proof.
  intros [H1 H2] Hfree Hex. unfold distinctBooks. cbn [books].
  rewrite !map_app. cbn [map]. split.
  - apply NoDup_app; [exact H1|repeat constructor; intros []|].
    intros x Hx [<-|[]]. exact (book_id_free _ _ Hfree Hx).
  - apply NoDup_app; [exact H2|repeat constructor; intros []|].
    intros x Hx [<-|[]]. apply in_map_iff in Hx. destruct Hx as (y & E & Hy).
    pose proof (existsb_exists
                  (fun d' => String.eqb (BookSchema.isbn d') (BookSchema.isbn d))
                  (books s)) as [_ Hy'].
    rewrite Hy' in Hex; [discriminate|].
    exists y. split; [exact Hy|]. apply String.eqb_eq. exact E.
Qed.

Lemma isbn_update_distinct (oid : ObjectId.t) (isbn' : string)
      (g : BookSchema.doc -> BookSchema.doc) (l : list BookSchema.doc) :
  NoDup (map BookSchema._id l) -> NoDup (map BookSchema.isbn l) ->
  (forall o, In o l -> BookSchema._id o <> oid -> BookSchema.isbn o <> isbn') ->
  (forall o, BookSchema._id o = oid -> BookSchema.isbn (g o) = isbn') ->
  (forall o, BookSchema._id o <> oid -> g o = o) ->
  NoDup (map BookSchema.isbn (map g l)).
Proof.
  intros Hid Hisbn Hother Hhit Hmiss.
  induction l as [|a l IH]; cbn [map]; [constructor|].
  cbn [map] in Hid, Hisbn.
  apply NoDup_cons_iff in Hid, Hisbn.
  destruct Hid as [Ha Hid], Hisbn as [Hai Hisbn].
  assert (IH' : NoDup (map BookSchema.isbn (map g l))).
  { apply IH; try assumption. intros o Ho. apply Hother. right. exact Ho. }
  apply NoDup_cons_iff. split; [|exact IH'].
  intros Hin. apply in_map_iff in Hin. destruct Hin as (x & E & Hx).
  apply in_map_iff in Hx. destruct Hx as (o & <- & Ho).
  destruct (N.eq_dec (BookSchema._id a) oid) as [Ea|Na];
    destruct (N.eq_dec (BookSchema._id o) oid) as [Eo|No].
  - apply Ha. apply in_map_iff. exists o. split; [congruence|exact Ho].
  - rewrite (Hmiss o No), (Hhit a Ea) in E.
    apply (Hother o (or_intror Ho) No). exact E.
  - rewrite (Hhit o Eo), (Hmiss a Na) in E.
    apply (Hother a (or_introl eq_refl) Na). symmetry. exact E.
  - rewrite (Hmiss o No), (Hmiss a Na) in E.
    apply Hai. apply in_map_iff. exists o. split; [exact E|exact Ho].
Qed.

Lemma distinctBooks_put_book now oid body' d s :
  distinctBooks s ->
  Book.lookup oid (books s) = Some d ->
  match BookBody.isbn body' with
  | Some _ =>
      existsb (fun o => negb (Book.hasId oid o) &&
                        String.eqb (BookSchema.isbn o)
                          (BookSchema.isbn (Book.update now body' d)))
        (books s)
  | None => false
  end = false ->
  distinctBooks
    (withBooks s
       (map (fun o => if Book.hasId oid o then Book.update now body' o else o)
          (books s))).
Proof.
  intros [H1 H2] EL EX.
  set (g := fun o => if Book.hasId oid o then Book.update now body' o else o).
  assert (Hid : forall o, BookSchema._id (g o) = BookSchema._id o)
    by (intros o; unfold g; destruct (Book.hasId oid o); reflexivity).
  unfold distinctBooks, withBooks. cbn [books]. split.
  { rewrite map_map. rewrite (map_ext _ BookSchema._id) by exact Hid. exact H1. }
  destruct (BookBody.isbn body') as [i|] eqn:Ei.
  - apply (isbn_update_distinct oid (Text.trim i)); try assumption.
    + intros o Ho Hne E.
      pose proof (existsb_exists
                    (fun o => negb (Book.hasId oid o) &&
                              String.eqb (BookSchema.isbn o)
                                (BookSchema.isbn (Book.update now body' d)))
                    (books s)) as [_ Hy].
      rewrite Hy in EX; [discriminate|]. exists o. split; [exact Ho|].
      apply andb_true_intro. split.
      * apply negb_true_iff. unfold Book.hasId. apply N.eqb_neq. exact Hne.
      * apply String.eqb_eq. cbn [Book.update BookSchema.isbn].
        rewrite Ei. exact E.
    + intros o Ho. unfold g, Book.hasId. rewrite Ho, N.eqb_refl.
      cbn [Book.update BookSchema.isbn]. rewrite Ei. reflexivity.
    + intros o Ho. unfold g, Book.hasId.
      destruct (N.eqb_spec (BookSchema._id o) oid); [contradiction|reflexivity].
  - rewrite map_map. rewrite (map_ext _ BookSchema.isbn); [exact H2|].
    intros o. unfold g. destruct (Book.hasId oid o); [|reflexivity].
    cbn [Book.update BookSchema.isbn]. rewrite Ei. reflexivity.
Qed.

(** ** Documents that the schemas accept *)

Lemma schemaBooks_recomputed env now bid s :
  Forall (schemaBook env) (books s) ->
  Forall (schemaBook env) (books (recomputed now bid s)).
Proof.
  intros H. unfold recomputed. cbn [books]. apply Forall_map.
  eapply Forall_impl; [|exact H]. intros o Ho.
  destruct (Book.hasId bid o); [|exact Ho].
  apply schemaBook_rating; [|exact Ho].
  rewrite aggregateOf_count. lia.
Qed.

Lemma schemaReview_create (now : N) (id : ObjectId.t) (body : ReviewBody.t) :
  fst (ReviewRoutes.validateReview body) = [] ->
  helpfulOk body = true ->
  schemaReview (Review.create id now (snd (ReviewRoutes.validateReview body))).
Proof.
  intros Hv Hh.
  destruct (validateReview_ok body Hv)
    as (bk & name & rt & text & Eb & En & Er & Et & _ & Hn & Hr & Ht).
  unfold schemaReview, ReviewRoutes.validateReview.
  cbn [Review.create ReviewSchema.rating ReviewSchema.reviewerName
       ReviewSchema.reviewText ReviewSchema.helpful snd ReviewBody.rating
       ReviewBody.reviewerName ReviewBody.reviewText ReviewBody.helpful].
  rewrite En, Er, Et. cbn [option_map orDefault].
  rewrite !trim_idempotent.
  unfold helpfulOk in Hh.
  destruct (ReviewBody.helpful body) as [h|]; cbn [orDefault];
    [apply Z.leb_le in Hh|]; lia.
Qed.

Lemma schemaReview_update (now : N) (body : ReviewBody.t) (o : ReviewSchema.doc) :
  fst (ReviewRoutes.validateReview body) = [] ->
  helpfulOk body = true ->
  schemaReview o ->
  schemaReview
    (Review.update now (Review.SetBody (snd (ReviewRoutes.validateReview body))) o).
Proof.
  intros Hv Hh (_ & _ & _ & Ho).
  destruct (validateReview_ok body Hv)
    as (bk & name & rt & text & Eb & En & Er & Et & _ & Hn & Hr & Ht).
  unfold schemaReview, ReviewRoutes.validateReview.
  cbn [Review.update ReviewSchema.rating ReviewSchema.reviewerName
       ReviewSchema.reviewText ReviewSchema.helpful snd ReviewBody.rating
       ReviewBody.reviewerName ReviewBody.reviewText ReviewBody.helpful].
  rewrite En, Er, Et. cbn [option_map orDefault].
  rewrite !trim_idempotent.
  unfold helpfulOk in Hh.
  destruct (ReviewBody.helpful body) as [h|]; cbn [orDefault];
    [apply Z.leb_le in Hh|]; lia.
Qed.

Lemma Forall_kept {A} (P : A -> Prop) (keep : A -> bool) (l : list A) :
  Forall P l -> Forall P (filter keep l).
Proof.
  rewrite !Forall_forall. intros H x Hx. apply filter_In in Hx. apply H. tauto.
Qed.

(** ** Every request keeps them *)

Lemma handler_preserves_sound env now r s :
  sound env s -> sound env (storeAfter (handler env now r) s).
Proof.
  intros Hs. pose proof Hs as (Hwf & Hd & Hbs & Hrs).
  destruct r as [body|id body|id|body|id body|id|id]; cbn [handler].
  - (* POST /api/books *)
    destruct (post_book_store env now body s) as [->|(Hval & Hfree & Hex & ->)];
      [exact Hs|].
    split; [apply wellFormed_post_book; [exact Hwf|exact Hfree]|].
    split; [apply distinctBooks_post_book; [exact Hd|exact Hfree|exact Hex]|].
    cbn [books reviews]. split; [|exact Hrs].
    apply Forall_app. split; [exact Hbs|].
    constructor; [|constructor]. apply schemaBook_create. exact Hval.
  - (* PUT /api/books/:id *)
    destruct (put_book_store env now id body s)
      as [->|(oid & d & Hval & EL & EX & ->)]; [exact Hs|].
    split.
    { apply (wellFormed_book_update _ s Hwf).
      intros o. destruct (Book.hasId oid o); reflexivity. }
    split; [apply (distinctBooks_put_book now oid _ d s Hd EL EX)|].
    cbn [withBooks books reviews]. split; [|exact Hrs].
    apply Forall_map. eapply Forall_impl; [|exact Hbs]. intros o Ho.
    destruct (Book.hasId oid o); [|exact Ho].
    apply schemaBook_update; assumption.
  - (* DELETE /api/books/:id *)
    destruct (delete_book_store id s) as [->|(oid & _ & ->)]; [exact Hs|].
    split; [apply wellFormed_delete_book; exact Hwf|].
    split.
    { destruct Hd as [H1 H2]. split; cbn [books]; apply kept_books_distinct;
        assumption. }
    cbn [books reviews]. split; apply Forall_kept; assumption.
  - (* POST /api/reviews *)
    destruct (post_review_store env now body s)
      as [->|(body' & bid & EV & EC & EL & Hfree & EVal & ->)]; [exact Hs|].
    assert (Hv : fst (ReviewRoutes.validateReview body) = []) by (rewrite EV; reflexivity).
    assert (Eb : body' = snd (ReviewRoutes.validateReview body))
      by (rewrite EV; reflexivity).
    assert (Hh : helpfulOk body = true).
    { apply review_validate_helpful in EVal. rewrite Eb in EVal. exact EVal. }
    split; [apply wellFormed_post_review; assumption|].
    split; [apply distinctBooks_recomputed; exact Hd|].
    split; [apply schemaBooks_recomputed; exact Hbs|].
    rewrite recomputed_reviews. cbn [reviews].
    apply Forall_app. split; [exact Hrs|].
    constructor; [|constructor]. rewrite Eb. apply schemaReview_create; assumption.
  - (* PUT /api/reviews/:id *)
    destruct (put_review_store env now id body s)
      as [->|(body' & bid & oid & old & EV & EC & EL & EI & ER & EVal & ->)]; [exact Hs|].
    assert (Hv : fst (ReviewRoutes.validateReview body) = []) by (rewrite EV; reflexivity).
    assert (Eb : body' = snd (ReviewRoutes.validateReview body))
      by (rewrite EV; reflexivity).
    assert (Hh : helpfulOk body = true).
    { apply review_validate_helpful in EVal. rewrite Eb in EVal. exact EVal. }
    cbv zeta.
    set (g := fun o => if Review.hasId oid o
                       then Review.update now (Review.SetBody body') o else o).
    set (s1 := withReviews s (map g (reviews s))).
    assert (Hs1 : sound env s1).
    { split.
      { apply (wellFormed_review_update g s Hwf).
        - intros o. unfold g. destruct (Review.hasId oid o); reflexivity.
        - intros o Ho. unfold g. destruct (Review.hasId oid o).
          + cbn [Review.update ReviewSchema.book].
            rewrite (castBook_cast _ bid _ EC).
            split; [eapply cast_bound; exact EC|exact EL].
          + destruct Hwf as (_ & _ & Href). apply Href. exact Ho. }
      split; [exact Hd|]. split; [exact Hbs|].
      unfold s1. cbn [withReviews reviews]. apply Forall_map.
      eapply Forall_impl; [|exact Hrs]. intros o Ho. unfold g.
      destruct (Review.hasId oid o); [|exact Ho].
      rewrite Eb. apply schemaReview_update; assumption. }
    assert (Hrec : forall x t, sound env t -> sound env (recomputed now x t)).
    { intros x t (T1 & T2 & T3 & T4).
      split; [apply recomputed_wellFormed; exact T1|].
      split; [apply distinctBooks_recomputed; exact T2|].
      split; [apply schemaBooks_recomputed; exact T3|exact T4]. }
    destruct (negb _); repeat apply Hrec; exact Hs1.
  - (* DELETE /api/reviews/:id *)
    destruct (delete_review_store env now id s) as [->|(oid & r & EC & EL & ->)];
      [exact Hs|].
    split; [apply wellFormed_delete_review; exact Hwf|].
    split; [apply distinctBooks_recomputed; exact Hd|].
    split; [apply schemaBooks_recomputed; exact Hbs|].
    rewrite recomputed_reviews. cbn [withReviews reviews].
    apply Forall_kept. exact Hrs.
  - (* PATCH /api/reviews/:id/helpful *)
    destruct (patch_helpful_store now id s) as [->|(oid & EC & ->)]; [exact Hs|].
    split.
    { apply (wellFormed_review_update _ s Hwf).
      - intros o. destruct (Review.hasId oid o); reflexivity.
      - intros o Ho. destruct Hwf as (_ & _ & Href).
        destruct (Review.hasId oid o); [cbn [Review.update ReviewSchema.book]|];
          apply Href; exact Ho. }
    split; [exact Hd|]. split; [exact Hbs|].
    cbn [withReviews reviews]. apply Forall_map.
    eapply Forall_impl; [|exact Hrs]. intros o Ho.
    destruct (Review.hasId oid o); [|exact Ho].
    destruct Ho as (H1 & H2 & H3 & H4).
    repeat split; try assumption; try apply H1; try apply H2; try apply H3.
    cbn [Review.update ReviewSchema.helpful]. lia.
Qed.

Lemma sound_empty env : sound env emptyStore.
Proof.
  split; [|split; [|split]].
  - repeat split; cbn; try contradiction; constructor.
  - split; constructor.
  - constructor.
  - constructor.
Qed.

Lemma reachable_sound env s : reachable env s -> sound env s.
Proof.
  induction 1 as [|s now r _ IH _]; [apply sound_empty|].
  apply handler_preserves_sound. exact IH.
Qed.

Lemma reachable_after (requests : list Request) (s : Store) :
  reachable Sample.env s -> reachable Sample.env (Sample.after requests s).
Proof.
  revert s. induction requests as [|r l IH]; intros s Hs; [exact Hs|].
  unfold Sample.after. cbn [fold_left]. apply IH.
  apply reachableWith_step; [exact Hs|reflexivity].
Qed.

Lemma reachable_twoReviews : reachable Sample.env Sample.twoReviews.
Proof. apply reachable_after, reachable_after. apply reachableWith_empty. Qed.

Lemma reachable_secondShelf : reachable Sample.env Sample.secondShelf.
Proof. apply reachable_after. exact reachable_twoReviews. Qed.

(** X14: referential integrity.  At every state reached by handling
    requests one after another, whatever they are, every review
    references a book of the collection: a review is created or moved
    only after its book has been found, and a book is deleted together
    with its reviews. *)
Theorem reachable_references_hold (env : Env) (s : Store) :
  reachable env s -> referencesHold s.
Proof.
  intros H. apply reachable_sound in H. destruct H as ((_ & _ & Href) & _).
  intros r Hr. apply Href. exact Hr.
Qed.

Lemma reachable_references_hold_witness : referencesHold Sample.twoReviews.
Proof. exact (reachable_references_hold Sample.env _ reachable_twoReviews). Defined.

(** X15: at every such state one book holds an id and one book holds an
    ISBN: the routes never change an id, and the unique index refuses an
    insertion or an update that would give two books the same ISBN. *)
Theorem reachable_books_distinct (env : Env) (s : Store) :
  reachable env s -> distinctBooks s.
Proof. intros H. apply reachable_sound in H. destruct H as (_ & H & _). exact H. Qed.

(** The second shelf has two books, with the ids 0 and 10 and with two
    ISBNs. *)
Lemma reachable_books_distinct_witness :
  distinctBooks Sample.secondShelf /\
  map BookSchema._id (books Sample.secondShelf) = [0; 10]%N /\
  map BookSchema.isbn (books Sample.secondShelf)
  = ["978-3-16-148410-0"; "0-306-40615-2"].
Proof.
  split; [exact (reachable_books_distinct Sample.env _ reachable_secondShelf)|].
  split; vm_compute; reflexivity.
Defined.

(** X16: at every such state every stored book satisfies the validators
    of [bookSchema] on its required paths: title and author within their
    lengths, an ISBN that the regular expression accepts, a publication
    year from 1000 to the current year, a genre of the list; and
    [numberOfReviews] is not negative, also after a recomputation, which
    runs no validator. *)
Theorem reachable_books_valid (env : Env) (s : Store) :
  reachable env s -> Forall (schemaBook env) (books s).
Proof.
  intros H. apply reachable_sound in H. destruct H as (_ & _ & H & _). exact H.
Qed.

Lemma reachable_books_valid_witness :
  Forall (schemaBook Sample.env) (books Sample.twoReviews).
Proof. exact (reachable_books_valid Sample.env _ reachable_twoReviews). Defined.

(** X17: at every such state every stored review has a rating from 1 to 5,
    a reviewer name of 2 to 100 characters, a text of 10 to 2000
    characters and a [helpful] count that is not negative, as
    [reviewSchema] asks. *)
Theorem reachable_reviews_valid (env : Env) (s : Store) :
  reachable env s -> Forall schemaReview (reviews s).
Proof.
  intros H. apply reachable_sound in H. destruct H as (_ & _ & _ & H). exact H.
Qed.

Lemma reachable_reviews_valid_witness : Forall schemaReview (reviews Sample.twoReviews).
Proof. exact (reachable_reviews_valid Sample.env _ reachable_twoReviews). Defined.

(* ================================================================== *)
(** * Moving a review to another book *)
(* ================================================================== *)

(** The update of a review, up to the update of the store. *)
Lemma put_review_start env now id body bid oid old s :
  fst (ReviewRoutes.validateReview body) = [] ->
  ObjectId.cast (field (ReviewBody.book body)) = Some bid ->
  Book.lookup bid (books s) <> None ->
  ObjectId.cast id = Some oid ->
  Review.lookup oid (reviews s) = Some old ->
  let body' := snd (ReviewRoutes.validateReview body) in
  run (ReviewRoutes.put_review env now id body) s =
  (let '(res, s', ops) :=
     run (catch
            (updated <- Review.findByIdAndUpdate now oid (Review.SetBody body') true ;;
             review <- Review.populateOpt updated ;;
             ReviewRoutes.updateBookRating env now (ReviewSchema.book old) ;;;
             (if negb (String.eqb (ObjectId.toString (ReviewSchema.book old))
                         (field (ReviewBody.book body)))
              then ReviewRoutes.updateBookRating env now bid
              else ret tt) ;;;
             respond 200 (JReview review))
            (fun error => respond 400 (JException error))) s in
   (res, s', OpBookFindById bid :: OpReviewFindById oid :: ops)).
Proof.
  intros Hv EC EL EI ER. cbv zeta.
  unfold ReviewRoutes.put_review.
  destruct (ReviewRoutes.validateReview body) as [errors body'] eqn:EV.
  cbn [fst snd] in *. subst errors.
  assert (Hb : ReviewBody.book body' = ReviewBody.book body).
  { unfold ReviewRoutes.validateReview in EV. injection EV as _ <-. reflexivity. }
  rewrite (review_validateId_cast _ _ EI). cbn [app handleValidationErrors].
  unfold castId. rewrite Hb, EC. prog.
  destruct (Book.lookup bid (books s)) as [b|]; [|congruence].
  rewrite EI. prog. rewrite ER.
  match goal with
  | |- (let (p, t) := (let (p', t') := ?X in _) in _) = _ =>
      destruct X as [[res s'] ops]
  end.
  reflexivity.
Qed.

Lemma put_review_run env now id body bid oid old s :
  fst (ReviewRoutes.validateReview body) = [] ->
  ObjectId.cast (field (ReviewBody.book body)) = Some bid ->
  Book.lookup bid (books s) <> None ->
  ObjectId.cast id = Some oid ->
  Review.lookup oid (reviews s) = Some old ->
  helpfulOk body = true ->
  Review.changesId (Review.SetBody body) oid = false ->
  let body' := snd (ReviewRoutes.validateReview body) in
  let s1 :=
    withReviews s
      (map (fun o => if Review.hasId oid o
                     then Review.update now (Review.SetBody body') o else o)
         (reviews s)) in
  let changed :=
    negb (String.eqb (ObjectId.toString (ReviewSchema.book old))
            (field (ReviewBody.book body))) in
  fst (run (ReviewRoutes.put_review env now id body) s) =
    (inr {| status := 200;
            json := JReview
                      (Some (Review.populated s1
                               (Review.update now (Review.SetBody body') old))) |},
     if changed
     then recomputed now bid (recomputed now (ReviewSchema.book old) s1)
     else recomputed now (ReviewSchema.book old) s1).
Proof.
  intros Hv EC EL EI ER Hh Hid. cbv zeta.
  assert (Hs : Review.validate false (snd (ReviewRoutes.validateReview body)) = []).
  { apply review_chain_passes_schema; [exact Hv| |exact Hh]. rewrite EC. discriminate. }
  pose proof (put_review_start env now id body bid oid old s Hv EC EL EI ER) as Hrun.
  cbv zeta in Hrun. rewrite Hrun. clear Hrun.
  unfold Review.findByIdAndUpdate. rewrite Hs. prog. rewrite ER.
  change (Review.changesId (Review.SetBody (snd (ReviewRoutes.validateReview body))) oid)
    with (Review.changesId (Review.SetBody body) oid).
  rewrite Hid. prog.
  rewrite run_catch, run_bind, updateBookRating_run.
  destruct (negb (String.eqb (ObjectId.toString (ReviewSchema.book old))
                    (field (ReviewBody.book body)))).
  - rewrite run_bind, updateBookRating_run. prog. reflexivity.
  - prog. reflexivity.
Qed.

(** X18: [PUT /api/reviews/:id] with a body that passes the validation
    chain, for a review and a book of the collection.  When the body gives
    a negative [helpful], which the chain does not check, the update
    validators refuse it: the answer is 400, after the two look-ups, and
    nothing changes.  When the body gives an [_id] that is not the one of
    the review, the store refuses the update: 400 too.  Otherwise the
    answer is 200 with the updated review, which now references the book
    of the body; afterwards the book that the review referenced before and
    the book that it references now both carry the aggregate of the
    reviews that reference them, whether the two are the same book or
    not. *)
Theorem put_review_recomputes_both
        (env : Env) (now : N) (id : string) (body : ReviewBody.t)
        (bid oid : ObjectId.t) (old : ReviewSchema.doc) (s : Store) :
  wellFormed s ->
  fst (ReviewRoutes.validateReview body) = [] ->
  ObjectId.cast (field (ReviewBody.book body)) = Some bid ->
  Book.lookup bid (books s) <> None ->
  ObjectId.cast id = Some oid ->
  Review.lookup oid (reviews s) = Some old ->
  if match ReviewBody.helpful body with Some h => h <? 0 | None => false end
  then
    run (ReviewRoutes.put_review env now id body) s =
      (inr {| status := 400; json := JException (ValidationError ["helpful"]) |}, s,
       [OpBookFindById bid; OpReviewFindById oid])
  else if match ReviewBody._id body with Some x => negb (x =? oid)%N | None => false end
  then
    run (ReviewRoutes.put_review env now id body) s =
      (inr {| status := 400; json := JException (MongoServerError immutableId) |}, s,
       [OpBookFindById bid; OpReviewFindById oid; OpReviewFindByIdAndUpdate oid])
  else
    let s' := storeAfter (ReviewRoutes.put_review env now id body) s in
    (exists p,
       resultOf (ReviewRoutes.put_review env now id body) s
         = inr {| status := 200; json := JReview (Some p) |} /\
       ReviewSchema._id (Review.review p) = oid /\
       ReviewSchema.book (Review.review p) = bid /\
       Some (ReviewSchema.rating (Review.review p)) = ReviewBody.rating body) /\
    (forall r, In r (reviews s') -> ReviewSchema._id r = oid ->
       ReviewSchema.book r = bid) /\
    (forall b, In b (books s') ->
       BookSchema._id b = ReviewSchema.book old \/ BookSchema._id b = bid ->
       aggregate b = aggregateOf (referencing (BookSchema._id b) s')).
Proof.
  intros Hwf Hv EC EL EI ER.
  assert (Hval : Review.validate false (snd (ReviewRoutes.validateReview body))
                 = Book.check "helpful" (helpfulOk body)).
  { apply review_chain_leaves_helpful; [exact Hv|]. rewrite EC. discriminate. }
  assert (Hneg : match ReviewBody.helpful body with Some h => h <? 0 | None => false end
                 = negb (helpfulOk body)).
  { unfold helpfulOk. destruct (ReviewBody.helpful body) as [h|]; [|reflexivity].
    rewrite Z.ltb_antisym. reflexivity. }
  pose proof (put_review_start env now id body bid oid old s Hv EC EL EI ER) as Hstart.
  cbv zeta in Hstart.
  rewrite Hneg. destruct (helpfulOk body) eqn:Hh; cbn [negb].
  2:{ rewrite Hstart. unfold Review.findByIdAndUpdate. rewrite Hval. reflexivity. }
  change (match ReviewBody._id body with Some x => negb (x =? oid)%N | None => false end)
    with (Review.changesId (Review.SetBody body) oid).
  destruct (Review.changesId (Review.SetBody body) oid) eqn:Hid.
  { rewrite Hstart. unfold Review.findByIdAndUpdate. rewrite Hval.
    cbn [Book.check]. prog. rewrite ER.
    change (Review.changesId
              (Review.SetBody (snd (ReviewRoutes.validateReview body))) oid)
      with (Review.changesId (Review.SetBody body) oid).
    rewrite Hid. reflexivity. }
  clear Hstart Hneg Hval. cbv zeta.
  pose proof (put_review_run env now id body bid oid old s Hv EC EL EI ER Hh Hid)
    as Hrun.
  cbv zeta in Hrun. unfold storeAfter, resultOf. rewrite Hrun. cbn [fst snd].
  set (body' := snd (ReviewRoutes.validateReview body)) in *.
  set (g := fun o => if Review.hasId oid o
                     then Review.update now (Review.SetBody body') o else o) in *.
  set (s1 := withReviews s (map g (reviews s))) in *.
  assert (Hbk : Review.castBook (ReviewBody.book body') (ReviewSchema.book old) = bid).
  { apply castBook_cast. exact EC. }
  destruct (validateReview_ok body Hv) as (bk & name & rt & text & Eb & _ & Er & _).
  apply review_lookup_some_in in ER. destruct ER as [Hold Hoid].
  split; [|split].
  - eexists. split; [reflexivity|]. cbn [Review.populated Review.review].
    split; [exact Hoid|]. split.
    + cbn [Review.update ReviewSchema.book]. exact Hbk.
    + subst body'. unfold ReviewRoutes.validateReview.
      cbn [Review.update ReviewSchema.rating snd ReviewBody.rating].
      rewrite Er. reflexivity.
  - intros r Hr Hrid.
    assert (Hr1 : In r (reviews s1)) by (destruct (negb (String.eqb _ _)); exact Hr).
    unfold s1 in Hr1. cbn [withReviews reviews] in Hr1.
    apply in_map_iff in Hr1. destruct Hr1 as (o & <- & Ho).
    unfold g in *. unfold Review.hasId in *.
    destruct (N.eqb_spec (ReviewSchema._id o) oid) as [E|NE].
    + cbn [Review.update ReviewSchema.book]. apply castBook_cast. exact EC.
    + contradiction.
  - intros b Hb Hbid.
    destruct (String.eqb_spec (ObjectId.toString (ReviewSchema.book old))
                (field (ReviewBody.book body))) as [Eq|Ne]; cbn [negb] in *.
    + assert (Hsame : bid = ReviewSchema.book old).
      { destruct Hwf as (_ & _ & Href). destruct (Href old Hold) as [Hlt _].
        rewrite <- Eq, (cast_toString _ Hlt) in EC. congruence. }
      assert (E : BookSchema._id b = ReviewSchema.book old)
        by (destruct Hbid as [E|E]; [exact E|congruence]).
      rewrite E. apply (recomputed_count now _ s1 b Hb E).
    + apply in_recomputed in Hb. destruct Hb as [[Hb Hne]|[E Hagg]].
      * assert (E : BookSchema._id b = ReviewSchema.book old)
          by (destruct Hbid as [E|E]; [exact E|contradiction]).
        rewrite E. apply (recomputed_count now _ s1 b Hb E).
      * rewrite E. exact Hagg.
Qed.

(** The review ...0b moves from the book ...0a to the book ...00; with
    [helpful: -1] the same update is refused, and so it is with the [_id]
    of another review. *)
Lemma put_review_recomputes_both_witness :
  (exists p,
     resultOf (ReviewRoutes.put_review Sample.env 2%N "00000000000000000000000b"
                 (Sample.reviewBody Sample.id0 2)) Sample.secondShelf
     = inr {| status := 200; json := JReview (Some p) |} /\
     ReviewSchema.book (Review.review p) = 0%N) /\
  run (ReviewRoutes.put_review Sample.env 2%N "00000000000000000000000b"
         (Sample.withHelpful (-1) (Sample.reviewBody Sample.id0 2))) Sample.secondShelf
  = (inr {| status := 400; json := JException (ValidationError ["helpful"]) |},
     Sample.secondShelf, [OpBookFindById 0%N; OpReviewFindById 11%N]) /\
  run (ReviewRoutes.put_review Sample.env 2%N "00000000000000000000000b"
         (Sample.withReviewId 1%N (Sample.reviewBody Sample.id0 2))) Sample.secondShelf
  = (inr {| status := 400; json := JException (MongoServerError immutableId) |},
     Sample.secondShelf,
     [OpBookFindById 0%N; OpReviewFindById 11%N; OpReviewFindByIdAndUpdate 11%N]).
Proof.
  assert (Hwf : wellFormed Sample.secondShelf).
  { apply (reachable_sound Sample.env). exact reachable_secondShelf. }
  assert (EL : Book.lookup 0%N (books Sample.secondShelf) <> None)
    by (vm_compute; discriminate).
  assert (EI : ObjectId.cast "00000000000000000000000b" = Some 11%N)
    by (vm_compute; reflexivity).
  assert (ER : Review.lookup 11%N (reviews Sample.secondShelf)
               = Some (Review.create 11%N 1%N
                         (Sample.reviewBody "00000000000000000000000a" 4)))
    by (vm_compute; reflexivity).
  split; [|split].
  - destruct (put_review_recomputes_both Sample.env 2%N _
                (Sample.reviewBody Sample.id0 2) 0%N 11%N _
                Sample.secondShelf Hwf eq_refl eq_refl EL EI ER)
      as ((p & Hres & _ & Hbook & _) & _).
    exists p. split; [exact Hres|exact Hbook].
  - exact (put_review_recomputes_both Sample.env 2%N _
             (Sample.withHelpful (-1) (Sample.reviewBody Sample.id0 2)) 0%N 11%N _
             Sample.secondShelf Hwf eq_refl eq_refl EL EI ER).
  - exact (put_review_recomputes_both Sample.env 2%N _
             (Sample.withReviewId 1%N (Sample.reviewBody Sample.id0 2)) 0%N 11%N _
             Sample.secondShelf Hwf eq_refl eq_refl EL EI ER).
Defined.

(* ================================================================== *)
(** * The shape of an ISBN that the schema accepts *)
(* ================================================================== *)

Lemma matchFrom_continues (r : Regex.t) :
  forall (b : bool) (s : list ascii) (k : bool -> list ascii -> bool),
    Regex.matchFrom r b s k = true ->
    exists b' pre t, s = pre ++ t /\ k b' t = true.
Proof.
  induction r as [| | |cls|r1 IH1 r2 IH2|r1 IH1 r2 IH2|r IH|r IH];
    intros b s k H; cbn [Regex.matchFrom] in H.
  - exists b, [], s. split; [reflexivity|exact H].
  - apply andb_prop in H. exists b, [], s. split; [reflexivity|tauto].
  - destruct s; [|discriminate]. exists b, [], []. split; [reflexivity|exact H].
  - destruct s as [|c s']; [discriminate|]. apply andb_prop in H.
    exists false, [c], s'. split; [reflexivity|tauto].
  - apply IH1 in H. destruct H as (b1 & p1 & t1 & -> & H).
    apply IH2 in H. destruct H as (b2 & p2 & t2 & -> & H).
    exists b2, (p1 ++ p2), t2. split; [apply app_assoc|exact H].
  - apply orb_prop in H. destruct H as [H|H]; [apply IH1 in H|apply IH2 in H]; exact H.
  - revert H. generalize (List.length s) as fuel. intros fuel. revert b s.
    induction fuel as [|fuel IHf]; intros b s H.
    + apply orb_prop in H. destruct H as [H|H]; [|discriminate].
      exists b, [], s. split; [reflexivity|exact H].
    + apply orb_prop in H. destruct H as [H|H].
      * exists b, [], s. split; [reflexivity|exact H].
      * apply IH in H. destruct H as (b1 & p1 & t1 & -> & H).
        apply andb_prop in H. destruct H as [_ H].
        apply IHf in H. destruct H as (b2 & p2 & t2 & -> & H).
        exists b2, (p1 ++ p2), t2. split; [apply app_assoc|exact H].
  - apply andb_prop in H. exists b, [], s. split; [reflexivity|tauto].
Qed.

Lemma matchFrom_Lit (w : string) :
  forall (b : bool) (s : list ascii) (k : bool -> list ascii -> bool),
    Regex.matchFrom (Regex.Lit w) b s k = true ->
    exists b' t, s = list_ascii_of_string w ++ t /\ k b' t = true.
Proof.
  induction w as [|c w IH]; intros b s k H; cbn [Regex.Lit Regex.matchFrom] in H.
  - exists b, s. split; [reflexivity|exact H].
  - destruct s as [|c' s']; [discriminate|]. apply andb_prop in H.
    destruct H as [Hc H]. apply Ascii.eqb_eq in Hc. subst c'.
    apply IH in H. destruct H as (b' & t & -> & H).
    exists b', t. split; [reflexivity|exact H].
Qed.

Lemma matchFrom_Rep_Chr (cls : ascii -> bool) (n : nat) :
  forall (b : bool) (s : list ascii) (k : bool -> list ascii -> bool),
    Regex.matchFrom (Regex.Rep n (Regex.Chr cls)) b s k = true ->
    exists b' pre t,
      s = pre ++ t /\ List.length pre = n /\ forallb cls pre = true /\ k b' t = true.
Proof.
  induction n as [|n IH]; intros b s k H; cbn [Regex.Rep Regex.matchFrom] in H.
  - exists b, [], s. repeat split. exact H.
  - destruct s as [|c s']; [discriminate|]. apply andb_prop in H.
    destruct H as [Hc H]. apply IH in H.
    destruct H as (b' & pre & t & -> & Hl & Hf & H).
    exists b', (c :: pre), t. cbn [List.length forallb]. rewrite Hc, Hf, Hl.
    repeat split. exact H.
Qed.

Lemma matchFrom_end (b : bool) (s : list ascii) :
  Regex.matchFrom (Regex.Seq Regex.Eol Regex.Eps) b s (fun _ _ => true) = true ->
  s = [].
Proof. cbn [Regex.matchFrom]. destruct s; [reflexivity|discriminate]. Qed.

Lemma forallb_weaken (p q : ascii -> bool) (l : list ascii) :
  (forall c, p c = true -> q c = true) -> forallb p l = true -> forallb q l = true.
Proof.
  intros Hpq H. rewrite forallb_forall in *. intros c Hc. apply Hpq, H, Hc.
Qed.

Lemma run_of_class (cls : ascii -> bool) (n : nat) (b : bool) (s : list ascii) :
  (forall c, cls c = true -> isbnChar c = true) ->
  Regex.matchFrom (Regex.Rep n (Regex.Chr cls)) b s
    (fun b' s' => Regex.matchFrom (Regex.Seq Regex.Eol Regex.Eps) b' s'
                    (fun _ _ => true)) = true ->
  List.length s = n /\ forallb isbnChar s = true.
Proof.
  intros Hcls H. apply matchFrom_Rep_Chr in H.
  destruct H as (b' & pre & t & -> & Hl & Hf & H).
  apply matchFrom_end in H. subst t. rewrite app_nil_r.
  split; [exact Hl|]. apply (forallb_weaken cls); assumption.
Qed.

Lemma oneOf_89_digit (c : ascii) :
  Regex.oneOf "89" c = true -> Regex.digit c = true.
Proof.
  unfold Regex.oneOf. cbn [list_ascii_of_string existsb]. intros H.
  repeat (apply orb_prop in H; destruct H as [H|H]); try discriminate;
    apply Ascii.eqb_eq in H; subst c; reflexivity.
Qed.

Lemma isbn_lookahead (b : bool) (s : list ascii) :
  Regex.matchFrom
    (Regex.alts
       [ Regex.seqs [Regex.Rep 10 Regex.DX; Regex.Eol];
         Regex.seqs [Regex.Look (Regex.Rep 3 (Regex.Seq (Regex.Plus Regex.D) Regex.S));
                     Regex.Rep 13 Regex.SDX; Regex.Eol];
         Regex.seqs [Regex.Lit "97"; Regex.Chr (Regex.oneOf "89");
                     Regex.Rep 10 Regex.D; Regex.Eol];
         Regex.seqs [Regex.Look (Regex.Rep 4 (Regex.Seq (Regex.Plus Regex.D) Regex.S));
                     Regex.Rep 17 Regex.SD; Regex.Eol] ])
    b s (fun _ _ => true) = true ->
  In (List.length s) [10; 13; 17]%nat /\ forallb isbnChar s = true.
Proof.
  cbn [Regex.alts fold_left Regex.seqs fold_right]. intros H.
  cbn [Regex.matchFrom] in H.
  repeat (apply orb_prop in H; destruct H as [H|H]).
  - apply run_of_class in H.
    + destruct H as [Hl Hf]. split; [left; symmetry; exact Hl|exact Hf].
    + intros c Hc. unfold isbnChar. rewrite Hc. reflexivity.
  - apply andb_prop in H. destruct H as [_ H]. apply run_of_class in H.
    + destruct H as [Hl Hf]. split; [right; left; symmetry; exact Hl|exact Hf].
    + intros c Hc. unfold isbnChar.
      destruct (Regex.sep c), (Regex.digit c), (Regex.isX c);
        try reflexivity; discriminate.
  - change (Regex.matchFrom (Regex.Lit "97") b s
              (fun b1 s1 =>
                 Regex.matchFrom (Regex.Chr (Regex.oneOf "89")) b1 s1
                   (fun b2 s2 =>
                      Regex.matchFrom (Regex.Rep 10 Regex.D) b2 s2
                        (fun b' s' =>
                           Regex.matchFrom (Regex.Seq Regex.Eol Regex.Eps) b' s'
                             (fun _ _ => true)))) = true) in H.
    apply matchFrom_Lit in H. destruct H as (b1 & t & -> & H).
    cbn [Regex.matchFrom] in H. destruct t as [|c t]; [discriminate|].
    apply andb_prop in H. destruct H as [Hc H]. apply oneOf_89_digit in Hc.
    apply run_of_class in H.
    + destruct H as [Hl Hf]. cbn [list_ascii_of_string app List.length forallb].
      rewrite Hl, Hf. split; [right; left; reflexivity|].
      unfold isbnChar at 3. rewrite Hc. reflexivity.
    + intros c' Hc'. unfold isbnChar. rewrite Hc'. reflexivity.
  - apply andb_prop in H. destruct H as [_ H]. apply run_of_class in H.
    + destruct H as [Hl Hf]. split; [right; right; left; symmetry; exact Hl|exact Hf].
    + intros c Hc. unfold isbnChar.
      destruct (Regex.sep c), (Regex.digit c), (Regex.isX c);
        try reflexivity; discriminate.
Qed.

Lemma prefixed_lookahead (P A R : Regex.t) (s : string) :
  Regex.test
    (Regex.Seq Regex.Bol
       (Regex.Seq (Regex.Opt (Regex.Seq (Regex.Lit "ISBN") P))
          (Regex.Seq (Regex.Look A) R))) s = true ->
  exists pre body b,
    list_ascii_of_string s = pre ++ body /\
    (pre = [] \/ exists rest, pre = list_ascii_of_string "ISBN" ++ rest) /\
    Regex.matchFrom A b body (fun _ _ => true) = true.
Proof.
  unfold Regex.test. set (l := list_ascii_of_string s).
  cbn [Regex.matchFrom andb Regex.Opt].
  intros H. apply orb_prop in H. destruct H as [H|H].
  - apply matchFrom_Lit in H. destruct H as (b1 & t & Hl & H).
    apply matchFrom_continues in H. destruct H as (b2 & p2 & t2 & -> & H).
    apply andb_prop in H. destruct H as [H _].
    exists (list_ascii_of_string "ISBN" ++ p2), t2, b2.
    split; [rewrite Hl; rewrite <- !app_assoc; reflexivity|].
    split; [right; eexists; reflexivity|exact H].
  - apply andb_prop in H. destruct H as [H _].
    exists [], l, true. split; [reflexivity|]. split; [left; reflexivity|exact H].
Qed.

(** X19: a string that the regular expression of [bookSchema.isbn]
    accepts is, after an optional prefix that starts with ISBN, a string
    of 10, 13 or 17 characters, each a digit, an X, a hyphen or a space:
    the lookahead of the expression fixes the length and the alphabet. *)
Theorem isbn_accepts_only_isbn_shapes (s : string) :
  Regex.test Regex.isbn s = true ->
  exists pre body,
    list_ascii_of_string s = pre ++ body /\
    (pre = [] \/ exists rest, pre = list_ascii_of_string "ISBN" ++ rest) /\
    In (List.length body) [10; 13; 17]%nat /\
    forallb isbnChar body = true.
Proof.
  intros H. unfold Regex.isbn in H. cbn [Regex.seqs fold_right] in H.
  apply prefixed_lookahead in H.
  destruct H as (pre & body & b & E & Hpre & H).
  apply isbn_lookahead in H. exists pre, body. tauto.
Qed.

Lemma isbn_accepts_only_isbn_shapes_witness :
  exists pre body,
    list_ascii_of_string "ISBN-13: 978-3-16-148410-0" = pre ++ body /\
    In (List.length body) [10; 13; 17]%nat.
Proof.
  assert (H : Regex.test Regex.isbn "ISBN-13: 978-3-16-148410-0" = true)
    by (vm_compute; reflexivity).
  destruct (isbn_accepts_only_isbn_shapes _ H) as (pre & body & E & _ & Hl & _).
  exists pre, body. split; assumption.
Defined.

(* ================================================================== *)
(** * What the chain for books leaves to the schema *)
(* ================================================================== *)

Lemma genre_trimmed (g : string) :
  In g BookSchema.genres ->
  existsb (String.eqb (Text.trim g)) BookSchema.genres = true.
Proof.
  intros H. unfold BookSchema.genres in H. cbn [In] in H.
  repeat (destruct H as [<-|H]; [vm_compute; reflexivity|]). contradiction.
Qed.

Lemma check_names (name : string) (ok : bool) (p : string) :
  In p (Book.check name ok) -> p = name.
Proof. destruct ok; cbn; [contradiction|]. intros [<-|[]]. reflexivity. Qed.

(** X20: for a body that passes the chain [validateBook] the validators
    of [bookSchema] accept the title, the author, the publication year and
    the genre: a ValidationError on [save] can name only the ISBN, which
    the chain does not match against the regular expression, or a path
    that the chain does not look at. *)
Theorem validateBook_leaves_to_schema (env : Env) (b : BookBody.t) :
  fst (BookRoutes.validateBook env b) = [] ->
  forall p,
    In p (Book.validate (currentYear env) true (snd (BookRoutes.validateBook env b))) ->
    In p ["isbn"; "description"; "publisher"; "pages"; "averageRating";
          "numberOfReviews"].
Proof.
  unfold BookRoutes.validateBook. cbn [fst snd]. intros H.
  apply app_eq_nil in H. destruct H as [C1 H].
  apply app_eq_nil in H. destruct H as [C2 H].
  apply app_eq_nil in H. destruct H as [C3 H].
  apply app_eq_nil in H. destruct H as [C4 H].
  apply app_eq_nil in H. destruct H as [C5 H].
  apply app_eq_nil in H. destruct H as [C6 H].
  apply app_eq_nil in H. destruct H as [C7 C8].
  apply check_nil in C1, C2, C3, C4, C5, C6, C7, C8.
  destruct b as [bi t a i y g de pu pa la av nr].
  cbn [BookBody.title BookBody.author BookBody.isbn BookBody.publicationYear
       BookBody.genre] in *.
  apply negb_true_iff in C1, C3, C7.
  destruct (field_nonempty _ C1) as [t' ->].
  destruct (field_nonempty _ C3) as [a' ->].
  destruct (field_nonempty _ C7) as [g' ->].
  destruct y as [y|]; [|discriminate].
  cbn [field orDefault] in *.
  apply inRange_bounds in C2, C4.
  unfold Book.validate.
  cbn [BookBody.title BookBody.author BookBody.isbn BookBody.publicationYear
       BookBody.genre BookBody.description BookBody.publisher BookBody.pages
       BookBody.averageRating BookBody.numberOfReviews option_map Book.okOptional].
  unfold Book.okString. rewrite !trim_idempotent.
  rewrite (len_pos_nonempty (Text.trim t')) by lia.
  rewrite (len_pos_nonempty (Text.trim a')) by lia.
  replace (Text.len (Text.trim t') <=? 200) with true by (symmetry; apply Z.leb_le; lia).
  replace (Text.len (Text.trim a') <=? 100) with true by (symmetry; apply Z.leb_le; lia).
  rewrite C6, (genre_trimmed g' (genre_listed g' C8)).
  cbn [negb andb Book.check app].
  intros p Hp.
  repeat (apply in_app_or in Hp; destruct Hp as [Hp|Hp];
          [apply check_names in Hp; subst p; cbn [In]; tauto|]).
  apply check_names in Hp. subst p. cbn [In]. tauto.
Qed.

Lemma validateBook_leaves_to_schema_witness :
  Book.validate (currentYear Sample.env) true
    (snd (BookRoutes.validateBook Sample.env (Sample.bookBody "not an ISBN")))
  <> [] /\
  forall p,
    In p (Book.validate (currentYear Sample.env) true
            (snd (BookRoutes.validateBook Sample.env (Sample.bookBody "not an ISBN")))) ->
    In p ["isbn"; "description"; "publisher"; "pages"; "averageRating";
          "numberOfReviews"].
Proof.
  assert (H : fst (BookRoutes.validateBook Sample.env (Sample.bookBody "not an ISBN"))
              = []) by (vm_compute; reflexivity).
  split; [vm_compute; discriminate|].
  exact (validateBook_leaves_to_schema Sample.env _ H).
Defined.

(* ================================================================== *)
(** * Two reviews posted at once *)
(* ================================================================== *)

Lemma schedule_step (i : nat) (sched : list nat) (pool : Pool) (s s1 : Store)
      (X : Type) (op : DbOp) (f : Store -> X * Store) (k : X -> M Response) (x : X) :
  nth_error pool i = Some (Atomic op f k) ->
  f s = (x, s1) ->
  schedule (i :: sched) pool s = schedule sched (setNth i (k x) pool) s1.
Proof.
  intros Hn Hf. cbn [schedule]. unfold stepAt. rewrite Hn, Hf. reflexivity.
Qed.

Lemma schedule_app (a b : list nat) :
  forall (pool : Pool) (s : Store),
    schedule (a ++ b) pool s =
    schedule b (fst (schedule a pool s)) (snd (schedule a pool s)).
Proof.
  induction a as [|i a IH]; intros pool s; cbn [app schedule fst snd]; [reflexivity|].
  destruct (stepAt i pool s) as [pool' s']. apply IH.
Qed.

Lemma nth_error_setNth {A} (i : nat) (a b : A) (l : list A) :
  nth_error l i = Some b -> nth_error (setNth i a l) i = Some a.
Proof.
  revert i. induction l as [|c l IH]; intros i Hi.
  - destruct i; discriminate.
  - destruct i as [|i]; cbn [nth_error setNth] in *; [reflexivity|].
    apply IH. exact Hi.
Qed.

Lemma setNth_twice {A} (i : nat) (a b : A) (l : list A) :
  setNth i a (setNth i b l) = setNth i a l.
Proof.
  revert i. induction l as [|c l IH]; intros i.
  - destruct i; reflexivity.
  - destruct i as [|i]; cbn [setNth]; [reflexivity|]. rewrite IH. reflexivity.
Qed.

(** A request that runs to its end while the others wait does what it
    does alone. *)
Lemma schedule_alone (i : nat) (p : M Response) :
  forall (pool : Pool) (s s' : Store) (r : Response) (t : list DbOp),
    nth_error pool i = Some p ->
    run p s = (inr r, s', t) ->
    schedule (repeat i (List.length t)) pool s = (setNth i (Ret r) pool, s').
Proof.
  induction p as [a|e|X op f k IH]; intros pool s s' r t Hn Hrun; cbn [run] in Hrun.
  - injection Hrun as <- <- <-. cbn [List.length repeat schedule].
    rewrite (setNth_same _ _ _ Hn). reflexivity.
  - discriminate.
  - destruct (f s) as [x s1] eqn:Ef.
    destruct (run (k x) s1) as [[r0 s2] t0] eqn:Er.
    injection Hrun as -> -> <-. cbn [List.length repeat].
    rewrite (schedule_step i _ pool s s1 X op f k x Hn Ef).
    rewrite (IH x (setNth i (k x) pool) s1 s' r t0).
    + rewrite setNth_twice. reflexivity.
    + apply (nth_error_setNth _ _ _ _ Hn).
    + exact Er.
Qed.

Lemma review_lookup_first (id : ObjectId.t) (l l' : list ReviewSchema.doc)
      (r : ReviewSchema.doc) :
  Review.lookup id l = Some r -> Review.lookup id (l ++ l') = Some r.
Proof.
  unfold Review.lookup. induction l as [|a l IH]; cbn [app find]; [discriminate|].
  destruct (Review.hasId id a); [intros H; exact H|exact IH].
Qed.

(** The phases of [POST /api/reviews] for a body that passes the
    validations: the look-up of the book; the insertion; the read of the
    reviews of the book; and the rest, which writes the aggregate of the
    reviews that were read, whatever the collection holds by then. *)
Lemma post_review_phases env now body bid :
  fst (ReviewRoutes.validateReview body) = [] ->
  ObjectId.cast (field (ReviewBody.book body)) = Some bid ->
  helpfulOk body = true ->
  let body' := snd (ReviewRoutes.validateReview body) in
  exists k1,
    ReviewRoutes.post_review env now body =
      Atomic (OpBookFindById bid) (fun s => (Book.lookup bid (books s), s)) k1 /\
    forall bk, exists k2,
      k1 (Some bk) =
        Atomic OpReviewInsert
          (fun s =>
             let d := Review.create (Review.newId body' s) now body' in
             if existsb (Review.hasId (Review.newId body' s)) (reviews s)
             then (inl DuplicateKey, s)
             else (inr d,
                   {| books := books s; reviews := reviews s ++ [d];
                      nextId := nextIdAfter s (Review.newId body' s) |})) k2 /\
      forall r, exists k3,
        k2 (inr r) =
          Atomic (OpReviewFind (Some bid) None)
            (fun s => (filter (Review.matches (Some bid) None) (reviews s), s)) k3 /\
        forall l s r',
          Review.lookup (ReviewSchema._id r) (reviews s) = Some r' ->
          let s' :=
            {| books :=
                 map (fun o =>
                        if Book.hasId bid o
                        then Book.update now
                               (ReviewRoutes.ratingUpdate
                                  (fst (aggregateOf l)) (snd (aggregateOf l))) o
                        else o) (books s);
               reviews := reviews s; nextId := nextId s |} in
          run (k3 l) s =
            (inr {| status := 201; json := JReview (Some (Review.populated s' r')) |},
             s',
             [OpBookFindByIdAndUpdate bid; OpReviewFindById (ReviewSchema._id r);
              OpBookPopulate]).
Proof.
  intros Hv EC Hh body'.
  assert (Hs : Review.validate true body' = []).
  { apply review_chain_passes_schema; [exact Hv| |exact Hh]. rewrite EC. discriminate. }
  subst body'. unfold ReviewRoutes.post_review.
  destruct (ReviewRoutes.validateReview body) as [errors body'] eqn:EV.
  cbn [fst snd] in *. subst errors.
  assert (Hb : ReviewBody.book body' = ReviewBody.book body).
  { unfold ReviewRoutes.validateReview in EV. injection EV as _ <-. reflexivity. }
  unfold castId. rewrite Hb, EC. unfold Review.save. rewrite Hs.
  unfold ReviewRoutes.updateBookRating, Review.find.
  prog.
  eexists. split; [reflexivity|]. intros bk. cbn [catch].
  eexists. split; [reflexivity|]. intros r. cbn [catch].
  eexists. split; [reflexivity|]. intros l s r' Hl. cbv zeta.
  destruct l as [|x l].
  - cbn [List.length Z.of_nat Z.eqb aggregateOf fst snd].
    unfold Book.findByIdAndUpdate, command. cbn [bind catch run].
    destruct (Book.lookup bid (books s)) as [d|] eqn:EL.
    + cbn [Book.changesId ReviewRoutes.ratingUpdate BookBody._id BookBody.isbn].
      prog. cbn [reviews].
      rewrite Hl. prog. reflexivity.
    + prog. rewrite Hl. prog. unfold Book.lookup in EL.
      rewrite (find_none_map _ _ _ EL), store_eta. reflexivity.
  - replace (Z.of_nat (List.length (x :: l)) =? 0) with false
      by (symmetry; apply Z.eqb_neq; cbn [List.length]; lia).
    rewrite sum_fold_left. cbn [aggregateOf fst snd].
    unfold Book.findByIdAndUpdate, command. cbn [bind catch run].
    destruct (Book.lookup bid (books s)) as [d|] eqn:EL.
    + cbn [Book.changesId ReviewRoutes.ratingUpdate BookBody._id BookBody.isbn].
      prog. cbn [reviews].
      rewrite Hl. prog. reflexivity.
    + prog. rewrite Hl. prog. unfold Book.lookup in EL.
      rewrite (find_none_map _ _ _ EL), store_eta. reflexivity.
Qed.

Lemma created_review_book now id body bid :
  fst (ReviewRoutes.validateReview body) = [] ->
  ObjectId.cast (field (ReviewBody.book body)) = Some bid ->
  ReviewSchema.book (Review.create id now (snd (ReviewRoutes.validateReview body)))
  = bid.
Proof.
  intros Hv EC. cbn [Review.create ReviewSchema.book].
  apply castBook_cast. unfold ReviewRoutes.validateReview. cbn [snd ReviewBody.book].
  exact EC.
Qed.

(** X21: two reviews of the same book posted at once, with bodies that
    pass the validations and give no [_id].  Each request
    reads the reviews of the book and then writes the aggregate in a
    second operation; when the second request inserts, recomputes and
    answers between this read and this write of the first, the first
    writes the count that it has read: both requests are answered 201, the
    book has two reviews more, and its numberOfReviews has grown by
    one. *)
Theorem concurrent_posts_lose_a_count
        (env : Env) (now1 now2 : N) (b1 b2 : ReviewBody.t)
        (bid : ObjectId.t) (s : Store) :
  fst (ReviewRoutes.validateReview b1) = [] ->
  fst (ReviewRoutes.validateReview b2) = [] ->
  ObjectId.cast (field (ReviewBody.book b1)) = Some bid ->
  ObjectId.cast (field (ReviewBody.book b2)) = Some bid ->
  helpfulOk b1 = true ->
  helpfulOk b2 = true ->
  ReviewBody._id b1 = None ->
  ReviewBody._id b2 = None ->
  Book.lookup bid (books s) <> None ->
  exists r1 r2 s',
    schedule [0; 0; 0; 1; 1; 1; 1; 1; 1; 0; 0; 0]%nat
      [ReviewRoutes.post_review env now1 b1; ReviewRoutes.post_review env now2 b2] s
    = ([Ret r1; Ret r2], s') /\
    status r1 = 201 /\ status r2 = 201 /\
    List.length (referencing bid s') = (List.length (referencing bid s) + 2)%nat /\
    Book.lookup bid (books s') <> None /\
    forall b, In b (books s') -> BookSchema._id b = bid ->
      BookSchema.numberOfReviews b = Z.of_nat (List.length (referencing bid s)) + 1.
Proof.
  intros Hv1 Hv2 EC1 EC2 Hh1 Hh2 Hn1 Hn2 EL.
  set (id1 := Review.newId b1 s).
  assert (Hfree1 : Review.lookup id1 (reviews s) = None).
  { unfold id1, Review.newId. rewrite Hn1. apply fresh_review. }
  destruct (post_review_phases env now1 b1 bid Hv1 EC1 Hh1) as (k1 & E1 & Hk1).
  cbv zeta in Hk1.
  destruct (Book.lookup bid (books s)) as [bk|] eqn:ELs; [|congruence].
  destruct (Hk1 bk) as (k2 & E2 & Hk2).
  set (r1 := Review.create id1 now1 (snd (ReviewRoutes.validateReview b1))) in *.
  destruct (Hk2 r1) as (k3 & E3 & Hk3).
  set (s1 := {| books := books s; reviews := reviews s ++ [r1];
                nextId := nextIdAfter s id1 |}).
  set (id2 := Review.newId b2 s1).
  set (l1 := filter (Review.matches (Some bid) None) (reviews s1)).
  assert (Hbook1 : ReviewSchema.book r1 = bid)
    by (apply created_review_book; assumption).
  assert (EL1 : Book.lookup bid (books s1) <> None)
    by (cbn [s1 books]; rewrite ELs; discriminate).
  assert (Hfree2 : Review.lookup id2 (reviews s1) = None).
  { unfold id2, Review.newId. rewrite Hn2. apply fresh_review. }
  pose proof (post_review_run env now2 b2 bid s1 Hv2 EC2 EL1 Hh2 Hfree2) as Hrun2.
  cbv zeta in Hrun2. fold id2 in Hrun2.
  set (r2 := Review.create id2 now2 (snd (ReviewRoutes.validateReview b2))) in *.
  assert (Hbook2 : ReviewSchema.book r2 = bid)
    by (apply created_review_book; assumption).
  set (s3 := recomputed now2 bid
               {| books := books s1; reviews := reviews s1 ++ [r2];
                  nextId := nextIdAfter s1 id2 |}) in *.
  assert (Hl : Review.lookup (ReviewSchema._id r1) (reviews s3) = Some r1).
  { cbn [s3 recomputed reviews s1]. apply review_lookup_first.
    apply review_lookup_appended; [exact Hfree1|reflexivity]. }
  pose proof (Hk3 l1 s3 r1 Hl) as Hrun1. cbv zeta in Hrun1.
  set (s4 := {| books :=
                  map (fun o =>
                         if Book.hasId bid o
                         then Book.update now1
                                (ReviewRoutes.ratingUpdate
                                   (fst (aggregateOf l1)) (snd (aggregateOf l1))) o
                         else o) (books s3);
                reviews := reviews s3; nextId := nextId s3 |}) in *.
  assert (Hl1 : l1 = referencing bid s ++ [r1]).
  { unfold l1. rewrite matches_book. cbn [s1 reviews]. rewrite filter_app.
    cbn [filter]. rewrite Hbook1, N.eqb_refl. reflexivity. }
  assert (Hdup1 : existsb (Review.hasId
                             (Review.newId (snd (ReviewRoutes.validateReview b1)) s))
                    (reviews s) = false).
  { apply review_id_taken. exact Hfree1. }
  exists {| status := 201; json := JReview (Some (Review.populated s4 r1)) |},
    {| status := 201; json := JReview (Some (Review.populated s3 r2)) |}, s4.
  split; [|split; [reflexivity|split; [reflexivity|split; [|split]]]].
  - change [0; 0; 0; 1; 1; 1; 1; 1; 1; 0; 0; 0]%nat
      with ([0; 0; 0] ++ ([1; 1; 1; 1; 1; 1] ++ [0; 0; 0]))%nat.
    rewrite schedule_app.
    assert (H3 : schedule [0; 0; 0]%nat
                   [ReviewRoutes.post_review env now1 b1;
                    ReviewRoutes.post_review env now2 b2] s
                 = ([k3 l1; ReviewRoutes.post_review env now2 b2], s1)).
    { rewrite E1.
      erewrite (schedule_step 0);
        [|reflexivity|cbv beta; rewrite ELs; reflexivity].
      cbn [setNth]. rewrite E2.
      erewrite (schedule_step 0);
        [|reflexivity|cbv beta zeta; rewrite Hdup1; reflexivity].
      cbn [setNth]. fold r1.
      change (Review.create
                (Review.newId (snd (ReviewRoutes.validateReview b1)) s) now1
                (snd (ReviewRoutes.validateReview b1))) with r1.
      rewrite E3.
      erewrite (schedule_step 0); [|reflexivity|reflexivity].
      reflexivity. }
    rewrite H3. cbn [fst snd]. rewrite schedule_app.
    pose proof (schedule_alone 1 _ [k3 l1; ReviewRoutes.post_review env now2 b2]
                  s1 _ _ _ eq_refl Hrun2) as HA.
    cbn [List.length repeat setNth] in HA. rewrite HA. cbn [fst snd].
    pose proof (schedule_alone 0 _
                  [k3 l1;
                   Ret {| status := 201;
                          json := JReview (Some (Review.populated s3 r2)) |}]
                  s3 _ _ _ eq_refl Hrun1) as HB.
    cbn [List.length repeat setNth] in HB. exact HB.
  - unfold referencing. cbn [s4 reviews s3 recomputed s1].
    rewrite !filter_app. cbn [filter]. rewrite Hbook1, Hbook2, N.eqb_refl.
    rewrite !length_app. cbn [List.length]. lia.
  - cbn [s4 books]. rewrite lookup_map_id
      by (intros o; destruct (Book.hasId bid o); reflexivity).
    cbn [s3 recomputed books]. rewrite lookup_map_id
      by (intros o; destruct (Book.hasId bid o); reflexivity).
    cbn [s1 books]. rewrite ELs. discriminate.
  - intros b Hb Hid. cbn [s4 books] in Hb. apply in_map_iff in Hb.
    destruct Hb as (o & <- & _). unfold Book.hasId in *.
    destruct (N.eqb_spec (BookSchema._id o) bid) as [E|NE]; [|contradiction].
    cbn [Book.update BookSchema.numberOfReviews ReviewRoutes.ratingUpdate
         BookBody.numberOfReviews orDefault].
    rewrite aggregateOf_count, Hl1, length_app. cbn [List.length]. lia.
Qed.

Lemma concurrent_posts_lose_a_count_witness :
  exists r1 r2 s',
    schedule [0; 0; 0; 1; 1; 1; 1; 1; 1; 0; 0; 0]%nat
      [ReviewRoutes.post_review Sample.env 1%N (Sample.reviewBody Sample.id0 4);
       ReviewRoutes.post_review Sample.env 2%N (Sample.reviewBody Sample.id0 5)]
      Sample.oneBook
    = ([Ret r1; Ret r2], s') /\
    status r1 = 201 /\ status r2 = 201 /\
    List.length (referencing 0%N s') = 2%nat /\
    forall b, In b (books s') -> BookSchema._id b = 0%N ->
      BookSchema.numberOfReviews b = 1.
Proof.
  assert (EL : Book.lookup 0%N (books Sample.oneBook) <> None)
    by (vm_compute; discriminate).
  destruct (concurrent_posts_lose_a_count Sample.env 1%N 2%N
              (Sample.reviewBody Sample.id0 4) (Sample.reviewBody Sample.id0 5)
              0%N Sample.oneBook
              eq_refl eq_refl eq_refl eq_refl eq_refl eq_refl eq_refl eq_refl EL)
    as (r1 & r2 & s' & Hs & H1 & H2 & Hn & _ & Hb).
  exists r1, r2, s'. split; [exact Hs|]. split; [exact H1|]. split; [exact H2|].
  split; [exact Hn|exact Hb].
Defined.

(* ================================================================== *)
(** * Further round trips and edge cases *)
(* ================================================================== *)

(** X22: the review that [POST /api/reviews] has answered with 201 is the
    one that [GET /api/reviews/:id] answers with next, under the id of the
    answer, written as Mongoose writes it: 200 with the same document,
    populated with the same title and author. *)
Theorem post_review_then_get
        (env : Env) (now : N) (body : ReviewBody.t) (s s' : Store)
        (p : Review.Populated) (ops : list DbOp) :
  (ReviewSchema._id (Review.review p) < 16 ^ 24)%N ->
  run (ReviewRoutes.post_review env now body) s =
    (inr {| status := 201; json := JReview (Some p) |}, s', ops) ->
  run (ReviewRoutes.get_review (ObjectId.toString (ReviewSchema._id (Review.review p))))
    s'
  = (inr {| status := 200; json := JReview (Some p) |}, s',
     [OpReviewFindById (ReviewSchema._id (Review.review p)); OpBookPopulate]).
Proof.
  intros Hlt. revert Hlt.
  unfold ReviewRoutes.post_review.
  destruct (ReviewRoutes.validateReview body) as [errors body'] eqn:EV.
  destruct errors as [|e errors]; prog; [|discriminate].
  unfold castId.
  destruct (ObjectId.cast (field (ReviewBody.book body'))) as [bid|] eqn:EC;
    [|prog; discriminate].
  prog.
  destruct (Book.lookup bid (books s)) as [b|] eqn:EL; [|prog; discriminate].
  unfold Review.save.
  destruct (Review.validate true body') as [|e errs] eqn:EVal; [|prog; discriminate].
  prog. cbn [Review.create ReviewSchema._id].
  destruct (existsb (Review.hasId (Review.newId body' s)) (reviews s)) eqn:EX;
    [prog; discriminate|].
  apply review_id_taken in EX.
  prog. rewrite run_catch, run_bind, updateBookRating_run. prog.
  cbn [Review.create ReviewSchema._id].
  rewrite recomputed_reviews. cbn [reviews].
  rewrite (review_lookup_appended (Review.newId body' s) (reviews s)
             (Review.create (Review.newId body' s) now body') EX eq_refl).
  prog. intros Hlt H. injection H as <- <- _.
  cbn [Review.populated Review.review Review.create ReviewSchema._id] in *.
  rewrite (get_review_run _ (Review.newId body' s))
    by (apply cast_toString; exact Hlt).
  rewrite recomputed_reviews. cbn [reviews].
  rewrite (review_lookup_appended (Review.newId body' s) (reviews s)
             (Review.create (Review.newId body' s) now body') EX eq_refl).
  reflexivity.
Qed.

Lemma post_review_then_get_witness :
  exists p,
    resultOf (ReviewRoutes.post_review Sample.env 1%N (Sample.reviewBody Sample.id0 4))
      Sample.oneBook
    = inr {| status := 201; json := JReview (Some p) |} /\
    resultOf (ReviewRoutes.get_review "000000000000000000000001")
      (storeAfter (ReviewRoutes.post_review Sample.env 1%N
                     (Sample.reviewBody Sample.id0 4)) Sample.oneBook)
    = inr {| status := 200; json := JReview (Some p) |}.
Proof.
  assert (EL : Book.lookup 0%N (books Sample.oneBook) <> None)
    by (vm_compute; discriminate).
  pose proof (post_review_run Sample.env 1%N (Sample.reviewBody Sample.id0 4) 0%N
                Sample.oneBook eq_refl eq_refl EL eq_refl eq_refl) as Hrun.
  cbv zeta in Hrun.
  eexists. split; [unfold resultOf; rewrite Hrun; reflexivity|].
  unfold storeAfter, resultOf. rewrite Hrun. cbn [fst snd].
  match type of Hrun with
  | _ = (inr {| status := _; json := JReview (Some ?q) |}, ?t, _) =>
      assert (Hlt : (ReviewSchema._id (Review.review q) < 16 ^ 24)%N)
        by (vm_compute; reflexivity);
      pose proof (post_review_then_get _ _ _ _ _ _ _ Hlt Hrun) as Hget
  end.
  change (ObjectId.toString _) with "000000000000000000000001" in Hget.
  rewrite Hget. reflexivity.
Defined.

(** X23: [PUT /api/books/:id] with a body that passes the chain and the
    update validators, for a book of the collection: when the body gives
    an [_id] that is not the one of the book, the store refuses the
    update and the answer is 400 with its message; when another book
    holds the (trimmed) ISBN of the body the unique index refuses the
    update, the answer is 400 with the message of the route; in both cases
    the collections are as before; otherwise the answer is 200 with the
    updated book, the only change. *)
Theorem put_book_unique_isbn
        (env : Env) (now : N) (id : string) (oid : ObjectId.t)
        (body : BookBody.t) (d : BookSchema.doc) (s : Store) :
  fst (BookRoutes.validateBook env body) = [] ->
  ObjectId.cast id = Some oid ->
  Book.validate (currentYear env) false (snd (BookRoutes.validateBook env body)) = [] ->
  Book.lookup oid (books s) = Some d ->
  let body' := snd (BookRoutes.validateBook env body) in
  let changesId :=
    match BookBody._id body with
    | Some x => negb (x =? oid)%N
    | None => false
    end in
  let taken :=
    existsb (fun o => negb (Book.hasId oid o) &&
                      String.eqb (BookSchema.isbn o)
                        (Text.trim (field (BookBody.isbn body))))
      (books s) in
  run (BookRoutes.put_book env now id body) s =
    if changesId
    then (inr {| status := 400; json := JException (MongoServerError immutableId) |},
          s, [OpBookFindByIdAndUpdate oid])
    else if taken
    then (inr {| status := 400;
                 json := JError "A book with this ISBN already exists" |},
          s, [OpBookFindByIdAndUpdate oid])
    else (inr {| status := 200; json := JBook (Book.update now body' d) |},
          withBooks s
            (map (fun o => if Book.hasId oid o then Book.update now body' o else o)
               (books s)),
          [OpBookFindByIdAndUpdate oid]).
Proof.
  intros Hv EC Hs EL. cbv zeta.
  assert (Hi : exists i, BookBody.isbn body = Some i).
  { unfold BookRoutes.validateBook in Hv. cbn [fst] in Hv.
    apply app_eq_nil in Hv. destruct Hv as [_ Hv].
    apply app_eq_nil in Hv. destruct Hv as [_ Hv].
    apply app_eq_nil in Hv. destruct Hv as [_ Hv].
    apply app_eq_nil in Hv. destruct Hv as [_ Hv].
    apply app_eq_nil in Hv. destruct Hv as [C5 _].
    apply check_nil, negb_true_iff in C5. apply field_nonempty. exact C5. }
  destruct Hi as [i Hi].
  unfold BookRoutes.put_book.
  destruct (BookRoutes.validateBook env body) as [errors body'] eqn:EV.
  cbn [fst snd] in *. subst errors.
  assert (Hi' : BookBody.isbn body' = Some (Text.trim i)).
  { unfold BookRoutes.validateBook in EV. injection EV as _ <-.
    cbn [BookBody.isbn]. rewrite Hi. reflexivity. }
  assert (Hid : Book.changesId body' oid
                = match BookBody._id body with
                  | Some x => negb (x =? oid)%N
                  | None => false
                  end).
  { unfold BookRoutes.validateBook in EV. injection EV as _ <-. reflexivity. }
  rewrite (book_validateId_cast _ _ EC). cbn [app handleValidationErrors].
  unfold castId. rewrite EC. prog. unfold Book.findByIdAndUpdate. rewrite Hs.
  prog. rewrite EL, Hi', Hid.
  destruct (match BookBody._id body with
            | Some x => negb (x =? oid)%N
            | None => false
            end); [reflexivity|].
  cbn [Book.update BookSchema.isbn]. rewrite Hi'. cbn [option_map orDefault].
  rewrite trim_idempotent. rewrite Hi. cbn [field orDefault].
  destruct (existsb _ (books s)); prog; reflexivity.
Qed.

(** The ISBN of the second book is refused for the first; and so is the
    [_id] of the second book. *)
Lemma put_book_unique_isbn_witness :
  run (BookRoutes.put_book Sample.env 2%N Sample.id0 Sample.secondBook)
    Sample.secondShelf
  = (inr {| status := 400; json := JError "A book with this ISBN already exists" |},
     Sample.secondShelf, [OpBookFindByIdAndUpdate 0%N]) /\
  run (BookRoutes.put_book Sample.env 2%N Sample.id0
         (Sample.withBookId 10%N Sample.firstBook)) Sample.secondShelf
  = (inr {| status := 400; json := JException (MongoServerError immutableId) |},
     Sample.secondShelf, [OpBookFindByIdAndUpdate 0%N]).
Proof.
  assert (EC : ObjectId.cast Sample.id0 = Some 0%N) by (vm_compute; reflexivity).
  destruct (Book.lookup 0%N (books Sample.secondShelf)) as [d|] eqn:EL;
    [|vm_compute in EL; discriminate].
  split.
  - pose proof (put_book_unique_isbn Sample.env 2%N Sample.id0 0%N Sample.secondBook d
                  Sample.secondShelf eq_refl EC eq_refl EL) as H.
    cbv zeta in H.
    assert (Ht : existsb (fun o => negb (Book.hasId 0%N o) &&
                                   String.eqb (BookSchema.isbn o)
                                     (Text.trim (field (BookBody.isbn Sample.secondBook))))
                   (books Sample.secondShelf) = true) by (vm_compute; reflexivity).
    rewrite Ht in H. exact H.
  - exact (put_book_unique_isbn Sample.env 2%N Sample.id0 0%N
             (Sample.withBookId 10%N Sample.firstBook) d
             Sample.secondShelf eq_refl EC eq_refl EL).
Defined.

(** X24: a recomputation for an id that no book holds reads the reviews,
    sends its update, which finds nothing, and returns without an error;
    the collections are as before. *)
Theorem updateBookRating_missing_book
        (env : Env) (now : N) (bookId : ObjectId.t) (s : Store) :
  Book.lookup bookId (books s) = None ->
  run (ReviewRoutes.updateBookRating env now bookId) s =
    (inr tt, s, [OpReviewFind (Some bookId) None; OpBookFindByIdAndUpdate bookId]).
Proof.
  intros EL. rewrite updateBookRating_run. unfold recomputed.
  unfold Book.lookup in EL. rewrite (find_none_map _ _ _ EL), store_eta. reflexivity.
Qed.

Lemma updateBookRating_missing_book_witness :
  storeAfter (ReviewRoutes.updateBookRating Sample.env 1%N 7%N) Sample.twoReviews
  = Sample.twoReviews.
Proof.
  assert (EL : Book.lookup 7%N (books Sample.twoReviews) = None)
    by (vm_compute; reflexivity).
  unfold storeAfter.
  rewrite (updateBookRating_missing_book Sample.env 1%N 7%N Sample.twoReviews EL).
  reflexivity.
Defined.
